(** * Skillbook: stats store, level model and usage-tracking hook

    A shallow embedding of the Python sources

    - [plugins/skillbook/hooks/skill-usage-tracker.py]   (module [Hook])
    - [plugins/skillbook/skills/skillbook/skillbook.py]  (module [Cli])
    - [plugins/skillbook/skills/skillbook/skillbook_dashboard.py]
      (module [Dashboard])
    - [plugins/skillbook/skills/skillbook/installer.py]  (module [Installer])

    followed by the properties of the stats store, the level function and
    the hook.

    Python values are the JSON fragment of the language, exceptions are an
    explicit error type, the file system is a finite map from resolved paths
    to file contents, and floats are IEEE-754 binary64 as specified by the
    standard library's [SpecFloat]. *)

From Stdlib Require Import ZArith Lia Bool List String Ascii.
From Stdlib Require Import Floats.SpecFloat.
From Stdlib Require Import Sorting.Sorted.
From stdpp Require Import base option gmap strings.

Local Open Scope string_scope.
Local Open Scope list_scope.
Local Open Scope Z_scope.

(** ** Exceptions and the error monad *)

(** The exception classes the modelled code can meet.  [JSONDecodeError] and
    [UnicodeError] (with its subclass [UnicodeDecodeError]) are subclasses of
    [ValueError]: a handler that names [ValueError] catches both, a handler
    that names [json.JSONDecodeError] catches the first only. *)
Inductive exn : Set :=
  | OSError
  | JSONDecodeError
  | UnicodeError
  | ValueError
  | TypeError
  | KeyError
  | AttributeError
  | OverflowError
  | RuntimeError.

#[global] Instance exn_eq_dec : EqDecision exn.
Proof. solve_decision. Defined.

(** [subclass e c]: an exception of class [e] is an instance of class [c]. *)
Definition subclass (e c : exn) : bool :=
  match e, c with
  | JSONDecodeError, ValueError => true
  | UnicodeError, ValueError => true
  | _, _ => bool_decide (e = c)
  end.

(** [except (c1, ..., cn)] catches [e]. *)
Definition catches (classes : list exn) (e : exn) : bool :=
  existsb (subclass e) classes.

Inductive result (A : Type) : Type :=
  | Ok (a : A)
  | Raise (e : exn).
Arguments Ok {A} a.
Arguments Raise {A} e.

#[global] Instance result_ret : MRet result := fun _ a => Ok a.
#[global] Instance result_bind : MBind result := fun _ _ k r =>
  match r with
  | Ok a => k a
  | Raise e => Raise e
  end.

(** ** Floating point: the part of CPython's [math] and [float] the sources use *)

Module PyFloat.

(** binary64 *)
Definition prec : Z := 53.
Definition emax : Z := 1024.

(** [PyLong_AsDouble]: the nearest double (ties to even); an [int] too
    large for a double raises [OverflowError]. *)
Definition float_of_int (n : Z) : result spec_float :=
  match binary_normalize prec emax n 0 false with
  | S754_infinity _ => Raise OverflowError
  | f => Ok f
  end.

(** [math.sqrt] applied to an [int]: conversion, then the correctly rounded
    square root; a NaN result of a non-NaN argument is a [ValueError]. *)
Definition math_sqrt (n : Z) : result spec_float :=
  x ← float_of_int n;
  match SFsqrt prec emax x with
  | S754_nan => Raise ValueError
  | r => Ok r
  end.

(** [int(x)] for a float: truncation toward zero. *)
Definition int_of_float (f : spec_float) : result Z :=
  match f with
  | S754_zero _ => Ok 0
  | S754_finite s m e =>
      Ok (cond_Zopp s (if e <? 0 then Z.pos m / 2 ^ (- e) else Z.pos m * 2 ^ e))
  | S754_infinity _ => Raise OverflowError
  | S754_nan => Raise ValueError
  end.

(** [0.0], [1.0] and [10.0] *)
Definition zero : spec_float := S754_zero false.
Definition one : spec_float := S754_finite false 4503599627370496 (-52).
Definition ten : spec_float := S754_finite false 5629499534213120 (-49).

(** [x <= 0] and [x > 0] for a float [x]: both are false of NaN. *)
Definition le_zero (x : spec_float) : bool := SFleb x zero.
Definition gt_zero (x : spec_float) : bool := SFltb zero x.

(** [x * 10] and [x + 1] for a float [x]: the [int] operand converts
    exactly. *)
Definition mul_ten (x : spec_float) : spec_float := SFmul prec emax x ten.
Definition add_one (x : spec_float) : spec_float := SFadd prec emax x one.

(** [math.sqrt] applied to a float: NaN goes through, a NaN result of
    another argument is a [ValueError]. *)
Definition sqrt (x : spec_float) : result spec_float :=
  match x with
  | S754_nan => Ok S754_nan
  | _ =>
      match SFsqrt prec emax x with
      | S754_nan => Raise ValueError
      | r => Ok r
      end
  end.

(** [bool(x)] for a float: zero of either sign is false, NaN is true. *)
Definition nonzero (x : spec_float) : bool :=
  match x with
  | S754_zero _ => false
  | _ => true
  end.

End PyFloat.

(** ** binary64 in integer arithmetic

    The definitions below restate, on mantissa/exponent pairs of integers,
    what [SpecFloat] computes for the positive doubles that the level
    function meets.  They are related to [PyFloat] by the lemmas of the
    second half of the file. *)

(** [shr_inv N k mrs]: the record [mrs] is [N] shifted right by [k] bits,
    with the discarded part of [N] located by the round and sticky bits. *)
Definition shr_inv (N k : Z) (mrs : shr_record) : Prop :=
  let rem := N - shr_m mrs * 2 ^ k in
  0 <= shr_m mrs /\ 0 <= rem < 2 ^ k /\
  match shr_r mrs, shr_s mrs return Prop with
  | false, false => rem = 0
  | false, true => 0 < 2 * rem < 2 ^ k
  | true, false => 2 * rem = 2 ^ k
  | true, true => 2 ^ k < 2 * rem
  end.

(** Round to nearest, ties to even, of [N / 2 ^ k]. *)
Definition rne (N k : Z) : Z :=
  let q := N / 2 ^ k in
  let rem := N mod 2 ^ k in
  match 2 * rem ?= 2 ^ k with
  | Lt => q
  | Gt => q + 1
  | Eq => if Z.even q then q else q + 1
  end.

Definition normalize (m e : Z) : Z * Z :=
  if m =? 2 ^ 53 then (2 ^ 52, e + 1) else (m, e).

Definition finish (me : Z * Z) : spec_float :=
  if me.2 <=? 971 then S754_finite false (Z.to_pos me.1) me.2
  else S754_infinity false.

(** Mantissa and exponent of the double nearest to a positive integer. *)
Definition dbl_of_int (x : Z) : Z * Z :=
  let d := Z.log2 x + 1 in
  if d <=? 53 then (x * 2 ^ (53 - d), d - 53)
  else normalize (rne x (d - 53)) (d - 53).

Definition to_result (f : spec_float) : result spec_float :=
  match f with
  | S754_infinity _ => Raise OverflowError
  | f => Ok f
  end.

Definition normal (a : Z * Z) : Prop := 2 ^ 52 <= a.1 < 2 ^ 53.

(** For normalised pairs the order of the represented values is the
    lexicographic order on (exponent, mantissa). *)
Definition fle (a b : Z * Z) : Prop :=
  a.2 < b.2 \/ (a.2 = b.2 /\ a.1 <= b.1).

(** Integer square root rounded to nearest: [q + 1] when the remainder
    exceeds [q], that is when [sqrt m] lies above [q + 1/2]. *)
Definition sqrt_near (m : Z) : Z :=
  let q := Z.sqrt m in
  if q <? m - q * q then q + 1 else q.

(** Mantissa and exponent of the correctly rounded square root of a
    normalised double. *)
Definition dbl_sqrt (a : Z * Z) : Z * Z :=
  let e' := Z.div2 a.2 - 26 in
  normalize (sqrt_near (a.1 * 2 ^ (a.2 - 2 * e'))) e'.

(** The integer part of a positive double. *)
Definition dbl_trunc (a : Z * Z) : Z :=
  if a.2 <? 0 then a.1 / 2 ^ (- a.2) else a.1 * 2 ^ a.2.

(** The level of a positive count, in integer arithmetic. *)
Definition level_int (x : Z) : Z := dbl_trunc (dbl_sqrt (dbl_of_int x)).

(** ** Python values: the JSON fragment *)

(** What [json.load] can return.  A number written with a fraction or an
    exponent, and [NaN] and [Infinity], which [json.load] accepts, is a
    float; any other number is an [int].  A [dict] keeps its keys in
    insertion order, as Python does and as the written file shows; keys are
    strings, as in JSON. *)
#[local] Set Warnings "-register-all".
Inductive pyval : Type :=
  | PNone
  | PBool (b : bool)
  | PInt (n : Z)
  | PStr (s : string)
  | PList (l : list pyval)
  | PDict (d : list (string * pyval))
  | PFloat (f : spec_float).

Module Py.

(** [bool(v)] *)
Definition truthy (v : pyval) : bool :=
  match v with
  | PNone => false
  | PBool b => b
  | PInt n => negb (n =? 0)
  | PStr s => negb (String.eqb s "")
  | PList l => match l with [] => false | _ => true end
  | PDict d => match d with [] => false | _ => true end
  | PFloat f => PyFloat.nonzero f
  end.

(** Lookup of a key in a dict. *)
Fixpoint dict_get (d : list (string * pyval)) (k : string) : option pyval :=
  match d with
  | [] => None
  | (k', v) :: d' => if String.eqb k' k then Some v else dict_get d' k
  end.

(** [d[k] = v], also [{**d, k: v}]: an existing key keeps its position,
    a new key goes last. *)
Fixpoint dict_set (d : list (string * pyval)) (k : string) (v : pyval)
  : list (string * pyval) :=
  match d with
  | [] => [(k, v)]
  | (k', v') :: d' =>
      if String.eqb k' k then (k, v) :: d' else (k', v') :: dict_set d' k v
  end.

(** [v.get(k, dflt)]: only a dict has the method. *)
Definition get (v : pyval) (k : string) (dflt : pyval) : result pyval :=
  match v with
  | PDict d => Ok (default dflt (dict_get d k))
  | _ => Raise AttributeError
  end.

(** [v[k]] for a string key. *)
Definition getitem (v : pyval) (k : string) : result pyval :=
  match v with
  | PDict d =>
      match dict_get d k with
      | Some x => Ok x
      | None => Raise KeyError
      end
  | _ => Raise TypeError
  end.

(** [v[k] = x] for a string key. *)
Definition setitem (v : pyval) (k : string) (x : pyval) : result pyval :=
  match v with
  | PDict d => Ok (PDict (dict_set d k x))
  | _ => Raise TypeError
  end.

(** [sub in s] for two strings. *)
Fixpoint is_substring (sub s : string) : bool :=
  String.prefix sub s ||
  match s with
  | EmptyString => false
  | String _ s' => is_substring sub s'
  end.

(** [k in v] for a string [k]: key of a dict, element of a list,
    substring of a string; the other values are not containers. *)
Definition contains (v : pyval) (k : string) : result bool :=
  match v with
  | PDict d => Ok (bool_decide (is_Some (dict_get d k)))
  | PList l =>
      Ok (existsb (fun x => match x with PStr s => String.eqb s k | _ => false end) l)
  | PStr s => Ok (is_substring k s)
  | _ => Raise TypeError
  end.

(** A value used as an integer: [bool] is a subclass of [int]. *)
Definition as_int (v : pyval) : result Z :=
  match v with
  | PInt n => Ok n
  | PBool b => Ok (Z.b2z b)
  | _ => Raise TypeError
  end.

(** [v + 1]: integer addition for an [int] or a [bool], binary64 addition
    for a float; the other values of the fragment do not add to an [int]. *)
Definition add_one (v : pyval) : result pyval :=
  match v with
  | PInt n => Ok (PInt (n + 1))
  | PBool b => Ok (PInt (Z.b2z b + 1))
  | PFloat f => Ok (PFloat (PyFloat.add_one f))
  | _ => Raise TypeError
  end.

(** [{**v, ...}]: the unpacked value must be a mapping. *)
Definition as_dict (v : pyval) : result (list (string * pyval)) :=
  match v with
  | PDict d => Ok d
  | _ => Raise TypeError
  end.

(** [for x in v], [list(v)]: the elements of a list, the keys of a dict,
    the characters of a string (one per byte here); the other values are
    not iterable. *)
Definition iter (v : pyval) : result (list pyval) :=
  match v with
  | PList l => Ok l
  | PDict d => Ok (map (fun kv => PStr (fst kv)) d)
  | PStr s => Ok (map (fun c => PStr (String c EmptyString)) (list_ascii_of_string s))
  | _ => Raise TypeError
  end.

(** [d.update(other)] for two dicts. *)
Definition update (d other : list (string * pyval)) : list (string * pyval) :=
  fold_left (fun acc kv => dict_set acc (fst kv) (snd kv)) other d.

End Py.

(** The record of a skill never used:
    [{"uses": 0, "lastUsed": None, "pinned": False}]. *)
Definition fresh_skill : pyval :=
  PDict [("uses", PInt 0); ("lastUsed", PNone); ("pinned", PBool false)].

(** ** The world: files, system calls, standard output *)

(** A resolved absolute path, as its components. *)
Abbreviation path := (list string).

(** What a path names, as far as [json.load] can tell. *)
Inductive fcontent : Type :=
  | Complete (doc : pyval) (newline : bool)
      (** the text [json.dump(doc, indent=2, ensure_ascii=False)], followed
          by a newline or not *)
  | Partial (doc : pyval)
      (** a proper prefix of that text: a write that did not finish *)
  | Empty
      (** a file just created or truncated *)
  | Unreadable (e : exn)
      (** any other file: opening or parsing it raises [e] *)
  | Inaccessible
      (** a path that cannot be examined: [stat], [open] and the like raise
          [OSError] for a name too long or a directory without search
          permission *).

(** The system calls that change the file system. *)
Inductive syscall : Type :=
  | SysMkdir (dir : path)
  | SysMkstemp (tmp : path)
  | SysOpenTrunc (p : path)
  | SysWrite (p : path)
  | SysReplace (src dst : path)
  | SysUnlink (p : path).

(** A line printed on standard output. *)
Inductive line : Type :=
  | LevelUp (command : string) (old_level new_level : Z)
  | Pinned (skill : string) (pinned : bool)
  | UsageRecorded (skill : string).

Record world : Type := World {
  files : gmap path fcontent;
  calls : list syscall;      (** successful system calls, latest first *)
  stdout : list line         (** printed lines, latest first *)
}.

(** Which system calls fail during a run.  All fail with [OSError] but
    the write of a JSON text, which raises [OSError] when the file system
    refuses, [ValueError] when [json.dump] meets an [int] beyond the digit
    limit of the conversion to a string, and [UnicodeEncodeError] when the
    text does not encode. *)
Record faults : Type := Faults {
  mkdir_fails : bool;
  mkstemp_fails : bool;
  open_fails : bool;
  write_raises : option exn;
  replace_fails : bool;
  unlink_fails : bool
}.

Definition no_faults : faults := Faults false false false None false false.

(** What [sys.stdin.read()] followed by [json.loads] comes to. *)
Inductive stdin_state : Type :=
  | StdinBlank                    (** nothing but white space *)
  | StdinReads (r : result pyval) (** the outcome of reading and parsing *).

(** The surroundings of a run, which the code reads and never changes. *)
Record env : Type := Env {
  home : path;                 (** [Path.home()], resolved *)
  today : string;              (** [datetime.now().strftime("%Y-%m-%d")] *)
  stdin : stdin_state;
  resolve : string -> path;    (** [Path(os.path.expanduser(s)).resolve()] *)
  expands : string -> bool;    (** [Path(s).expanduser()] finds the home
                                   directory that [s] asks for *)
  locate : string -> path;     (** the file that [Path(s)] names *)
  tmp_random : string;         (** the random part of the name [mkstemp] picks *)
  failing : faults
}.

(** State and exceptions: a raised exception keeps the changes made so far. *)
Definition M (A : Type) : Type := world -> result A * world.

#[global] Instance M_ret : MRet M := fun _ a w => (Ok a, w).
#[global] Instance M_bind : MBind M := fun _ _ k c w =>
  match c w with
  | (Ok a, w') => k a w'
  | (Raise e, w') => (Raise e, w')
  end.

#[global] Instance M_fmap : FMap M := fun _ _ f c w =>
  match c w with
  | (Ok a, w') => (Ok (f a), w')
  | (Raise e, w') => (Raise e, w')
  end.

Definition raise {A} (e : exn) : M A := fun w => (Raise e, w).

Definition lift {A} (r : result A) : M A := fun w => (r, w).

(** [try: body except classes: handler] *)
Definition try_except {A} (body : M A) (classes : list exn) (handler : exn -> M A)
  : M A := fun w =>
  match body w with
  | (Raise e, w') => if catches classes e then handler e w' else (Raise e, w')
  | ok => ok
  end.

Definition print (l : line) : M unit := fun w =>
  (Ok tt, World (files w) (calls w) (l :: stdout w)).

(** [Path(s).expanduser().resolve()]: where [os.path.expanduser] leaves the
    name of an unknown user alone, [Path.expanduser] raises
    [RuntimeError]. *)
Definition expanduser_resolve (E : env) (s : string) : result path :=
  if expands E s then Ok (resolve E s) else Raise RuntimeError.

Module Sys.
Section Sys.
Variable E : env.

Definition record (c : syscall) (fs : gmap path fcontent) : M unit := fun w =>
  (Ok tt, World fs (c :: calls w) (stdout w)).

(** [p.is_file()], [p.exists()]: directories are not modelled.  An
    [OSError] of [stat] other than a missing file is not caught. *)
Definition is_file (p : path) : M bool := fun w =>
  match files w !! p with
  | None => (Ok false, w)
  | Some Inaccessible => (Raise OSError, w)
  | Some _ => (Ok true, w)
  end.

(** [with open(p) as f: json.load(f)] *)
Definition read_json (p : path) : M pyval := fun w =>
  match files w !! p with
  | None => (Raise OSError, w)
  | Some (Complete doc _) => (Ok doc, w)
  | Some (Partial _) => (Raise JSONDecodeError, w)
  | Some Empty => (Raise JSONDecodeError, w)
  | Some (Unreadable e) => (Raise e, w)
  | Some Inaccessible => (Raise OSError, w)
  end.

(** [dir.mkdir(parents=True, exist_ok=True)] *)
Definition mkdir (dir : path) : M unit := fun w =>
  if mkdir_fails (failing E) then (Raise OSError, w)
  else record (SysMkdir dir) (files w) w.

(** [tempfile.mkstemp(dir=dir, prefix=prefix, suffix=suffix)]: a new,
    empty file; a name already in use is never returned. *)
Definition mkstemp (dir : path) (prefix suffix : string) : M path := fun w =>
  let tmp := dir ++ [prefix +:+ tmp_random E +:+ suffix] in
  if mkstemp_fails (failing E) then (Raise OSError, w)
  else match files w !! tmp with
       | Some _ => (Raise OSError, w)
       | None =>
           (Ok tmp, World (<[tmp := Empty]> (files w)) (SysMkstemp tmp :: calls w) (stdout w))
       end.

(** [open(p, "w")]: creates or truncates. *)
Definition open_trunc (p : path) : M unit := fun w =>
  if open_fails (failing E) then (Raise OSError, w)
  else match files w !! p with
       | Some Inaccessible => (Raise OSError, w)
       | _ => record (SysOpenTrunc p) (<[p := Empty]> (files w)) w
       end.

(** [json.dump(doc, f, indent=2, ensure_ascii=False)], the optional
    [f.write("\n")], and closing the file.  A failing write leaves a
    prefix of the text behind. *)
Definition write_json (p : path) (doc : pyval) (newline : bool) : M unit := fun w =>
  match write_raises (failing E) with
  | Some e => (Raise e, World (<[p := Partial doc]> (files w)) (calls w) (stdout w))
  | None => record (SysWrite p) (<[p := Complete doc newline]> (files w)) w
  end.

(** [os.replace(src, dst)] *)
Definition replace (src dst : path) : M unit := fun w =>
  if replace_fails (failing E) then (Raise OSError, w)
  else match files w !! src, files w !! dst with
       | None, _ | Some Inaccessible, _ | _, Some Inaccessible => (Raise OSError, w)
       | Some c, _ => record (SysReplace src dst) (<[dst := c]> (delete src (files w))) w
       end.

(** [os.unlink(p)] *)
Definition unlink (p : path) : M unit := fun w =>
  if unlink_fails (failing E) then (Raise OSError, w)
  else match files w !! p with
       | None | Some Inaccessible => (Raise OSError, w)
       | Some _ => record (SysUnlink p) (delete p (files w)) w
       end.

End Sys.
End Sys.

(** [p.parent] *)
Definition parent (p : path) : path := removelast p.

(** [p.relative_to(base)] succeeds. *)
Definition is_under (base p : path) : bool := bool_decide (base `prefix_of` p).

(** ** The hook: skill-usage-tracker.py *)

Module Hook.

(** [ALIASES] *)
Definition ALIASES : list (string * string) :=
  [("wrap", "session-wrap:wrap")].

(** [calculate_level] *)
Definition calculate_level (uses : Z) : result Z :=
  if uses <=? 0 then Ok 0
  else
    r ← PyFloat.math_sqrt (uses * 10);
    i ← PyFloat.int_of_float r;
    Ok (Z.max 1 i).

(** [calculate_level] applied to a float. *)
Definition calculate_level_float (uses : spec_float) : result Z :=
  if PyFloat.le_zero uses then Ok 0
  else
    r ← PyFloat.sqrt (PyFloat.mul_ten uses);
    i ← PyFloat.int_of_float r;
    Ok (Z.max 1 i).

(** [calculate_level] applied to a value read from the stats file: the
    comparison [uses <= 0] is the first thing to fail on a non-number. *)
Definition calculate_level_of (uses : pyval) : result Z :=
  match uses with
  | PFloat f => calculate_level_float f
  | _ => n ← Py.as_int uses; calculate_level n
  end.

(** The class [[a-zA-Z0-9_:-]] *)
Definition is_command_char (c : ascii) : bool :=
  let n := N_of_ascii c in
  ((97 <=? n) && (n <=? 122) || (65 <=? n) && (n <=? 90) ||
   (48 <=? n) && (n <=? 57) || (n =? 95) || (n =? 58) || (n =? 45))%N.

Fixpoint take_while (f : ascii -> bool) (s : string) : string :=
  match s with
  | EmptyString => EmptyString
  | String c s' => if f c then String c (take_while f s') else EmptyString
  end.

(** [extract_command]: [re.match(r'^/([a-zA-Z0-9_:-]+)', prompt)] and its
    group 1; [re.match] wants a string. *)
Definition extract_command (prompt : pyval) : result (option string) :=
  if negb (Py.truthy prompt) then Ok None
  else match prompt with
       | PStr (String "/" rest) =>
           let token := take_while is_command_char rest in
           if String.eqb token "" then Ok None else Ok (Some token)
       | PStr _ => Ok None
       | _ => Raise TypeError
       end.

(** [resolve_alias]: [ALIASES.get(command, command)] *)
Definition resolve_alias (command : string) : string :=
  default command (snd <$> List.find (fun kv => String.eqb (fst kv) command) ALIASES).

(** The part of [update_stats] between loading and writing: the updated
    document and the two levels. *)
Definition updated_stats (name today : string) (stats : pyval)
  : result (pyval * Z * Z) :=
  skills ← Py.get stats "skills" (PDict []);
  present ← Py.contains skills name;
  skills ← (if (present : bool) then Ok skills else Py.setitem skills name fresh_skill);
  skill ← Py.getitem skills name;
  uses ← Py.getitem skill "uses";
  old_level ← calculate_level_of uses;
  skill_items ← Py.as_dict skill;
  uses' ← Py.add_one uses;
  let updated_skill :=
    Py.dict_set (Py.dict_set skill_items "uses" uses')
                "lastUsed" (PStr today) in
  skills_items ← Py.as_dict skills;
  let updated_skills := Py.dict_set skills_items name (PDict updated_skill) in
  stats_items ← Py.as_dict stats;
  total ← Py.get stats "totalUses" (PInt 0);
  total' ← Py.add_one total;
  let updated :=
    Py.dict_set (Py.dict_set (Py.dict_set stats_items
      "skills" (PDict updated_skills))
      "totalUses" total')
      "lastUpdated" (PStr today) in
  new_level ← calculate_level_of uses';
  Ok (PDict updated, old_level, new_level).

(** The document [load_stats] returns when there is nothing to load:
    [{"version": 1, "totalUses": 0, "skills": {}}]. *)
Definition fresh_stats : pyval :=
  PDict [("version", PInt 1); ("totalUses", PInt 0); ("skills", PDict [])].

Section Hook.
Variable E : env.

Definition claude_dir : path := home E ++ [".claude"].

(** [read_stdin_json] *)
Definition read_stdin_json : result pyval :=
  match stdin E with
  | StdinBlank => Ok PNone
  | StdinReads (Ok v) => Ok v
  | StdinReads (Raise e) =>
      if catches [JSONDecodeError; OSError] e then Ok PNone else Raise e
  end.

(** [get_stats_path] *)
Definition get_stats_path : M path :=
  let config_path := claude_dir ++ ["skillbook.config.json"] in
  let default_path := claude_dir ++ ["skillbook-stats.json"] in
  found ← Sys.is_file config_path;
  if (found : bool) then
    try_except
      (cfg ← Sys.read_json config_path;
       raw ← lift (Py.get cfg "statsFile" (PStr ""));
       if Py.truthy raw then
         match raw with
         | PStr s => mret (resolve E s)
         | _ => raise TypeError
         end
       else mret default_path)
      [OSError; JSONDecodeError; TypeError]
      (fun _ => mret default_path)
  else mret default_path.

(** The three places [check_skill_exists] looks at inside one installed
    plugin. *)
Definition plugin_has_skill (plugin_name skill_name : string) (entry : pyval)
  : M bool :=
  install_path ← lift (Py.get entry "installPath" (PStr ""));
  if negb (Py.truthy install_path) then mret false
  else match install_path with
       | PStr s =>
           let p := locate E s in
           root ← Sys.is_file (p ++ ["SKILL.md"]);
           if (root : bool) then mret true
           else
             named ← (if String.eqb skill_name "" then mret false
                      else Sys.is_file (p ++ ["skills"; skill_name; "SKILL.md"]));
             if (named : bool) then mret true
             else Sys.is_file (p ++ ["skills"; plugin_name; "SKILL.md"])
       | _ => raise TypeError
       end.

(** [for entry in entries]: stops at the first hit. *)
Fixpoint scan_entries (plugin_name skill_name : string) (entries : list pyval)
  : M bool :=
  match entries with
  | [] => mret false
  | entry :: rest =>
      hit ← plugin_has_skill plugin_name skill_name entry;
      if (hit : bool) then mret true
      else scan_entries plugin_name skill_name rest
  end.

(** [for key, entries in plugins.items()] *)
Fixpoint scan_plugins (plugin_name skill_name : string)
    (plugins : list (string * pyval)) : M bool :=
  match plugins with
  | [] => mret false
  | (key, entries) :: rest =>
      if negb (String.prefix (plugin_name +:+ "@") key)
      then scan_plugins plugin_name skill_name rest
      else match entries with
           | PList l =>
               hit ← scan_entries plugin_name skill_name l;
               if (hit : bool) then mret true
               else scan_plugins plugin_name skill_name rest
           | _ => scan_plugins plugin_name skill_name rest
           end
  end.

(** [name.split(":")[0]] and [name.split(":", 1)[1]] *)
Fixpoint split_colon (name : string) : string * option string :=
  match name with
  | EmptyString => (EmptyString, None)
  | String c rest =>
      if Ascii.eqb c ":" then (EmptyString, Some rest)
      else let '(a, b) := split_colon rest in (String c a, b)
  end.

(** [check_skill_exists] *)
Definition check_skill_exists (name : string) : M bool :=
  let commands_dir := claude_dir ++ ["commands"] in
  let skills_dir := claude_dir ++ ["skills"] in
  let plugins_dir := claude_dir ++ ["plugins"] in
  let installed_plugins_path := plugins_dir ++ ["installed_plugins.json"] in
  is_command ← Sys.is_file (commands_dir ++ [name +:+ ".md"]);
  if (is_command : bool) then mret true
  else
    is_skill ← Sys.is_file (skills_dir ++ [name; "SKILL.md"]);
    if (is_skill : bool) then mret true
    else
      has_plugins ← Sys.is_file installed_plugins_path;
      if (has_plugins : bool) then
        loaded ← try_except (Some <$> Sys.read_json installed_plugins_path)
                   [OSError; JSONDecodeError] (fun _ => mret None);
        match loaded with
        | None => mret false
        | Some plugins_data =>
            plugins ← lift (Py.get plugins_data "plugins" (PDict []));
            match plugins with
            | PDict items =>
                let '(plugin_name, skill_name) :=
                  match split_colon name with
                  | (a, Some b) => (a, b)
                  | (a, None) => (name, EmptyString)
                  end in
                scan_plugins plugin_name skill_name items
            | _ => mret false
            end
        end
      else mret false.

(** [load_stats] *)
Definition load_stats (stats_path : path) : M pyval :=
  found ← Sys.is_file stats_path;
  if (found : bool) then
    try_except (Sys.read_json stats_path)
      [OSError; JSONDecodeError] (fun _ => mret fresh_stats)
  else mret fresh_stats.

(** [write_stats_atomic] *)
Definition write_stats_atomic (stats_path : path) (stats : pyval) : M unit :=
  Sys.mkdir E (parent stats_path);;
  tmp_path ← Sys.mkstemp E (parent stats_path) ".skillbook-stats-" ".tmp";
  try_except
    (Sys.write_json E tmp_path stats true;;
     Sys.replace E tmp_path stats_path)
    [OSError]
    (fun e =>
       try_except (Sys.unlink E tmp_path) [OSError] (fun _ => mret tt);;
       raise e).

(** [update_stats] *)
Definition update_stats (name : string) (stats_path : path) : M (Z * Z) :=
  stats ← load_stats stats_path;
  '(updated, old_level, new_level) ← lift (updated_stats name (today E) stats);
  write_stats_atomic stats_path updated;;
  mret (old_level, new_level).

(** [main]; returning early is returning [tt]. *)
Definition main : M unit :=
  input_data ← lift read_stdin_json;
  match input_data with
  | PNone => mret tt
  | _ =>
      prompt ← lift (Py.get input_data "prompt" (PStr ""));
      if negb (Py.truthy prompt) then mret tt
      else
        command ← lift (extract_command prompt);
        match command with
        | None => mret tt
        | Some command =>
            let command := resolve_alias command in
            known ← check_skill_exists command;
            if negb (known : bool) then mret tt
            else
              stats_path ← get_stats_path;
              levels ← try_except (Some <$> update_stats command stats_path)
                         [OSError] (fun _ => mret None);
              match levels with
              | None => mret tt
              | Some (old_level, new_level) =>
                  if old_level <? new_level
                  then print (LevelUp command old_level new_level)
                  else mret tt
              end
        end
  end.

End Hook.
End Hook.

(** ** The terminal client: skillbook.py *)

Module Cli.

(** [calc_level] *)
Definition calc_level (uses : Z) : result Z :=
  if 0 <? uses then
    r ← PyFloat.math_sqrt (uses * 10);
    i ← PyFloat.int_of_float r;
    Ok (Z.max 1 i)
  else Ok 0.

(** [calc_level] applied to a float. *)
Definition calc_level_float (uses : spec_float) : result Z :=
  if PyFloat.gt_zero uses then
    r ← PyFloat.sqrt (PyFloat.mul_ten uses);
    i ← PyFloat.int_of_float r;
    Ok (Z.max 1 i)
  else Ok 0.

(** [calc_level] applied to a value of the document: [uses > 0] is the
    first thing to fail on a non-number. *)
Definition calc_level_of (uses : pyval) : result Z :=
  match uses with
  | PFloat f => calc_level_float f
  | _ => n ← Py.as_int uses; calc_level n
  end.

(** [if skill_name not in stats["skills"]: stats["skills"][skill_name] = {...}]
    and the skills that result. *)
Definition ensure_skill (skill_name : string) (stats : pyval) : result pyval :=
  skills ← Py.getitem stats "skills";
  present ← Py.contains skills skill_name;
  if (present : bool) then Ok skills
  else Py.setitem skills skill_name fresh_skill.

(** [pin_skill] before [save_stats]: the document as changed in place,
    and the new flag. *)
Definition pin_skill_doc (skill_name : string) (stats : pyval)
  : result (pyval * bool) :=
  skills ← ensure_skill skill_name stats;
  skill ← Py.getitem skills skill_name;
  old ← Py.get skill "pinned" (PBool false);
  let pinned := negb (Py.truthy old) in
  skill ← Py.setitem skill "pinned" (PBool pinned);
  skills ← Py.setitem skills skill_name skill;
  stats ← Py.setitem stats "skills" skills;
  Ok (stats, pinned).

(** [increment_usage] before [save_stats]: the document as changed in
    place, and the two levels. *)
Definition increment_usage_doc (skill_name today : string) (stats : pyval)
  : result (pyval * Z * Z) :=
  skills ← ensure_skill skill_name stats;
  skill ← Py.getitem skills skill_name;
  uses ← Py.getitem skill "uses";
  old_level ← calc_level_of uses;
  uses' ← Py.add_one uses;
  skill ← Py.setitem skill "uses" uses';
  skill ← Py.setitem skill "lastUsed" (PStr today);
  skills ← Py.setitem skills skill_name skill;
  stats ← Py.setitem stats "skills" skills;
  total ← Py.get stats "totalUses" (PInt 0);
  total' ← Py.add_one total;
  stats ← Py.setitem stats "totalUses" total';
  new_level ← calc_level_of uses';
  Ok (stats, old_level, new_level).

(** The document [load_stats] returns when there is no stats file. *)
Definition fresh_stats (today : string) : pyval :=
  PDict [("version", PInt 1); ("lastUpdated", PStr today);
         ("totalUses", PInt 0); ("skills", PDict [])].

(** The document [save_stats] writes:
    [stats["lastUpdated"] = datetime.now().strftime("%Y-%m-%d")]. *)
Definition stamped (today : string) (stats : pyval) : result pyval :=
  Py.setitem stats "lastUpdated" (PStr today).

(** [get_rarity] *)
Definition get_rarity (uses : Z) : string :=
  if 100 <=? uses then "⭐⭐⭐⭐⭐"
  else if 50 <=? uses then "⭐⭐⭐⭐"
  else if 20 <=? uses then "⭐⭐⭐"
  else if 5 <=? uses then "⭐⭐"
  else if 1 <=? uses then "⭐"
  else "❓".

(** [for name, info in found.items():
       if name not in all_skills: all_skills[name] = info] *)
Definition add_missing (all_skills found : list (string * pyval))
  : list (string * pyval) :=
  fold_left (fun acc kv =>
               if bool_decide (is_Some (Py.dict_get acc (fst kv))) then acc
               else Py.dict_set acc (fst kv) (snd kv))
            found all_skills.

(** [scan_all_skills], given what [scan_local_skills], [scan_commands],
    [scan_plugin_skills] and [scan_project_skills] returned. *)
Definition scan_all_skills (local commands plugins project : list (string * pyval))
  : list (string * pyval) :=
  add_missing (add_missing (add_missing (Py.update [] local) commands) plugins) project.

Section Cli.
Variable E : env.

Definition CLAUDE_DIR : path := home E ++ [".claude"].
Definition CONFIG_FILE : path := CLAUDE_DIR ++ ["skillbook.config.json"].

(** [for k, v in cfg.items(): if isinstance(v, str):
       result[k] = Path(v).expanduser().resolve()] *)
Fixpoint config_paths (items : list (string * pyval)) : result (list (string * path)) :=
  match items with
  | [] => Ok []
  | (k, PStr s) :: rest =>
      p ← expanduser_resolve E s;
      paths ← config_paths rest;
      Ok ((k, p) :: paths)
  | _ :: rest => config_paths rest
  end.

(** [_load_config]: the string values of the configuration, as resolved
    paths.  The two warnings go to standard error. *)
Definition _load_config : M (list (string * path)) :=
  found ← Sys.is_file CONFIG_FILE;
  if (found : bool) then
    try_except
      (cfg ← Sys.read_json CONFIG_FILE;
       match cfg with
       | PDict items => lift (config_paths items)
       | _ => raise AttributeError
       end)
      [JSONDecodeError; OSError]
      (fun _ => mret [])
  else mret [].

(** [STATS_FILE = _config.get("statsFile", CLAUDE_DIR / "skillbook-stats.json")] *)
Definition STATS_FILE : M path :=
  config ← _load_config;
  mret (default (CLAUDE_DIR ++ ["skillbook-stats.json"])
          (snd <$> List.find (fun kv => String.eqb (fst kv) "statsFile") config)).

Variable stats_file : path.

(** [load_stats] *)
Definition load_stats : M pyval :=
  found ← Sys.is_file stats_file;
  if (found : bool) then Sys.read_json stats_file
  else mret (fresh_stats (today E)).

(** [save_stats] *)
Definition save_stats (stats : pyval) : M unit :=
  stats ← lift (stamped (today E) stats);
  Sys.mkdir E (parent stats_file);;
  Sys.open_trunc E stats_file;;
  Sys.write_json E stats_file stats false.

(** [pin_skill] *)
Definition pin_skill (skill_name : string) (stats : pyval) : M line :=
  '(stats, pinned) ← lift (pin_skill_doc skill_name stats);
  save_stats stats;;
  mret (Pinned skill_name pinned).

(** [increment_usage] *)
Definition increment_usage (skill_name : string) (stats : pyval)
  : M (option line) :=
  '(stats, old_level, new_level) ←
    lift (increment_usage_doc skill_name (today E) stats);
  save_stats stats;;
  if old_level <? new_level
  then mret (Some (LevelUp skill_name old_level new_level))
  else mret None.

End Cli.
End Cli.

(** ** The dashboard generator: skillbook_dashboard.py *)

Module Dashboard.

(** [calc_level] *)
Definition calc_level (uses : Z) : result Z :=
  if 0 <? uses then
    r ← PyFloat.math_sqrt (uses * 10);
    i ← PyFloat.int_of_float r;
    Ok (Z.max 1 i)
  else Ok 0.

(** [get_rarity_stars] *)
Definition get_rarity_stars (uses : Z) : Z :=
  if 100 <=? uses then 5
  else if 50 <=? uses then 4
  else if 20 <=? uses then 3
  else if 5 <=? uses then 2
  else if 1 <=? uses then 1
  else 0.

End Dashboard.

(** ** The installer: installer.py *)

Module Installer.

Definition HOOK_COMMAND : string := "python3 ~/.claude/hooks/skill-usage-tracker.py".

Definition HOOK_DETECT_PATTERNS : list string :=
  ["skill-usage-tracker"; "command-usage-tracker"].

(** [any(pattern in cmd for pattern in patterns)] *)
Fixpoint any_pattern_in (patterns : list string) (cmd : pyval) : result bool :=
  match patterns with
  | [] => Ok false
  | pattern :: rest =>
      found ← Py.contains cmd pattern;
      if (found : bool) then Ok true else any_pattern_in rest cmd
  end.

(** [for hook in entry.get("hooks", [])]: the command of the first hook
    that a pattern occurs in; the loop breaks there. *)
Fixpoint first_match (hooks : list pyval) : result (option pyval) :=
  match hooks with
  | [] => Ok None
  | hook :: rest =>
      cmd ← Py.get hook "command" (PStr "");
      found ← any_pattern_in HOOK_DETECT_PATTERNS cmd;
      if (found : bool) then Ok (Some cmd) else first_match rest
  end.

(** [for i, entry in enumerate(user_prompt_hooks)], from index [i] on. *)
Fixpoint matches_from (i : nat) (entries : list pyval) : result (list (nat * pyval)) :=
  match entries with
  | [] => Ok []
  | entry :: rest =>
      hooks ← Py.get entry "hooks" (PList []);
      hooks ← Py.iter hooks;
      hit ← first_match hooks;
      matches ← matches_from (S i) rest;
      Ok (match hit with
          | Some cmd => (i, cmd) :: matches
          | None => matches
          end)
  end.

(** [_find_hook_indices] *)
Definition _find_hook_indices (settings : pyval) : result (list (nat * pyval)) :=
  hooks_section ← Py.get settings "hooks" (PDict []);
  user_prompt_hooks ← Py.get hooks_section "UserPromptSubmit" (PList []);
  entries ← Py.iter user_prompt_hooks;
  matches_from 0 entries.

(** What [_resolve_hook_source] finds in the repository. *)
Inductive hook_source : Type := PyHook | ShHook | NoHook.

(** [hook_command] of [merge_settings_json] *)
Definition hook_command (source_hook : hook_source) : string :=
  match source_hook with
  | ShHook => "bash ~/.claude/hooks/skill-usage-tracker.sh"
  | _ => HOOK_COMMAND
  end.

(** [new_hook_entry] *)
Definition new_hook_entry (hook_command : string) : pyval :=
  PDict [("hooks", PList [PDict [("type", PStr "command");
                                 ("command", PStr hook_command)]])].

(** [cmd == hook_command] *)
Definition is_command (hook_command : string) (cmd : pyval) : bool :=
  match cmd with
  | PStr s => String.eqb s hook_command
  | _ => false
  end.

(** [merge_settings_json] between [_read_settings] and [_write_settings]:
    [None] when the hook is registered already, else the settings to
    write. *)
Definition merged_settings (hook_command : string) (settings : pyval)
  : result (option pyval) :=
  existing ← _find_hook_indices settings;
  if existsb (fun ic => is_command hook_command (snd ic)) existing then Ok None
  else
    hooks_section ← Py.get settings "hooks" (PDict []);
    old_hooks ← Py.get hooks_section "UserPromptSubmit" (PList []);
    entries ← Py.iter old_hooks;
    let user_prompt_hooks :=
      match existing with
      | [] => entries ++ [new_hook_entry hook_command]
      | _ => imap (fun i entry =>
                     if bool_decide (i ∈ existing.*1)
                     then new_hook_entry hook_command else entry) entries
      end in
    hooks_items ← Py.as_dict hooks_section;
    settings_items ← Py.as_dict settings;
    Ok (Some (PDict (Py.dict_set settings_items "hooks"
                (PDict (Py.dict_set hooks_items "UserPromptSubmit"
                          (PList user_prompt_hooks)))))).

(** [sorted(existing, key=lambda x: x[0], reverse=True)], by insertion;
    equal keys keep their order. *)
Fixpoint insert_desc (x : nat * pyval) (l : list (nat * pyval)) : list (nat * pyval) :=
  match l with
  | [] => [x]
  | y :: l' => if (fst y <=? fst x)%nat then x :: l else y :: insert_desc x l'
  end.

Definition sorted_desc (l : list (nat * pyval)) : list (nat * pyval) :=
  foldr insert_desc [] l.

(** [{k: v for k, v in d.items() if k != key}] *)
Definition without (key : string) (d : list (string * pyval)) : list (string * pyval) :=
  filter (fun kv => fst kv <> key) d.

(** Step 1 of [uninstall] between [_read_settings] and [_write_settings]:
    [None] when there is nothing to remove, else the settings to write.
    Every [pop] is in range, its index being one that [enumerate] gave for
    the same list. *)
Definition unregistered_settings (settings : pyval) : result (option pyval) :=
  if negb (Py.truthy settings) then Ok None
  else
    existing ← _find_hook_indices settings;
    match existing with
    | [] => Ok None
    | _ =>
        hooks_section ← Py.get settings "hooks" (PDict []);
        old_hooks ← Py.get hooks_section "UserPromptSubmit" (PList []);
        entries ← Py.iter old_hooks;
        let user_prompt_hooks :=
          fold_left (fun l ic => delete (fst ic) l) (sorted_desc existing) entries in
        hooks_items ← Py.as_dict hooks_section;
        settings_items ← Py.as_dict settings;
        let updated_hooks :=
          match user_prompt_hooks with
          | [] => without "UserPromptSubmit" hooks_items
          | _ => Py.dict_set hooks_items "UserPromptSubmit" (PList user_prompt_hooks)
          end in
        Ok (Some (PDict match updated_hooks with
                        | [] => without "hooks" settings_items
                        | _ => Py.dict_set settings_items "hooks" (PDict updated_hooks)
                        end))
    end.

Section Installer.
Variable E : env.

Definition CLAUDE_DIR : path := home E ++ [".claude"].
Definition CONFIG_FILE : path := CLAUDE_DIR ++ ["skillbook.config.json"].

(** [_validate_stats_path] *)
Definition _validate_stats_path (path_str : pyval) : result path :=
  match path_str with
  | PStr s =>
      p ← expanduser_resolve E s;
      if is_under (home E) p then Ok p else Raise ValueError
  | _ => Raise TypeError
  end.

(** [_find_stats_path] *)
Definition _find_stats_path : M path :=
  let default_path := CLAUDE_DIR ++ ["skillbook-stats.json"] in
  found ← Sys.is_file CONFIG_FILE;
  if (found : bool) then
    try_except
      (cfg ← Sys.read_json CONFIG_FILE;
       present ← lift (Py.contains cfg "statsFile");
       if (present : bool) then
         raw ← lift (Py.getitem cfg "statsFile");
         lift (_validate_stats_path raw)
       else mret default_path)
      [OSError; JSONDecodeError; ValueError]
      (fun _ => mret default_path)
  else mret default_path.

End Installer.
End Installer.

(** * Specification-side definitions *)

(** ** The level function, as specified *)

(** The level as the specification words it: [0] for no use, otherwise
    [max(1, floor(sqrt(uses * 10)))]. *)
Definition level_spec (u : Z) : Z :=
  if u <=? 0 then 0 else Z.max 1 (Z.sqrt (u * 10)).

(** [level(u) <= level(u + 1)], both levels being returned. *)
Definition level_monotone_at (u : Z) : Prop :=
  exists a b,
    Hook.calculate_level u = Ok a /\ Hook.calculate_level (u + 1) = Ok b /\ a <= b.

(** ** Reading a stats document *)

(** [doc["skills"]], when it is a dict. *)
Definition skills_of (doc : pyval) : option (list (string * pyval)) :=
  match doc with
  | PDict stats =>
      match Py.dict_get stats "skills" with
      | Some (PDict skills) => Some skills
      | _ => None
      end
  | _ => None
  end.

(** [doc["totalUses"]], when it is an integer. *)
Definition total_uses (doc : pyval) : option Z :=
  match doc with
  | PDict stats =>
      match Py.dict_get stats "totalUses" with
      | Some (PInt t) => Some t
      | _ => None
      end
  | _ => None
  end.

(** [skill[key]] for the record of one skill. *)
Definition skill_field (skill : pyval) (key : string) : option pyval :=
  match skill with
  | PDict items => Py.dict_get items key
  | _ => None
  end.

(** [skill["uses"]], when it is an integer. *)
Definition skill_uses (skill : pyval) : option Z :=
  match skill_field skill "uses" with
  | Some (PInt n) => Some n
  | _ => None
  end.

(** [doc["skills"][name]] *)
Definition skill_of (doc : pyval) (name : string) : option pyval :=
  skills ← skills_of doc; Py.dict_get skills name.

(** The sum of [skills[k]["uses"]] over the entries of [skills]. *)
Definition sum_uses (skills : list (string * pyval)) : Z :=
  foldr (fun kv acc => default 0 (skill_uses kv.2) + acc) 0 skills.

(** A stats document of the data model: every skill has an integer
    [uses], no skill occurs twice, and [totalUses] is the sum of the uses. *)
Definition consistent (doc : pyval) : Prop :=
  exists skills,
    skills_of doc = Some skills /\
    NoDup skills.*1 /\
    Forall (fun kv => is_Some (skill_uses kv.2)) skills /\
    total_uses doc = Some (sum_uses skills).

(** The documents that reach the disk: starting from the document of an
    absent stats file, every document written by [update_stats] of the
    hook, by [increment_usage] and by [pin_skill] of the terminal client. *)
Inductive reachable : pyval -> Prop :=
  | reach_fresh :
      reachable Hook.fresh_stats
  | reach_fresh_cli today :
      reachable (Cli.fresh_stats today)
  | reach_update_stats name today doc doc' old_level new_level :
      reachable doc ->
      Hook.updated_stats name today doc = Ok (doc', old_level, new_level) ->
      reachable doc'
  | reach_increment_usage name today doc doc1 doc' old_level new_level :
      reachable doc ->
      Cli.increment_usage_doc name today doc = Ok (doc1, old_level, new_level) ->
      Cli.stamped today doc1 = Ok doc' ->
      reachable doc'
  | reach_pin_skill name today doc doc1 doc' pinned :
      reachable doc ->
      Cli.pin_skill_doc name doc = Ok (doc1, pinned) ->
      Cli.stamped today doc1 = Ok doc' ->
      reachable doc'.

(** ** The documents the operations build *)

(** The record of a skill after one more use. *)
Definition used_skill (today : string) (skill : list (string * pyval)) (uses : Z)
  : pyval :=
  PDict (Py.dict_set (Py.dict_set skill "uses" (PInt (uses + 1)))
                     "lastUsed" (PStr today)).

(** The document after one more use of [name], as both [update_stats] and
    [increment_usage] followed by [save_stats] build it. *)
Definition used_stats (name today : string) (stats skills skill : list (string * pyval))
    (uses total : Z) : pyval :=
  PDict (Py.dict_set (Py.dict_set (Py.dict_set stats
    "skills" (PDict (Py.dict_set skills name (used_skill today skill uses))))
    "totalUses" (PInt (total + 1)))
    "lastUpdated" (PStr today)).

(** The record of a skill whose counter becomes [uses'], used [today]. *)
Definition counted_skill (today : string) (skill : list (string * pyval))
    (uses' : pyval) : pyval :=
  PDict (Py.dict_set (Py.dict_set skill "uses" uses') "lastUsed" (PStr today)).

(** The document in which the counter of [name] becomes [uses'] and the
    total [total']: [used_stats] for whatever [uses + 1] and [total + 1]
    come to. *)
Definition counted_stats (name today : string) (stats skills skill : list (string * pyval))
    (uses' total' : pyval) : pyval :=
  PDict (Py.dict_set (Py.dict_set (Py.dict_set stats
    "skills" (PDict (Py.dict_set skills name (counted_skill today skill uses'))))
    "totalUses" total')
    "lastUpdated" (PStr today)).

(** The document after toggling the pin of [name] and saving. *)
Definition pinned_stats (name today : string) (stats skills skill : list (string * pyval))
    (pinned : bool) : pyval :=
  PDict (Py.dict_set (Py.dict_set stats
    "skills" (PDict (Py.dict_set skills name
                       (PDict (Py.dict_set skill "pinned" (PBool pinned))))))
    "lastUpdated" (PStr today)).

(** ** Paths that can be examined *)

(** Every path of [w] can be examined: no lookup raises. *)
Definition accessible (w : world) : Prop :=
  forall p, files w !! p <> Some Inaccessible.

(** [p] names a file that [p.is_file()] finds. *)
Definition present (w : world) (p : path) : Prop :=
  exists c, files w !! p = Some c /\ c <> Inaccessible.

(** ** Computations that leave the world alone *)

Definition readonly {A} (c : M A) : Prop := forall w, (c w).2 = w.

(** ** The temporary file *)

(** The temporary file [write_stats_atomic] asks [mkstemp] for. *)
Definition tmp_path_of (E : env) (stats_path : path) : path :=
  parent stats_path ++ [".skillbook-stats-" +:+ tmp_random E +:+ ".tmp"].

(** ** What a recorded use changes *)

(** The uses of [name] a document shows; no record, no use. *)
Definition uses_in (doc : pyval) (name : string) : Z :=
  match skill_of doc name with
  | Some skill =>
      match skill_field skill "uses" with
      | Some v => match Py.as_int v with Ok n => n | Raise _ => 0 end
      | None => 0
      end
  | None => 0
  end.

(** [doc["skills"][name]["uses"]], whatever it is. *)
Definition counter (doc : pyval) (name : string) : option pyval :=
  skill ← skill_of doc name; skill_field skill "uses".

(** The counter of [name], if [doc] has one, is no float. *)
Definition integer_counter (doc : pyval) (name : string) : Prop :=
  forall f, counter doc name <> Some (PFloat f).


(** ** What a run of the hook comes to *)

(** The document the hook starts from, given what the stats path names:
    the document of a complete file, the fresh document when there is no
    file or none that opens and parses, and an exception when the path
    cannot be examined or the file does not decode. *)
Definition stats_held (c : option fcontent) : result pyval :=
  match c with
  | Some (Complete doc _) => Ok doc
  | None | Some (Partial _) | Some Empty => Ok Hook.fresh_stats
  | Some (Unreadable e) =>
      if catches [OSError; JSONDecodeError] e then Ok Hook.fresh_stats else Raise e
  | Some Inaccessible => Raise OSError
  end.

(** The name the hook takes from its input: the command token the prompt
    starts with, with its alias resolved. *)
Definition recorded_name (E : env) : option string :=
  match Hook.read_stdin_json E with
  | Ok input =>
      match Py.get input "prompt" (PStr "") with
      | Ok prompt =>
          match Hook.extract_command prompt with
          | Ok (Some token) => Some (Hook.resolve_alias token)
          | _ => None
          end
      | Raise _ => None
      end
  | Raise _ => None
  end.

(** The hook did nothing that shows: no line printed, the stats file as it
    was, and no other file touched, a temporary file left behind apart. *)
Definition hook_idle (E : env) (w w' : world) : Prop :=
  stdout w' = stdout w /\
  (forall stats_path,
     (Hook.get_stats_path E w).1 = Ok stats_path ->
     files w' !! stats_path = files w !! stats_path) /\
  (forall p,
     (forall stats_path,
        (Hook.get_stats_path E w).1 = Ok stats_path ->
        p <> tmp_path_of E stats_path) ->
     files w' !! p = files w !! p).


(** ** Scenarios *)

Definition demo_home : path := ["home"; "u"].

(** [statsFile] values the scenarios use: an absolute path under [/tmp],
    anything else taken inside [~/.claude]. *)
Definition demo_resolve (s : string) : path :=
  if String.eqb s "/tmp/evil.json" then ["tmp"; "evil.json"]
  else demo_home ++ [".claude"; s].

Definition demo_env (input : stdin_state) (f : faults) : env :=
  {| home := demo_home;
     today := "2026-01-01";
     stdin := input;
     resolve := demo_resolve;
     expands := fun _ => true;
     locate := fun s => [s];
     tmp_random := "k3x9q2ab";
     failing := f |}.

(** The hook input [{"prompt": s}] *)
Definition prompt_input (s : string) : stdin_state :=
  StdinReads (Ok (PDict [("prompt", PStr s)])).

(** A Markdown file: it exists, and it is no JSON. *)
Definition markdown : fcontent := Unreadable JSONDecodeError.

Definition demo_stats_path : path := demo_home ++ [".claude"; "skillbook-stats.json"].
Definition demo_config_path : path := demo_home ++ [".claude"; "skillbook.config.json"].

(** A home directory where the skill [session-wrap:wrap] is installed
    and nothing was recorded yet. *)
Definition wrap_world : world :=
  {| files := {[ demo_home ++ [".claude"; "skills"; "session-wrap:wrap"; "SKILL.md"]
                 := markdown ]};
     calls := [];
     stdout := [] |}.

(** The same home directory with a stats file that is valid JSON and not
    a stats document: [[]]. *)
Definition list_world : world :=
  {| files := <[demo_stats_path := Complete (PList []) true]> (files wrap_world);
     calls := [];
     stdout := [] |}.

(** The same home directory with a stats file whose counter is beyond the
    range of doubles. *)
Definition huge_world : world :=
  {| files :=
       <[demo_stats_path :=
           Complete (PDict [("version", PInt 1); ("totalUses", PInt (2 ^ 1021));
                            ("skills", PDict [("session-wrap:wrap",
                               PDict [("uses", PInt (2 ^ 1021))])])]) true]>
         (files wrap_world);
     calls := [];
     stdout := [] |}.

(** The same home directory with a configuration that sends the stats to
    [/tmp/evil.json]. *)
Definition evil_world : world :=
  {| files :=
       <[demo_config_path :=
           Complete (PDict [("statsFile", PStr "/tmp/evil.json")]) false]>
         (files wrap_world);
     calls := [];
     stdout := [] |}.

(** A stats document with one skill used five times, and a home directory
    that holds it. *)
Definition five_uses : pyval :=
  PDict [("version", PInt 1); ("totalUses", PInt 5);
         ("skills", PDict [("commit", PDict [("uses", PInt 5);
                                             ("lastUsed", PStr "2025-12-31");
                                             ("pinned", PBool false)])]);
         ("lastUpdated", PStr "2025-12-31")].

Definition five_world : world :=
  {| files := {[ demo_stats_path := Complete five_uses true ]};
     calls := [];
     stdout := [] |}.

(** A stats file that is no JSON. *)
Definition garbled_world : world :=
  {| files := {[ demo_stats_path := Unreadable JSONDecodeError ]};
     calls := [];
     stdout := [] |}.

(** A stats file that is no text in the encoding of [open]: reading it
    raises [UnicodeDecodeError]. *)
Definition undecodable_world : world :=
  {| files := {[ demo_stats_path := Unreadable UnicodeError ]};
     calls := [];
     stdout := [] |}.





Definition write_fault : faults := Faults false false false (Some OSError) false false.

(** The stats document after one use of [session-wrap:wrap]. *)
Definition wrap_doc : pyval :=
  PDict [("version", PInt 1); ("totalUses", PInt 1);
         ("skills", PDict [("session-wrap:wrap",
                            PDict [("uses", PInt 1);
                                   ("lastUsed", PStr "2026-01-01");
                                   ("pinned", PBool false)])]);
         ("lastUpdated", PStr "2026-01-01")].



(** The document the terminal client writes after toggling the pin of
    [commit] in [five_uses]. *)
Definition five_pinned : pyval :=
  PDict [("version", PInt 1); ("totalUses", PInt 5);
         ("skills", PDict [("commit", PDict [("uses", PInt 5);
                                             ("lastUsed", PStr "2025-12-31");
                                             ("pinned", PBool true)])]);
         ("lastUpdated", PStr "2026-01-01")].

(** ** Command tokens *)

Fixpoint string_forall (f : ascii -> bool) (s : string) : bool :=
  match s with
  | EmptyString => true
  | String c s' => f c && string_forall f s'
  end.

Definition starts_with_char (f : ascii -> bool) (s : string) : bool :=
  match s with
  | EmptyString => false
  | String c _ => f c
  end.

(** [token] is a command token followed by [rest]: one or more characters
    of the class, and [rest] does not go on with one. *)
Definition command_token (token rest : string) : Prop :=
  token <> "" /\
  string_forall Hook.is_command_char token = true /\
  starts_with_char Hook.is_command_char rest = false.

(** ** The plugin registry *)

(** The plugin and the skill that [check_skill_exists] reads off a name. *)
Definition plugin_part (name : string) : string :=
  match Hook.split_colon name with
  | (a, Some _) => a
  | (_, None) => name
  end.

Definition skill_part (name : string) : string :=
  match Hook.split_colon name with
  | (_, Some b) => b
  | (_, None) => ""
  end.

(** An installed entry that confirms the skill: it has an install path
    under which one of the three [SKILL.md] files exists. *)
Definition entry_confirms (E : env) (w : world) (plugin_name skill_name : string)
    (entry : pyval) : Prop :=
  exists d s,
    entry = PDict d /\ Py.dict_get d "installPath" = Some (PStr s) /\ s <> "" /\
    (is_Some (files w !! (locate E s ++ ["SKILL.md"])) \/
     (skill_name <> "" /\
      is_Some (files w !! (locate E s ++ ["skills"; skill_name; "SKILL.md"]))) \/
     is_Some (files w !! (locate E s ++ ["skills"; plugin_name; "SKILL.md"]))).

(** An entry of the shape the registry has: an object whose
    [installPath], if it has one, is a string or a false value. *)
Definition plain_entry (entry : pyval) : Prop :=
  exists d, entry = PDict d /\
    match Py.dict_get d "installPath" with
    | None => True
    | Some v => Py.truthy v = false \/ exists s, v = PStr s
    end.

(** Some entry of some plugin whose key starts with [plugin_name@]
    confirms the skill. *)
Definition registered (E : env) (w : world) (plugin_name skill_name : string)
    (plugins : list (string * pyval)) : Prop :=
  exists key l entry,
    (key, PList l) ∈ plugins /\ String.prefix (plugin_name +:+ "@") key = true /\
    entry ∈ l /\ entry_confirms E w plugin_name skill_name entry.

(** The plugins [check_skill_exists] reads from the registry: none when
    the file is absent, cannot be read, or holds no ["plugins"] object. *)
Definition registry_holds (E : env) (w : world) (plugins : list (string * pyval))
  : Prop :=
  let registry := (Hook.claude_dir E ++ ["plugins"]) ++ ["installed_plugins.json"] in
  (plugins = [] /\
   (files w !! registry = None \/
    Sys.read_json registry w = (Raise OSError, w) \/
    Sys.read_json registry w = (Raise JSONDecodeError, w))) \/
  exists data newline,
    files w !! registry = Some (Complete (PDict data) newline) /\
    plugins = match Py.dict_get data "plugins" with
              | Some (PDict d) => d
              | _ => []
              end.

(** ** The configuration *)

Definition config_path (E : env) : path := Hook.claude_dir E ++ ["skillbook.config.json"].




(** ** The terminal client up to the document it saves *)

(** [increment_usage] up to the document [save_stats] writes. *)
Definition cli_recorded (name today : string) (doc : pyval) : result (pyval * Z * Z) :=
  '(doc1, old_level, new_level) ← Cli.increment_usage_doc name today doc;
  doc' ← Cli.stamped today doc1;
  Ok (doc', old_level, new_level).

(** [pin_skill] up to the document [save_stats] writes. *)
Definition cli_pinned (name today : string) (doc : pyval) : result (pyval * bool) :=
  '(doc1, pinned) ← Cli.pin_skill_doc name doc;
  doc' ← Cli.stamped today doc1;
  Ok (doc', pinned).

(** Two toggles in a row, on the days [day1] and [day2]. *)
Definition cli_pinned_twice (name day1 day2 : string) (doc : pyval)
  : result (pyval * bool * bool) :=
  '(doc1, first) ← cli_pinned name day1 doc;
  '(doc2, second) ← cli_pinned name day2 doc1;
  Ok (doc2, first, second).

(** ** Rarity *)

(** [n] stars in a row. *)
Definition stars (n : nat) : string := String.concat "" (replicate n "⭐").

(** ** The hook entries of settings.json *)

(** The entries [_find_hook_indices] goes through. *)
Definition user_prompt_entries (settings : pyval) : result (list pyval) :=
  hooks_section ← Py.get settings "hooks" (PDict []);
  user_prompt_hooks ← Py.get hooks_section "UserPromptSubmit" (PList []);
  Py.iter user_prompt_hooks.

(** What [_find_hook_indices] finds in one entry: the command of its
    first skillbook hook, if it has one. *)
Definition entry_hit (entry : pyval) : result (option pyval) :=
  hooks ← Py.get entry "hooks" (PList []);
  hooks ← Py.iter hooks;
  Installer.first_match hooks.

(** The matches of [_find_hook_indices], given what each entry holds. *)
Fixpoint collect (i : nat) (hits : list (option pyval)) : list (nat * pyval) :=
  match hits with
  | [] => []
  | Some cmd :: rest => (i, cmd) :: collect (S i) rest
  | None :: rest => collect (S i) rest
  end.

(** The entries that hold no skillbook hook. *)
Fixpoint keep (entries : list pyval) (hits : list (option pyval)) : list pyval :=
  match entries, hits with
  | entry :: entries', None :: hits' => entry :: keep entries' hits'
  | _ :: entries', Some _ :: hits' => keep entries' hits'
  | _, _ => []
  end.

(** The entries after an update: the new entry in place of every entry
    that holds a skillbook hook. *)
Fixpoint replaced (new : pyval) (entries : list pyval) (hits : list (option pyval))
  : list pyval :=
  match entries, hits with
  | entry :: entries', None :: hits' => entry :: replaced new entries' hits'
  | _ :: entries', Some _ :: hits' => new :: replaced new entries' hits'
  | _, _ => []
  end.

(** What each entry holds after the update. *)
Definition relabelled (hc : string) (hits : list (option pyval)) : list (option pyval) :=
  map (fun hit => match hit with Some _ => Some (PStr hc) | None => None end) hits.

(** The entries [merge_settings_json] writes. *)
Definition merged_entries (hc : string) (entries : list pyval)
    (hits : list (option pyval)) : list pyval :=
  match collect 0 hits with
  | [] => entries ++ [Installer.new_hook_entry hc]
  | _ => replaced (Installer.new_hook_entry hc) entries hits
  end.

(** The hooks section and the settings that [uninstall] writes, given
    the entries it keeps. *)
Definition kept_hooks (hitems : list (string * pyval)) (kept : list pyval)
  : list (string * pyval) :=
  match kept with
  | [] => Installer.without "UserPromptSubmit" hitems
  | _ => Py.dict_set hitems "UserPromptSubmit" (PList kept)
  end.

Definition kept_settings (items updated_hooks : list (string * pyval))
  : list (string * pyval) :=
  match updated_hooks with
  | [] => Installer.without "hooks" items
  | _ => Py.dict_set items "hooks" (PDict updated_hooks)
  end.

(** Settings without empty hook structures: a ["hooks"] section, if there
    is one, is a non-empty object, and its ["UserPromptSubmit"], if there
    is one, a non-empty list. *)
Definition tidy (settings : pyval) : Prop :=
  exists items,
    settings = PDict items /\
    match Py.dict_get items "hooks" with
    | None => True
    | Some hooks =>
        exists hitems,
          hooks = PDict hitems /\ hitems <> [] /\
          match Py.dict_get hitems "UserPromptSubmit" with
          | None => True
          | Some entries => exists l, entries = PList l /\ l <> []
          end
    end.

(** ** Further scenarios *)

Definition five_items : list (string * pyval) :=
  [("version", PInt 1); ("totalUses", PInt 5);
   ("skills", PDict [("commit", PDict [("uses", PInt 5);
                                       ("lastUsed", PStr "2025-12-31");
                                       ("pinned", PBool false)])]);
   ("lastUpdated", PStr "2025-12-31")].

(** A home directory with a plugin registry: the plugin [session-wrap]
    is installed under [/plugins/session-wrap], with a [SKILL.md] at its
    root. *)
Definition demo_registry : list (string * pyval) :=
  [("session-wrap@market", PList [PDict [("installPath", PStr "/plugins/session-wrap")]])].

Definition plugin_world : world :=
  {| files :=
       <[demo_home ++ [".claude"; "plugins"; "installed_plugins.json"] :=
           Complete (PDict [("version", PInt 1); ("plugins", PDict demo_registry)]) true]>
         {[ ["/plugins/session-wrap"; "SKILL.md"] := markdown ]};
     calls := [];
     stdout := [] |}.

(** A command token of 300 letters, too long for a file name, and a home
    directory in which the command file of that name cannot be examined:
    [stat] raises [OSError] (file name too long). *)
Definition long_token : string := String.concat "" (replicate 300 "a").

Definition long_name_world : world :=
  {| files := {[ demo_home ++ [".claude"; "commands"; long_token +:+ ".md"]
                 := Inaccessible ]};
     calls := [];
     stdout := [] |}.

(** A home directory whose configuration is the JSON text [[]]. *)
Definition list_config_world : world :=
  {| files := {[ demo_config_path := Complete (PList []) true ]};
     calls := [];
     stdout := [] |}.

(** A hook entry of settings.json that runs [command]. *)
Definition command_entry (command : string) : pyval :=
  PDict [("hooks", PList [PDict [("type", PStr "command"); ("command", PStr command)]])].

(** Settings with one hook of another tool. *)
Definition plain_settings : pyval :=
  PDict [("theme", PStr "dark");
         ("hooks", PDict [("UserPromptSubmit", PList [command_entry "echo hi"])])].

(** The same settings with a skillbook hook of an older installation. *)
Definition old_settings : pyval :=
  PDict [("theme", PStr "dark");
         ("hooks", PDict [("UserPromptSubmit",
            PList [command_entry "echo hi";
                   command_entry "bash ~/.claude/hooks/command-usage-tracker.sh"])])].

(** * Properties *)

(** ** Digits and iterated shifts *)

Lemma digits2_pos_size p : digits2_pos p = Pos.size p.
Proof. induction p; simpl; congruence. Qed.

Lemma digits2_pos_bounds p :
  2 ^ (Z.pos (digits2_pos p) - 1) <= Z.pos p < 2 ^ Z.pos (digits2_pos p).
Proof.
  rewrite digits2_pos_size. split.
  - pose proof (Pos.size_le p) as H.
    apply Pos2Z.pos_le_pos in H. rewrite Pos2Z.inj_pow in H.
    replace (Z.pos (Pos.size p)) with (Z.succ (Z.pos (Pos.size p) - 1)) in H by lia.
    rewrite Z.pow_succ_r in H by lia. lia.
  - pose proof (Pos.size_gt p) as H.
    apply Pos2Z.pos_lt_pos in H. now rewrite Pos2Z.inj_pow in H.
Qed.

Lemma digits2_pos_unique p d :
  2 ^ (d - 1) <= Z.pos p < 2 ^ d -> Z.pos (digits2_pos p) = d.
Proof.
  intros [Hl Hu]. pose proof (digits2_pos_bounds p) as [Hl' Hu'].
  assert (0 <= d).
  { destruct (Z.le_gt_cases 0 d) as [|Hn]; [lia|]. rewrite (Z.pow_neg_r 2 d) in Hu; lia. }
  assert (d - 1 < Z.pos (digits2_pos p)).
  { apply (Z.pow_lt_mono_r_iff 2); lia. }
  assert (Z.pos (digits2_pos p) - 1 < d).
  { apply (Z.pow_lt_mono_r_iff 2); lia. }
  lia.
Qed.

Lemma iter_pos_nat {A} (f : A -> A) p x :
  SpecFloat.iter_pos f p x = Nat.iter (Pos.to_nat p) f x.
Proof.
  revert x. induction p as [p IH|p IH|]; intros x.
  - rewrite Pos2Nat.inj_xI. cbn [SpecFloat.iter_pos]. rewrite !IH.
    replace (S (2 * Pos.to_nat p))%nat with (Pos.to_nat p + S (Pos.to_nat p))%nat by lia.
    rewrite Nat.iter_add. f_equal. now rewrite Nat.iter_succ_r.
  - rewrite Pos2Nat.inj_xO. cbn [SpecFloat.iter_pos]. rewrite !IH.
    replace (2 * Pos.to_nat p)%nat with (Pos.to_nat p + Pos.to_nat p)%nat by lia.
    now rewrite Nat.iter_add.
  - reflexivity.
Qed.

Lemma pos_iter_xO m p : Z.pos (Pos.iter xO m p) = Z.pos m * 2 ^ Z.pos p.
Proof.
  induction p as [|p IH] using Pos.peano_ind.
  - simpl. lia.
  - rewrite Pos.iter_succ, Pos2Z.inj_succ, Z.pow_succ_r by lia.
    rewrite Pos2Z.inj_xO, IH. lia.
Qed.

(** ** Right shifts with round and sticky bits *)

Lemma shr_1_inv N k mrs :
  0 <= k -> shr_inv N k mrs -> shr_inv N (k + 1) (shr_1 mrs).
Proof.
  intros Hk. unfold shr_inv. rewrite Z.pow_add_r, Z.pow_1_r by lia.
  assert (0 < 2 ^ k) by (apply Z.pow_pos_nonneg; lia).
  destruct mrs as [m r s]. simpl.
  destruct m as [|[p|p|]|p]; simpl; destruct r, s; simpl; lia.
Qed.

Lemma shr_iter_inv N (n : nat) mrs :
  shr_inv N 0 mrs -> shr_inv N (Z.of_nat n) (Nat.iter n shr_1 mrs).
Proof.
  intros H0. induction n as [|n IH].
  - exact H0.
  - rewrite Nat2Z.inj_succ, <- Z.add_1_r. simpl. apply shr_1_inv; [lia|exact IH].
Qed.

Lemma shr_inv_exact N : 0 <= N -> shr_inv N 0 (shr_record_of_loc N loc_Exact).
Proof. intros H. unfold shr_inv. simpl. lia. Qed.

Lemma shr_inv_round N k mrs :
  0 <= k -> shr_inv N k mrs ->
  round_nearest_even (shr_m mrs) (loc_of_shr_record mrs) = rne N k.
Proof.
  intros Hk (Hm & Hrem & Hloc). unfold rne.
  assert (HP : 0 < 2 ^ k) by (apply Z.pow_pos_nonneg; lia).
  assert (Hq : N / 2 ^ k = shr_m mrs).
  { symmetry. apply (Z.div_unique_pos N (2 ^ k) _ (N - shr_m mrs * 2 ^ k)); lia. }
  assert (Hr : N mod 2 ^ k = N - shr_m mrs * 2 ^ k).
  { symmetry. apply (Z.mod_unique_pos N (2 ^ k) (shr_m mrs)); lia. }
  rewrite Hq, Hr. destruct mrs as [m r s]. simpl in *.
  destruct r, s; simpl;
    destruct (Z.compare_spec (2 * (N - m * 2 ^ k)) (2 ^ k)); lia.
Qed.

Lemma rne_mono N1 N2 k : 0 <= k -> 0 <= N1 <= N2 -> rne N1 k <= rne N2 k.
Proof.
  intros Hk HN. unfold rne.
  assert (HP : 0 < 2 ^ k) by (apply Z.pow_pos_nonneg; lia).
  pose proof (Z.div_mod N1 (2 ^ k)) as E1.
  pose proof (Z.div_mod N2 (2 ^ k)) as E2.
  pose proof (Z.mod_pos_bound N1 (2 ^ k) HP) as B1.
  pose proof (Z.mod_pos_bound N2 (2 ^ k) HP) as B2.
  assert (Hq : N1 / 2 ^ k <= N2 / 2 ^ k) by (apply Z.div_le_mono; lia).
  set (q1 := N1 / 2 ^ k) in *. set (q2 := N2 / 2 ^ k) in *.
  set (r1 := N1 mod 2 ^ k) in *. set (r2 := N2 mod 2 ^ k) in *.
  set (P := 2 ^ k) in *.
  assert (Hcase : q1 = q2 \/ q1 + 1 <= q2) by lia.
  destruct Hcase as [Heq|Hlt].
  - assert (r1 <= r2) by nia. rewrite Heq.
    destruct (Z.compare_spec (2 * r1) P), (Z.compare_spec (2 * r2) P);
      destruct (Z.even q2); lia.
  - destruct (Z.compare_spec (2 * r1) P), (Z.compare_spec (2 * r2) P);
      destruct (Z.even q1), (Z.even q2); lia.
Qed.

Lemma rne_bounds N k lo hi :
  0 <= k -> lo * 2 ^ k <= N < hi * 2 ^ k -> lo <= rne N k <= hi.
Proof.
  intros Hk HN. unfold rne.
  assert (HP : 0 < 2 ^ k) by (apply Z.pow_pos_nonneg; lia).
  pose proof (Z.div_mod N (2 ^ k)) as E1.
  pose proof (Z.mod_pos_bound N (2 ^ k) HP) as B1.
  set (q := N / 2 ^ k) in *. set (r := N mod 2 ^ k) in *. set (P := 2 ^ k) in *.
  assert (lo <= q) by nia. assert (q < hi) by nia.
  destruct (Z.compare_spec (2 * r) P); destruct (Z.even q); lia.
Qed.

(** ** The two shifting phases of [binary_round_aux] at binary64 *)

Lemma loc_of_shr_record_of_loc m l :
  loc_of_shr_record (shr_record_of_loc m l) = l.
Proof. destruct l as [|[]]; reflexivity. Qed.

Lemma shr_m_of_loc m l : shr_m (shr_record_of_loc m l) = m.
Proof. destruct l as [|[]]; reflexivity. Qed.

Lemma Zdigits2_53 m : 2 ^ 52 <= m < 2 ^ 53 -> Zdigits2 m = 53.
Proof.
  intros H. destruct m as [|p|p]; try lia.
  simpl. apply digits2_pos_unique. exact H.
Qed.

Lemma shr_fexp_53 m e l :
  2 ^ 52 <= m < 2 ^ 53 -> -1074 <= e ->
  shr_fexp 53 1024 m e l = (shr_record_of_loc m l, e).
Proof.
  intros Hm He. unfold shr_fexp. rewrite (Zdigits2_53 m Hm).
  unfold fexp, emin.
  replace (Z.max (53 + e - 53) (3 - 1024 - 53) - e) with 0 by lia.
  reflexivity.
Qed.

Lemma shr_fexp_normalize m e :
  2 ^ 52 <= m <= 2 ^ 53 -> -1074 <= e ->
  (shr_m (shr_fexp 53 1024 m e loc_Exact).1, (shr_fexp 53 1024 m e loc_Exact).2)
  = normalize m e.
Proof.
  intros Hm He. unfold normalize.
  destruct (Z.eqb_spec m (2 ^ 53)) as [->|Hne].
  - unfold shr_fexp, fexp, emin.
    change (Zdigits2 (2 ^ 53)) with 54.
    replace (Z.max (54 + e - 53) (3 - 1024 - 53) - e) with 1 by lia.
    reflexivity.
  - rewrite shr_fexp_53 by lia. reflexivity.
Qed.

Lemma binary_round_aux_finish m1 mrs e :
  2 ^ 52 <= m1 <= 2 ^ 53 -> -1074 <= e ->
  round_nearest_even (shr_m mrs) (loc_of_shr_record mrs) = m1 ->
  (let '(mrs'', e'') := shr_fexp 53 1024
       (round_nearest_even (shr_m mrs) (loc_of_shr_record mrs)) e loc_Exact in
   match shr_m mrs'' with
   | Z0 => S754_zero false
   | Zpos m => if e'' <=? 1024 - 53 then S754_finite false m e'' else S754_infinity false
   | Zneg _ => S754_nan
   end) = finish (normalize m1 e).
Proof.
  intros Hm He ->. pose proof (shr_fexp_normalize m1 e Hm He) as Hn.
  destruct (shr_fexp 53 1024 m1 e loc_Exact) as [mrs'' e'']. simpl in Hn.
  rewrite <- Hn. unfold finish. simpl.
  assert (Hpos : 2 ^ 52 <= shr_m mrs'').
  { assert (shr_m mrs'' = (normalize m1 e).1) by now rewrite <- Hn.
    unfold normalize in *. destruct (m1 =? 2 ^ 53); simpl in *; lia. }
  destruct (shr_m mrs'') as [|p|p]; try lia. reflexivity.
Qed.

Lemma round_nearest_even_bounds m l :
  m <= round_nearest_even m l <= m + 1.
Proof. destruct l as [|[]]; simpl; try lia. destruct (Z.even m); lia. Qed.

Lemma binary_round_aux_53 m e l :
  2 ^ 52 <= m < 2 ^ 53 -> -1074 <= e ->
  binary_round_aux 53 1024 false m e l
  = finish (normalize (round_nearest_even m l) e).
Proof.
  intros Hm He. unfold binary_round_aux. rewrite shr_fexp_53 by assumption.
  apply (binary_round_aux_finish (round_nearest_even m l)); [|assumption|].
  - pose proof (round_nearest_even_bounds m l). lia.
  - now rewrite shr_m_of_loc, loc_of_shr_record_of_loc.
Qed.

Lemma binary_round_aux_wide p :
  53 < Z.pos (digits2_pos p) ->
  binary_round_aux 53 1024 false (Z.pos p) 0 loc_Exact
  = finish (normalize (rne (Z.pos p) (Z.pos (digits2_pos p) - 53))
                      (Z.pos (digits2_pos p) - 53)).
Proof.
  intros Hd. pose proof (digits2_pos_bounds p) as Hb.
  set (d := Z.pos (digits2_pos p)) in *.
  unfold binary_round_aux, shr_fexp at 1. simpl Zdigits2. fold d.
  unfold fexp, emin.
  replace (Z.max (d + 0 - 53) (3 - 1024 - 53) - 0) with (d - 53) by lia.
  destruct (d - 53) as [|k|k] eqn:Ek; try lia.
  unfold shr. rewrite iter_pos_nat.
  assert (Hinv : shr_inv (Z.pos p) (Z.pos k)
            (Nat.iter (Pos.to_nat k) shr_1 (shr_record_of_loc (Z.pos p) loc_Exact))).
  { rewrite <- (positive_nat_Z k). apply shr_iter_inv, shr_inv_exact. lia. }
  pose proof (shr_inv_round _ (Z.pos k) _ (Pos2Z.is_nonneg k) Hinv) as Hr.
  apply binary_round_aux_finish; [|lia|exact Hr].
  apply rne_bounds; [lia|].
  rewrite <- !Z.pow_add_r by lia.
  replace (52 + Z.pos k) with (d - 1) by lia.
  replace (53 + Z.pos k) with d by lia. exact Hb.
Qed.

(** ** [float_of_int] in integer arithmetic *)

Lemma digits2_pos_log2 p : Z.pos (digits2_pos p) = Z.log2 (Z.pos p) + 1.
Proof.
  apply digits2_pos_unique.
  pose proof (Z.log2_spec (Z.pos p) ltac:(lia)) as H.
  replace (Z.log2 (Z.pos p) + 1 - 1) with (Z.log2 (Z.pos p)) by lia.
  replace (Z.log2 (Z.pos p) + 1) with (Z.succ (Z.log2 (Z.pos p))) by lia.
  exact H.
Qed.

Lemma binary_normalize_dbl x :
  0 < x -> binary_normalize 53 1024 x 0 false = finish (dbl_of_int x).
Proof.
  intros Hx. destruct x as [|p|p]; try lia.
  unfold binary_normalize, binary_round, dbl_of_int.
  rewrite <- digits2_pos_log2.
  pose proof (digits2_pos_bounds p) as Hb.
  set (d := Z.pos (digits2_pos p)) in *.
  assert (Hd : 1 <= d) by (unfold d; lia).
  unfold fexp, emin.
  replace (Z.max (d + 0 - 53) (3 - 1024 - 53)) with (d - 53) by lia.
  unfold shl_align.
  replace (d - 53 - 0) with (d - 53) by lia.
  destruct (Z.leb_spec d 53) as [Hle|Hgt].
  - assert (Hm : forall k, k = 53 - d ->
        2 ^ 52 <= Z.pos p * 2 ^ k < 2 ^ 53).
    { intros k ->.
      replace (2 ^ 52) with (2 ^ (d - 1) * 2 ^ (53 - d))
        by (rewrite <- Z.pow_add_r by lia; f_equal; lia).
      replace (2 ^ 53) with (2 ^ d * 2 ^ (53 - d))
        by (rewrite <- Z.pow_add_r by lia; f_equal; lia).
      assert (0 < 2 ^ (53 - d)) by (apply Z.pow_pos_nonneg; lia). nia. }
    destruct (d - 53) as [|k|k] eqn:Ek; try lia.
    + replace (53 - d) with 0 by lia. rewrite Z.mul_1_r.
      specialize (Hm 0 ltac:(lia)). rewrite Z.mul_1_r in Hm.
      rewrite binary_round_aux_53 by lia. simpl round_nearest_even.
      unfold normalize. destruct (Z.eqb_spec (Z.pos p) (2 ^ 53)); [lia|].
      replace d with 53 by lia. reflexivity.
    + specialize (Hm (Z.pos k) ltac:(lia)).
      rewrite <- pos_iter_xO in Hm.
      rewrite binary_round_aux_53 by lia. simpl round_nearest_even.
      unfold normalize.
      destruct (Z.eqb_spec (Z.pos (Pos.iter xO p k)) (2 ^ 53)); [lia|].
      rewrite pos_iter_xO. replace (53 - d) with (Z.pos k) by lia.
      replace (d - 53) with (Z.neg k) by lia. reflexivity.
  - destruct (d - 53) as [|k|k] eqn:Ek; try lia.
    rewrite <- Ek. apply binary_round_aux_wide. fold d. lia.
Qed.

Lemma float_of_int_dbl x :
  0 < x -> PyFloat.float_of_int x = to_result (finish (dbl_of_int x)).
Proof.
  intros Hx. rewrite <- binary_normalize_dbl by assumption.
  unfold PyFloat.float_of_int, PyFloat.prec, PyFloat.emax.
  now destruct (binary_normalize 53 1024 x 0 false).
Qed.

(** ** Order on normalised mantissa/exponent pairs *)

Lemma normalize_facts m e :
  2 ^ 52 <= m <= 2 ^ 53 ->
  normal (normalize m e) /\
  e <= (normalize m e).2 <= e + 1 /\
  ((normalize m e).2 = e + 1 -> (normalize m e).1 = 2 ^ 52) /\
  ((normalize m e).2 = e -> (normalize m e).1 = m).
Proof.
  intros Hm. unfold normal, normalize.
  destruct (Z.eqb_spec m (2 ^ 53)); simpl; lia.
Qed.

Lemma normalize_mono m1 m2 e :
  2 ^ 52 <= m1 <= m2 -> m2 <= 2 ^ 53 ->
  fle (normalize m1 e) (normalize m2 e).
Proof.
  intros H1 H2. unfold fle, normalize.
  destruct (Z.eqb_spec m1 (2 ^ 53)), (Z.eqb_spec m2 (2 ^ 53)); simpl; lia.
Qed.

Lemma log2_bounds x :
  0 < x -> 2 ^ (Z.log2 x + 1 - 1) <= x < 2 ^ (Z.log2 x + 1).
Proof.
  intros Hx. pose proof (Z.log2_spec x Hx) as H.
  replace (Z.log2 x + 1 - 1) with (Z.log2 x) by lia.
  replace (Z.log2 x + 1) with (Z.succ (Z.log2 x)) by lia. exact H.
Qed.

Lemma rne_wide_bounds x d :
  53 < d -> 2 ^ (d - 1) <= x < 2 ^ d -> 2 ^ 52 <= rne x (d - 53) <= 2 ^ 53.
Proof.
  intros Hd Hx. apply rne_bounds; [lia|].
  rewrite <- !Z.pow_add_r by lia.
  replace (52 + (d - 53)) with (d - 1) by lia.
  replace (53 + (d - 53)) with d by lia. exact Hx.
Qed.

Lemma dbl_of_int_facts x :
  0 < x ->
  let d := Z.log2 x + 1 in
  normal (dbl_of_int x) /\ d - 53 <= (dbl_of_int x).2 <= d - 52 /\
  ((dbl_of_int x).2 = d - 52 -> (dbl_of_int x).1 = 2 ^ 52).
Proof.
  intros Hx d. pose proof (log2_bounds x Hx) as Hb. fold d in Hb.
  pose proof (Z.log2_nonneg x) as Hl.
  unfold dbl_of_int. fold d. destruct (Z.leb_spec d 53) as [Hle|Hgt].
  - unfold normal. simpl. split; [|lia].
    replace (2 ^ 52) with (2 ^ (d - 1) * 2 ^ (53 - d))
      by (rewrite <- Z.pow_add_r by lia; f_equal; lia).
    replace (2 ^ 53) with (2 ^ d * 2 ^ (53 - d))
      by (rewrite <- Z.pow_add_r by lia; f_equal; lia).
    assert (0 < 2 ^ (53 - d)) by (apply Z.pow_pos_nonneg; lia). nia.
  - pose proof (rne_wide_bounds x d Hgt Hb) as Hr.
    pose proof (normalize_facts _ (d - 53) Hr) as (Hn & He & Hc & _).
    repeat split; try apply Hn; try lia.
Qed.

Lemma dbl_of_int_mono x y : 0 < x <= y -> fle (dbl_of_int x) (dbl_of_int y).
Proof.
  intros [Hx Hxy]. assert (Hy : 0 < y) by lia.
  pose proof (dbl_of_int_facts x Hx) as (Nx & Ex & Cx).
  pose proof (dbl_of_int_facts y Hy) as (Ny & Ey & Cy).
  pose proof (Z.log2_le_mono x y Hxy) as Hl.
  destruct (Z.eq_dec (Z.log2 x) (Z.log2 y)) as [Heq|Hne].
  - clear Ex Cx Ey Cy. unfold dbl_of_int. rewrite <- Heq.
    pose proof (log2_bounds x Hx) as Hbx.
    pose proof (log2_bounds y Hy) as Hby. rewrite <- Heq in Hby.
    set (d := Z.log2 x + 1) in *.
    pose proof (Z.log2_nonneg x) as Hl0.
    destruct (Z.leb_spec d 53) as [Hle|Hgt].
    + right. simpl. split; [reflexivity|].
      apply Z.mul_le_mono_nonneg_r; [apply Z.pow_nonneg|]; lia.
    + apply normalize_mono.
      * split; [apply (rne_wide_bounds x d); assumption|].
        apply rne_mono; lia.
      * apply (rne_wide_bounds y d); assumption.
  - unfold fle, normal in *.
    destruct (Z.eq_dec (dbl_of_int x).2 (dbl_of_int y).2) as [He|He]; [right|left; lia].
    split; [exact He|]. rewrite Cx by lia. lia.
Qed.

Lemma dbl_of_int_finite x : 0 < x < 2 ^ 1024 - 2 ^ 970 -> (dbl_of_int x).2 <= 971.
Proof.
  intros [Hx Hlt]. pose proof (dbl_of_int_facts x Hx) as (Nx & Ex & Cx).
  pose proof (log2_bounds x Hx) as Hb.
  set (d := Z.log2 x + 1) in *.
  assert (Hd : d <= 1024).
  { assert (d - 1 < 1024); [|lia]. apply (Z.pow_lt_mono_r_iff 2); lia. }
  destruct (Z.eq_dec d 1024) as [Hd'|Hd']; [|lia].
  unfold dbl_of_int. fold d. rewrite Hd'. change (1024 <=? 53) with false. cbv iota.
  change (1024 - 53) with 971.
  assert (Hr : rne x 971 <= 2 ^ 53 - 1).
  { unfold rne.
    pose proof (Z.div_mod x (2 ^ 971)) as E1.
    pose proof (Z.mod_pos_bound x (2 ^ 971) ltac:(lia)) as B1.
    set (q := x / 2 ^ 971) in *. set (r := x mod 2 ^ 971) in *.
    change (2 ^ 1024) with (2 ^ 53 * 2 ^ 971) in Hlt.
    change (2 ^ 970) with (2 ^ 971 - 2 ^ 970) in Hlt.
    assert (2 ^ 971 = 2 * 2 ^ 970) by reflexivity.
    set (P := 2 ^ 970) in *. set (Q := 2 ^ 971) in *. set (T := 2 ^ 53) in *.
    assert (q <= T - 1) by nia.
    destruct (Z.compare_spec (2 * r) Q); destruct (Z.even q); nia. }
  unfold normalize. destruct (Z.eqb_spec (rne x 971) (2 ^ 53)); simpl; lia.
Qed.

(** ** [math.sqrt] and [int] in integer arithmetic *)

Lemma sqrt_near_bounds m lo hi :
  0 <= lo -> 0 <= hi -> lo * lo <= m < hi * hi -> lo <= sqrt_near m <= hi.
Proof.
  intros Hlo Hhi [Hl Hh]. unfold sqrt_near.
  assert (Hm : 0 <= m) by nia.
  apply Z.sqrt_le_square in Hl; [|lia|lia].
  apply Z.sqrt_lt_square in Hh; [|lia|lia].
  destruct (Z.ltb_spec (Z.sqrt m) (m - Z.sqrt m * Z.sqrt m)); lia.
Qed.

Lemma sqrt_near_mono m1 m2 : 0 <= m1 <= m2 -> sqrt_near m1 <= sqrt_near m2.
Proof.
  intros [H1 H12]. unfold sqrt_near.
  pose proof (Z.sqrt_le_mono m1 m2 H12) as Hq.
  pose proof (Z.sqrt_spec m1 H1) as S1. cbv zeta in S1.
  pose proof (Z.sqrt_spec m2 ltac:(lia)) as S2. cbv zeta in S2.
  pose proof (Z.sqrt_nonneg m1).
  set (q1 := Z.sqrt m1) in *. set (q2 := Z.sqrt m2) in *.
  destruct (Z.ltb_spec q1 (m1 - q1 * q1)), (Z.ltb_spec q2 (m2 - q2 * q2)); nia.
Qed.

Lemma scaled_bounds m e :
  2 ^ 52 <= m < 2 ^ 53 ->
  let s := e - 2 * (Z.div2 e - 26) in
  (s = 52 \/ s = 53) /\
  2 ^ 52 * 2 ^ 52 <= m * 2 ^ s < 2 ^ 53 * 2 ^ 53.
Proof.
  intros Hm s. assert (Hs : s = 52 \/ s = 53).
  { unfold s. pose proof (Z.div2_odd e) as Ho.
    destruct (Z.odd e); simpl Z.b2z in Ho; lia. }
  split; [exact Hs|]. destruct Hs as [-> | ->]; lia.
Qed.

Lemma dbl_sqrt_facts a :
  normal a ->
  let e' := Z.div2 a.2 - 26 in
  normal (dbl_sqrt a) /\ e' <= (dbl_sqrt a).2 <= e' + 1 /\
  ((dbl_sqrt a).2 = e' + 1 -> (dbl_sqrt a).1 = 2 ^ 52).
Proof.
  intros Ha e'. destruct a as [m e]. unfold normal in Ha. simpl in *.
  pose proof (scaled_bounds m e Ha) as [_ Hb]. cbv zeta in Hb.
  pose proof (sqrt_near_bounds _ (2 ^ 52) (2 ^ 53) ltac:(lia) ltac:(lia) Hb) as Hq.
  pose proof (normalize_facts _ e' Hq) as (Hn & He & Hc & _).
  unfold dbl_sqrt. simpl. fold e'. auto.
Qed.

Lemma dbl_sqrt_mono a b : normal a -> normal b -> fle a b -> fle (dbl_sqrt a) (dbl_sqrt b).
Proof.
  intros Ha Hb Hab.
  pose proof (dbl_sqrt_facts a Ha) as (Na & Ea & Ca).
  pose proof (dbl_sqrt_facts b Hb) as (Nb & Eb & Cb).
  destruct a as [ma ea], b as [mb eb]. unfold normal, fle in *. simpl in *.
  destruct (Z.eq_dec (Z.div2 ea) (Z.div2 eb)) as [Hh|Hh].
  - clear Ea Ca Eb Cb. unfold dbl_sqrt. simpl. rewrite <- Hh.
    pose proof (scaled_bounds ma ea Ha) as [Hsa Hba].
    pose proof (scaled_bounds mb eb Hb) as [Hsb Hbb].
    cbv zeta in *. rewrite <- Hh in Hsb, Hbb.
    set (sa := ea - 2 * (Z.div2 ea - 26)) in *.
    set (sb := eb - 2 * (Z.div2 ea - 26)) in *.
    assert (Hm : ma * 2 ^ sa <= mb * 2 ^ sb).
    { destruct Hab as [Hlt|[-> Hle]].
      - assert (sa = 52 /\ sb = 53) as [-> ->]; [|lia].
        pose proof (Z.div2_odd ea) as Oa. pose proof (Z.div2_odd eb) as Ob.
        rewrite <- Hh in Ob. subst sa sb.
        destruct (Z.odd ea), (Z.odd eb); simpl Z.b2z in *; lia.
      - subst sa sb. apply Z.mul_le_mono_nonneg_r; [apply Z.pow_nonneg|]; lia. }
    apply normalize_mono.
    + split.
      * apply (sqrt_near_bounds _ (2 ^ 52) (2 ^ 53)); lia.
      * apply sqrt_near_mono. lia.
    + apply (sqrt_near_bounds _ (2 ^ 52) (2 ^ 53)); lia.
  - assert (Z.div2 ea < Z.div2 eb).
    { pose proof (Z.div2_odd ea) as Oa. pose proof (Z.div2_odd eb) as Ob.
      destruct (Z.odd ea), (Z.odd eb); simpl Z.b2z in *; lia. }
    destruct (Z.eq_dec (dbl_sqrt (ma, ea)).2 (dbl_sqrt (mb, eb)).2) as [He|He];
      [right|left; lia].
    split; [exact He|]. rewrite Ca by lia. lia.
Qed.

Lemma dbl_trunc_mono a b : normal a -> normal b -> fle a b -> dbl_trunc a <= dbl_trunc b.
Proof.
  intros Ha Hb Hab. destruct a as [ma ea], b as [mb eb].
  unfold normal, fle, dbl_trunc in *. simpl in *.
  assert (Hhalf : forall k, 1 <= k -> ma / 2 ^ k < 2 ^ 52).
  { intros k Hk. apply Z.div_lt_upper_bound; [apply Z.pow_pos_nonneg; lia|].
    assert (2 ^ 1 <= 2 ^ k) by (apply Z.pow_le_mono_r; lia).
    rewrite Z.pow_1_r in *. nia. }
  destruct Hab as [Hlt|[-> Hle]].
  - destruct (Z.ltb_spec ea 0) as [Hea|Hea], (Z.ltb_spec eb 0) as [Heb|Heb].
    + replace (- ea) with ((eb - ea) + (- eb)) by lia.
      rewrite Z.pow_add_r, <- Z.div_div by (try apply Z.pow_pos_nonneg; lia).
      apply Z.div_le_mono; [apply Z.pow_pos_nonneg; lia|].
      specialize (Hhalf (eb - ea) ltac:(lia)). lia.
    + specialize (Hhalf (- ea) ltac:(lia)).
      assert (1 <= 2 ^ eb) by (apply (Z.pow_le_mono_r 2 0 eb); lia).
      nia.
    + lia.
    + assert (2 * 2 ^ ea <= 2 ^ eb).
      { replace (2 * 2 ^ ea) with (2 ^ (ea + 1)) by (rewrite Z.pow_add_r; lia).
        apply Z.pow_le_mono_r; lia. }
      assert (0 < 2 ^ ea) by (apply Z.pow_pos_nonneg; lia).
      nia.
  - destruct (Z.ltb_spec eb 0).
    + apply Z.div_le_mono; [apply Z.pow_pos_nonneg|]; lia.
    + apply Z.mul_le_mono_nonneg_r; [apply Z.pow_nonneg|]; lia.
Qed.

Lemma SFsqrt_dbl m e :
  normal (Z.pos m, e) -> -52 <= e <= 971 ->
  SFsqrt 53 1024 (S754_finite false m e) = finish (dbl_sqrt (Z.pos m, e)).
Proof.
  unfold normal. simpl. intros Hm He.
  pose proof (scaled_bounds (Z.pos m) e Hm) as [Hs Hb]. cbv zeta in Hs, Hb.
  unfold SFsqrt, SFsqrt_core_binary, dbl_sqrt. simpl Zdigits2. simpl fst. simpl snd.
  rewrite (digits2_pos_unique m 53) by exact Hm.
  assert (He' : Z.min (fexp 53 1024 (Z.div2 (53 + e + 1))) (Z.div2 e)
                = Z.div2 e - 26).
  { unfold fexp, emin.
    pose proof (Z.div2_odd e) as Oe. pose proof (Z.div2_odd (53 + e + 1)) as Oe'.
    destruct (Z.odd e), (Z.odd (53 + e + 1)); simpl Z.b2z in *; lia. }
  rewrite He'. set (e' := Z.div2 e - 26) in *.
  set (s := e - 2 * e') in *.
  assert (Hsh : match s with
                | Z.pos _ => Z.shiftl (Z.pos m) s
                | 0 => Z.pos m
                | Z.neg _ => 0
                end = Z.pos m * 2 ^ s).
  { destruct Hs as [-> | ->]; now rewrite Z.shiftl_mul_pow2. }
  rewrite Hsh. set (m' := Z.pos m * 2 ^ s) in *.
  pose proof (Z.sqrtrem_spec m' ltac:(lia)) as Hsr.
  pose proof (Z.sqrtrem_sqrt m') as Hsq.
  destruct (Z.sqrtrem m') as [q r]. simpl in Hsq. destruct Hsr as [Hqr Hr].
  assert (Hq : 2 ^ 52 <= q < 2 ^ 53).
  { rewrite Hsq. split.
    - apply Z.sqrt_le_square; lia.
    - apply Z.sqrt_lt_square; lia. }
  rewrite binary_round_aux_53 by (unfold e'; lia).
  f_equal. f_equal. unfold sqrt_near. rewrite <- Hsq.
  replace (m' - q * q) with r by lia.
  destruct (Z.eqb_spec r 0) as [->|Hr0].
  - simpl. destruct (Z.ltb_spec q 0); lia.
  - destruct (Z.leb_spec r q), (Z.ltb_spec q r); simpl; lia.
Qed.

Lemma finish_finite a :
  normal a -> a.2 <= 971 -> finish a = S754_finite false (Z.to_pos a.1) a.2.
Proof.
  intros _ He. unfold finish. destruct (Z.leb_spec a.2 971); [reflexivity|lia].
Qed.

Lemma level_body_int x :
  0 < x < 2 ^ 1024 - 2 ^ 970 ->
  (r ← PyFloat.math_sqrt x; i ← PyFloat.int_of_float r; Ok (Z.max 1 i))
  = Ok (Z.max 1 (level_int x)).
Proof.
  intros Hx. unfold PyFloat.math_sqrt.
  rewrite float_of_int_dbl by lia.
  pose proof (dbl_of_int_facts x ltac:(lia)) as (NF & EF & _). cbv zeta in EF.
  pose proof (dbl_of_int_finite x Hx) as HF.
  pose proof (Z.log2_nonneg x) as Hl.
  rewrite (finish_finite _ NF HF). cbn [to_result mbind result_bind].
  unfold PyFloat.prec, PyFloat.emax.
  assert (NF' : normal (Z.pos (Z.to_pos (dbl_of_int x).1), (dbl_of_int x).2)).
  { unfold normal in *. simpl. rewrite Z2Pos.id; lia. }
  rewrite (SFsqrt_dbl _ _ NF') by lia.
  assert (Hid : (Z.pos (Z.to_pos (dbl_of_int x).1), (dbl_of_int x).2) = dbl_of_int x).
  { unfold normal in NF. destruct (dbl_of_int x) as [m e]. simpl in *.
    now rewrite Z2Pos.id by lia. }
  rewrite Hid.
  pose proof (dbl_sqrt_facts (dbl_of_int x) NF) as (NS & ES & _). cbv zeta in ES.
  assert (HS : (dbl_sqrt (dbl_of_int x)).2 <= 971).
  { pose proof (Z.div2_odd (dbl_of_int x).2) as Oe.
    destruct (Z.odd (dbl_of_int x).2); simpl Z.b2z in *; lia. }
  rewrite (finish_finite _ NS HS). simpl.
  unfold level_int, dbl_trunc. unfold normal in NS.
  rewrite Z2Pos.id by lia. reflexivity.
Qed.

Lemma level_int_mono x y : 0 < x <= y -> level_int x <= level_int y.
Proof.
  intros Hxy. unfold level_int.
  pose proof (dbl_of_int_facts x ltac:(lia)) as (Nx & _).
  pose proof (dbl_of_int_facts y ltac:(lia)) as (Ny & _).
  apply dbl_trunc_mono; try (apply dbl_sqrt_facts; assumption).
  apply dbl_sqrt_mono; try assumption. apply dbl_of_int_mono. exact Hxy.
Qed.

Lemma dbl_trunc_normalize m e :
  -53 <= e < 0 -> 2 ^ 52 <= m <= 2 ^ 53 -> dbl_trunc (normalize m e) = m / 2 ^ (- e).
Proof.
  intros He Hm. unfold normalize, dbl_trunc.
  destruct (Z.eqb_spec m (2 ^ 53)) as [->|Hne]; simpl fst; simpl snd.
  - destruct (Z.ltb_spec (e + 1) 0) as [Hlt|Hge].
    + replace (- e) with (1 + (- (e + 1))) by lia.
      rewrite (Z.pow_add_r 2 1) by lia.
      change (2 ^ 53) with (2 ^ 1 * 2 ^ 52).
      rewrite Z.div_mul_cancel_l by (try apply Z.pow_nonzero; lia).
      reflexivity.
    + replace e with (-1) by lia. reflexivity.
  - destruct (Z.ltb_spec e 0); [reflexivity|lia].
Qed.

(** Below [2 ^ 52] rounding never reaches the next integer: the level is
    the integer square root. *)
Lemma level_int_exact x : 0 < x < 2 ^ 52 -> level_int x = Z.sqrt x.
Proof.
  intros [Hx Hlt]. unfold level_int.
  pose proof (log2_bounds x Hx) as Hb. pose proof (Z.log2_nonneg x) as Hl.
  set (d := Z.log2 x + 1) in *.
  assert (Hd : d <= 52).
  { assert (d - 1 < 52); [|lia]. apply (Z.pow_lt_mono_r_iff 2); lia. }
  assert (HF : dbl_of_int x = (x * 2 ^ (53 - d), d - 53)).
  { unfold dbl_of_int. fold d. destruct (Z.leb_spec d 53); [reflexivity|lia]. }
  rewrite HF. unfold dbl_sqrt. simpl fst. simpl snd.
  set (e' := Z.div2 (d - 53) - 26).
  assert (He' : -53 <= e' <= -27).
  { unfold e'. pose proof (Z.div2_odd (d - 53)) as Oe.
    destruct (Z.odd (d - 53)); simpl Z.b2z in *; lia. }
  set (k := - e').
  assert (Hm' : x * 2 ^ (53 - d) * 2 ^ (d - 53 - 2 * e') = x * (2 ^ k * 2 ^ k)).
  { rewrite <- Z.mul_assoc, <- !Z.pow_add_r by lia. do 2 f_equal. lia. }
  rewrite Hm'.
  assert (HK : 2 ^ 26 < 2 ^ k) by (apply Z.pow_lt_mono_r; lia).
  pose proof (Z.sqrt_spec x ltac:(lia)) as Hs0. cbv zeta in Hs0.
  pose proof (Z.sqrt_nonneg x) as Hs0'.
  assert (Hs26 : Z.sqrt x < 2 ^ 26).
  { apply Z.sqrt_lt_square; lia. }
  set (s0 := Z.sqrt x) in *. set (K := 2 ^ k) in *.
  assert (Hq : s0 * K <= sqrt_near (x * (K * K)) <= (s0 + 1) * K - 1).
  { unfold sqrt_near.
    pose proof (Z.sqrt_spec (x * (K * K)) ltac:(nia)) as Hq. cbv zeta in Hq.
    pose proof (Z.sqrt_nonneg (x * (K * K))) as Hq'.
    assert (Hlo : s0 * K <= Z.sqrt (x * (K * K))).
    { apply Z.sqrt_le_square; nia. }
    assert (Hhi : Z.sqrt (x * (K * K)) < (s0 + 1) * K).
    { apply Z.sqrt_lt_square; nia. }
    set (q := Z.sqrt (x * (K * K))) in *.
    destruct (Z.ltb_spec q (x * (K * K) - q * q)) as [Hup|Hdn]; [|lia].
    split; [lia|].
    destruct (Z.eq_dec q ((s0 + 1) * K - 1)) as [Heq|Hne]; [|lia].
    exfalso.
    assert (H2 : (x + 1) * (K * K) <= (s0 + 1) * (s0 + 1) * (K * K)).
    { apply Z.mul_le_mono_nonneg_r; [nia|lia]. }
    rewrite Heq in Hup.
    assert (H3 : K * K < (s0 + 1) * K) by lia.
    apply Z.mul_lt_mono_pos_r in H3; lia. }
  assert (Hv : 2 ^ 52 <= sqrt_near (x * (K * K)) <= 2 ^ 53).
  { rewrite <- Hm'.
    pose proof (scaled_bounds (x * 2 ^ (53 - d)) (d - 53)) as Hsb.
    cbv zeta in Hsb. fold e' in Hsb.
    assert (Hn : 2 ^ 52 <= x * 2 ^ (53 - d) < 2 ^ 53).
    { pose proof (dbl_of_int_facts x Hx) as (NF & _). rewrite HF in NF. exact NF. }
    destruct (Hsb Hn) as [_ Hsb'].
    apply (sqrt_near_bounds _ (2 ^ 52) (2 ^ 53)); lia. }
  rewrite dbl_trunc_normalize by lia. fold k. fold K.
  symmetry. apply (Z.div_unique_pos _ K s0 (sqrt_near (x * (K * K)) - s0 * K)); lia.
Qed.

(** ** The level function *)

Lemma calculate_level_int u :
  0 < u -> u * 10 < 2 ^ 1024 - 2 ^ 970 ->
  Hook.calculate_level u = Ok (Z.max 1 (level_int (u * 10))).
Proof.
  intros Hu Hb. unfold Hook.calculate_level.
  destruct (Z.leb_spec u 0); [lia|].
  apply level_body_int. lia.
Qed.

Lemma calc_level_hook u : Cli.calc_level u = Hook.calculate_level u.
Proof.
  unfold Cli.calc_level, Hook.calculate_level.
  destruct (Z.ltb_spec 0 u), (Z.leb_spec u 0); try lia; reflexivity.
Qed.

(** C10: the level functions of the hook, of the terminal client and of the
    dashboard generator return the same result on every integer, and so on
    every non-negative one: the same level, or the same exception. *)
Theorem level_implementations_agree (u : Z) :
  Hook.calculate_level u = Cli.calc_level u /\
  Cli.calc_level u = Dashboard.calc_level u.
Proof.
  split.
  - symmetry. apply calc_level_hook.
  - reflexivity.
Qed.

(** Below [2 ^ 52] the level is what the specification says: for every
    non-negative integer [u] with [u * 10 < 2 ^ 52] the hook and the
    terminal client return [0] when [u <= 0] and
    [max(1, floor(sqrt(u * 10)))] otherwise; and [level(0) = 0],
    [level(10) = 10], [level(100) = 31], [level(1000) = 100]. *)
Theorem level_floor_sqrt_below_2_52 (u : Z) :
  0 <= u -> u * 10 < 2 ^ 52 ->
  (Hook.calculate_level u = Ok (level_spec u) /\
   Cli.calc_level u = Ok (level_spec u)) /\
  Hook.calculate_level 0 = Ok 0 /\
  Hook.calculate_level 10 = Ok 10 /\
  Hook.calculate_level 100 = Ok 31 /\
  Hook.calculate_level 1000 = Ok 100.
Proof.
  intros Hu Hb. split; [|repeat split; vm_compute; reflexivity].
  rewrite calc_level_hook.
  assert (H : Hook.calculate_level u = Ok (level_spec u)); [|now split].
  unfold level_spec. destruct (Z.leb_spec u 0) as [H0|H0].
  - unfold Hook.calculate_level. destruct (Z.leb_spec u 0); [reflexivity|lia].
  - rewrite calculate_level_int by lia.
    rewrite level_int_exact by lia. reflexivity.
Qed.

Lemma level_floor_sqrt_below_2_52_witness :
  (Hook.calculate_level 7 = Ok (level_spec 7) /\
   Cli.calc_level 7 = Ok (level_spec 7)) /\
  Hook.calculate_level 0 = Ok 0 /\
  Hook.calculate_level 10 = Ok 10 /\
  Hook.calculate_level 100 = Ok 31 /\
  Hook.calculate_level 1000 = Ok 100.
Proof. apply (level_floor_sqrt_below_2_52 7); lia. Defined.

(** C3 fails on the code at large counts: [level] goes through
    [math.sqrt], a binary64 square root, and at [u = 1000000020000000] the
    square root of [u * 10] lies so close below [100000001] that its
    nearest double is [100000001.0]; the hook and the terminal client
    return [100000001] where [max(1, floor(sqrt(u * 10)))] is [100000000].
    The four values the claim lists are as it says. *)
Theorem level_rounds_up_at_large_count :
  0 <= 1000000020000000 /\
  level_spec 1000000020000000 = 100000000 /\
  Hook.calculate_level 1000000020000000 = Ok 100000001 /\
  Cli.calc_level 1000000020000000 = Ok 100000001 /\
  Hook.calculate_level 0 = Ok 0 /\
  Hook.calculate_level 10 = Ok 10 /\
  Hook.calculate_level 100 = Ok 31 /\
  Hook.calculate_level 1000 = Ok 100.
Proof. split; [lia|]. repeat split; vm_compute; reflexivity. Qed.

(** Within the range of doubles the level never falls: for every
    non-negative integer [u] such that [(u + 1) * 10] is below
    [2 ^ 1024 - 2 ^ 970], where integers stop having a nearest finite
    double, both levels are returned and [level(u) <= level(u + 1)]. *)
Theorem level_monotone_within_doubles (u : Z) :
  0 <= u -> (u + 1) * 10 < 2 ^ 1024 - 2 ^ 970 -> level_monotone_at u.
Proof.
  intros Hu Hb. unfold level_monotone_at.
  destruct (Z.eq_dec u 0) as [->|Hne].
  - exists 0, 3.
    split; [vm_compute; reflexivity|split; [vm_compute; reflexivity|lia]].
  - exists (Z.max 1 (level_int (u * 10))), (Z.max 1 (level_int ((u + 1) * 10))).
    split; [apply calculate_level_int; lia|].
    split; [apply calculate_level_int; lia|].
    apply Z.max_le_compat_l, level_int_mono. lia.
Qed.

Lemma level_monotone_within_doubles_witness : level_monotone_at 41.
Proof.
  apply (level_monotone_within_doubles 41); [lia|]. vm_compute. reflexivity.
Defined.

Lemma level_spec_mono u : 0 <= u -> level_spec u <= level_spec (u + 1).
Proof.
  intros Hu. unfold level_spec.
  destruct (Z.leb_spec u 0), (Z.leb_spec (u + 1) 0); try lia.
  apply Z.max_le_compat_l, Z.sqrt_le_mono. lia.
Qed.

(** C9 fails on the code at large counts.  The level as the docstring
    words it, [max(1, floor(sqrt(u * 10)))], never falls; but
    [calculate_level] and [calc_level] go through [math.sqrt], which
    refuses an integer too large for a double: at [u = 2 ^ 1021] neither
    [level(u)] nor [level(u + 1)] is returned, [OverflowError] is raised
    instead, and there are no two levels to compare. *)
Theorem level_overflows_at_large_count :
  (forall u, 0 <= u -> level_spec u <= level_spec (u + 1)) /\
  0 <= 2 ^ 1021 /\
  Hook.calculate_level (2 ^ 1021) = Raise OverflowError /\
  Hook.calculate_level (2 ^ 1021 + 1) = Raise OverflowError /\
  Cli.calc_level (2 ^ 1021) = Raise OverflowError /\
  Dashboard.calc_level (2 ^ 1021) = Raise OverflowError /\
  ~ level_monotone_at (2 ^ 1021).
Proof.
  assert (H : Hook.calculate_level (2 ^ 1021) = Raise OverflowError)
    by (vm_compute; reflexivity).
  split; [exact level_spec_mono|].
  split; [lia|]. split; [exact H|].
  split; [vm_compute; reflexivity|].
  split; [vm_compute; reflexivity|].
  split; [vm_compute; reflexivity|].
  intros (a & b & Ha & _). rewrite H in Ha. discriminate.
Qed.

(** ** Dicts *)

Lemma dict_get_set_eq d k v : Py.dict_get (Py.dict_set d k v) k = Some v.
Proof.
  induction d as [|[k' v'] d IH]; simpl.
  - now rewrite String.eqb_refl.
  - destruct (String.eqb_spec k' k) as [->|Hne]; simpl.
    + now rewrite String.eqb_refl.
    + destruct (String.eqb_spec k' k); [contradiction|exact IH].
Qed.

Lemma dict_get_set_ne d k k' v :
  k <> k' -> Py.dict_get (Py.dict_set d k v) k' = Py.dict_get d k'.
Proof.
  intros Hne. induction d as [|[k0 v0] d IH]; simpl.
  - destruct (String.eqb_spec k k'); [contradiction|reflexivity].
  - destruct (String.eqb_spec k0 k) as [->|Hk]; simpl.
    + destruct (String.eqb_spec k k'); [contradiction|reflexivity].
    + destruct (String.eqb_spec k0 k'); [reflexivity|exact IH].
Qed.

Lemma dict_set_set d k v v' :
  Py.dict_set (Py.dict_set d k v) k v' = Py.dict_set d k v'.
Proof.
  induction d as [|[k0 v0] d IH]; simpl.
  - now rewrite String.eqb_refl.
  - destruct (String.eqb_spec k0 k) as [->|Hk]; simpl.
    + now rewrite String.eqb_refl.
    + destruct (String.eqb_spec k0 k); [contradiction|now rewrite IH].
Qed.

Lemma dict_get_None_notin d k : Py.dict_get d k = None -> k ∉ d.*1.
Proof.
  induction d as [|[k0 v0] d IH]; csimpl; intros H.
  - apply not_elem_of_nil.
  - destruct (String.eqb_spec k0 k) as [->|Hk]; [discriminate|].
    apply not_elem_of_cons. split; [congruence|auto].
Qed.

Lemma dict_set_keys d k v :
  (Py.dict_set d k v).*1 =
  match Py.dict_get d k with Some _ => d.*1 | None => d.*1 ++ [k] end.
Proof.
  induction d as [|[k0 v0] d IH]; csimpl.
  - reflexivity.
  - destruct (String.eqb_spec k0 k) as [->|Hk]; csimpl.
    + reflexivity.
    + rewrite IH. now destruct (Py.dict_get d k).
Qed.

Lemma dict_set_NoDup d k v : NoDup d.*1 -> NoDup (Py.dict_set d k v).*1.
Proof.
  intros Hd. rewrite dict_set_keys.
  destruct (Py.dict_get d k) eqn:Hk; [exact Hd|].
  apply NoDup_app. split; [exact Hd|]. split.
  - intros x Hx Hx'. apply list_elem_of_singleton in Hx'. subst x.
    now apply dict_get_None_notin in Hk.
  - apply NoDup_singleton.
Qed.

Lemma dict_set_Forall (P : string * pyval -> Prop) d k v :
  (forall k1 k2 x, P (k1, x) -> P (k2, x)) ->
  Forall P d -> P (k, v) -> Forall P (Py.dict_set d k v).
Proof.
  intros HP Hd Hv. induction Hd as [|[k0 v0] d H0 Hd IH]; simpl.
  - now constructor.
  - destruct (String.eqb k0 k); constructor; auto.
Qed.

Lemma dict_get_Forall (P : string * pyval -> Prop) d k v :
  Forall P d -> Py.dict_get d k = Some v -> P (k, v).
Proof.
  intros Hd. induction Hd as [|[k0 v0] d H0 Hd IH]; simpl; [discriminate|].
  destruct (String.eqb_spec k0 k) as [->|Hk]; [|exact IH].
  intros [= ->]. exact H0.
Qed.

Lemma sum_uses_set d k v :
  sum_uses (Py.dict_set d k v) =
  sum_uses d + default 0 (skill_uses v)
  - match Py.dict_get d k with
    | Some old => default 0 (skill_uses old)
    | None => 0
    end.
Proof.
  induction d as [|[k0 v0] d IH]; simpl.
  - lia.
  - destruct (String.eqb_spec k0 k) as [->|Hk]; simpl; [lia|].
    fold (sum_uses (Py.dict_set d k v)). fold (sum_uses d). rewrite IH. lia.
Qed.

(** ** Recording one use *)

Ltac py_step :=
  cbn [mbind result_bind mret result_ret Py.get Py.getitem Py.setitem
       Py.contains Py.as_int Py.add_one Py.as_dict default from_option id
       Hook.calculate_level_of Cli.calc_level_of Cli.ensure_skill Cli.stamped].

Lemma contains_dict d k :
  Py.contains (PDict d) k = Ok (bool_decide (is_Some (Py.dict_get d k))).
Proof. reflexivity. Qed.

Lemma updated_stats_eq name today stats skills skill uses total :
  Py.dict_get stats "skills" = Some (PDict skills) ->
  default fresh_skill (Py.dict_get skills name) = PDict skill ->
  Py.dict_get skill "uses" = Some (PInt uses) ->
  Py.dict_get stats "totalUses" = Some (PInt total) ->
  Hook.updated_stats name today (PDict stats) =
    (old_level ← Hook.calculate_level uses;
     new_level ← Hook.calculate_level (uses + 1);
     Ok (used_stats name today stats skills skill uses total, old_level, new_level)).
Proof.
  intros Hskills Hskill Huses Htotal. unfold Hook.updated_stats, used_stats.
  py_step. rewrite Hskills, Htotal. py_step.
  destruct (Py.dict_get skills name) as [v|] eqn:Hget; simpl in Hskill; subst.
  - rewrite bool_decide_true by eauto. py_step. rewrite Hget. py_step.
    rewrite Huses. py_step.
    destruct (Hook.calculate_level uses); py_step; [|reflexivity].
    destruct (Hook.calculate_level (uses + 1)); reflexivity.
  - rewrite bool_decide_false by (intros [? [=]]). py_step.
    rewrite dict_get_set_eq. unfold fresh_skill in *. injection Hskill as <-.
    py_step. rewrite Huses. py_step. rewrite dict_set_set.
    destruct (Hook.calculate_level uses); py_step; [|reflexivity].
    destruct (Hook.calculate_level (uses + 1)); reflexivity.
Qed.

Lemma increment_usage_eq name today stats skills skill uses total :
  Py.dict_get stats "skills" = Some (PDict skills) ->
  default fresh_skill (Py.dict_get skills name) = PDict skill ->
  Py.dict_get skill "uses" = Some (PInt uses) ->
  Py.dict_get stats "totalUses" = Some (PInt total) ->
  ('(doc, old_level, new_level) ← Cli.increment_usage_doc name today (PDict stats);
   doc' ← Cli.stamped today doc;
   Ok (doc', old_level, new_level)) =
    (old_level ← Cli.calc_level uses;
     new_level ← Cli.calc_level (uses + 1);
     Ok (used_stats name today stats skills skill uses total, old_level, new_level)).
Proof.
  intros Hskills Hskill Huses Htotal. unfold Cli.increment_usage_doc, used_stats.
  py_step. rewrite Hskills. py_step.
  assert (Htotal' : forall x,
    Py.dict_get (Py.dict_set stats "skills" x) "totalUses" = Some (PInt total)).
  { intros x. now rewrite dict_get_set_ne. }
  destruct (Py.dict_get skills name) as [v|] eqn:Hget; simpl in Hskill; subst.
  - rewrite bool_decide_true by eauto. py_step. rewrite Hget. py_step.
    rewrite Huses. py_step. rewrite Htotal'. py_step.
    destruct (Cli.calc_level uses); py_step; [|reflexivity].
    destruct (Cli.calc_level (uses + 1)); reflexivity.
  - rewrite bool_decide_false by (intros [? [=]]). py_step.
    rewrite dict_get_set_eq. unfold fresh_skill in *. injection Hskill as <-.
    py_step. rewrite Huses. py_step. rewrite dict_set_set. rewrite Htotal'. py_step.
    destruct (Cli.calc_level uses); py_step; [|reflexivity].
    destruct (Cli.calc_level (uses + 1)); reflexivity.
Qed.

Lemma pin_skill_eq name today stats skills skill :
  Py.dict_get stats "skills" = Some (PDict skills) ->
  default fresh_skill (Py.dict_get skills name) = PDict skill ->
  ('(doc, pinned) ← Cli.pin_skill_doc name (PDict stats);
   doc' ← Cli.stamped today doc;
   Ok (doc', pinned)) =
    (let pinned := negb (Py.truthy (default (PBool false) (Py.dict_get skill "pinned"))) in
     Ok (pinned_stats name today stats skills skill pinned, pinned)).
Proof.
  intros Hskills Hskill. unfold Cli.pin_skill_doc, pinned_stats.
  py_step. rewrite Hskills. py_step.
  destruct (Py.dict_get skills name) as [v|] eqn:Hget; simpl in Hskill; subst.
  - rewrite bool_decide_true by eauto. py_step. rewrite Hget. py_step. reflexivity.
  - rewrite bool_decide_false by (intros [? [=]]). py_step.
    rewrite dict_get_set_eq. unfold fresh_skill in *. injection Hskill as <-.
    py_step. rewrite dict_set_set. reflexivity.
Qed.

Lemma skills_of_inv doc skills :
  skills_of doc = Some skills ->
  exists stats, doc = PDict stats /\ Py.dict_get stats "skills" = Some (PDict skills).
Proof.
  destruct doc as [| | | | |stats|]; try discriminate. simpl.
  destruct (Py.dict_get stats "skills") as [[| | | | |d|]|] eqn:Hget;
    try discriminate.
  intros [= ->]. exists stats. auto.
Qed.

Lemma total_uses_inv stats total :
  total_uses (PDict stats) = Some total ->
  Py.dict_get stats "totalUses" = Some (PInt total).
Proof.
  simpl. destruct (Py.dict_get stats "totalUses") as [[| | n | | | |]|];
    try discriminate.
  now intros [= ->].
Qed.

Lemma skill_uses_inv skill uses :
  skill_uses skill = Some uses ->
  exists items, skill = PDict items /\ Py.dict_get items "uses" = Some (PInt uses).
Proof.
  unfold skill_uses, skill_field. destruct skill as [| | | | |items|]; try discriminate.
  destruct (Py.dict_get items "uses") as [[| | n | | | |]|] eqn:Hget;
    try discriminate.
  intros [= ->]. exists items. auto.
Qed.

(** In a consistent document the skill [name], or the fresh record that
    stands for it, has an integer [uses]. *)
Lemma skill_or_fresh skills name :
  Forall (fun kv => is_Some (skill_uses kv.2)) skills ->
  exists skill uses,
    default fresh_skill (Py.dict_get skills name) = PDict skill /\
    Py.dict_get skill "uses" = Some (PInt uses) /\
    uses = match Py.dict_get skills name with
           | Some old => default 0 (skill_uses old)
           | None => 0
           end.
Proof.
  intros Hwf. destruct (Py.dict_get skills name) as [v|] eqn:Hget; simpl.
  - pose proof (dict_get_Forall _ _ _ _ Hwf Hget) as [u Hu]. simpl in Hu.
    destruct (skill_uses_inv _ _ Hu) as (items & -> & Hitems).
    exists items, u. rewrite Hu. auto.
  - exists [("uses", PInt 0); ("lastUsed", PNone); ("pinned", PBool false)], 0.
    auto.
Qed.

Lemma used_skill_uses today skill uses :
  skill_uses (used_skill today skill uses) = Some (uses + 1).
Proof.
  unfold skill_uses, skill_field, used_skill.
  rewrite dict_get_set_ne by discriminate. now rewrite dict_get_set_eq.
Qed.

Lemma used_stats_consistent name today stats skills skill uses :
  Py.dict_get stats "skills" = Some (PDict skills) ->
  NoDup skills.*1 ->
  Forall (fun kv => is_Some (skill_uses kv.2)) skills ->
  uses = match Py.dict_get skills name with
         | Some old => default 0 (skill_uses old)
         | None => 0
         end ->
  consistent (used_stats name today stats skills skill uses (sum_uses skills)).
Proof.
  intros Hskills Hnd Hwf Huses.
  exists (Py.dict_set skills name (used_skill today skill uses)).
  unfold used_stats, skills_of, total_uses.
  rewrite !(dict_get_set_ne _ "lastUpdated") by discriminate.
  rewrite (dict_get_set_ne _ "totalUses" "skills") by discriminate.
  rewrite !dict_get_set_eq. split; [reflexivity|].
  split; [now apply dict_set_NoDup|]. split.
  - apply dict_set_Forall; [auto|exact Hwf|].
    simpl. rewrite used_skill_uses. eauto.
  - f_equal. rewrite sum_uses_set, used_skill_uses. simpl. lia.
Qed.

Lemma pinned_stats_consistent name today stats skills skill uses pinned :
  Py.dict_get stats "skills" = Some (PDict skills) ->
  NoDup skills.*1 ->
  Forall (fun kv => is_Some (skill_uses kv.2)) skills ->
  Py.dict_get skill "uses" = Some (PInt uses) ->
  uses = match Py.dict_get skills name with
         | Some old => default 0 (skill_uses old)
         | None => 0
         end ->
  total_uses (PDict stats) = Some (sum_uses skills) ->
  consistent (pinned_stats name today stats skills skill pinned).
Proof.
  intros Hskills Hnd Hwf Hitems Huses Htotal.
  assert (Hu : skill_uses (PDict (Py.dict_set skill "pinned" (PBool pinned)))
               = Some uses).
  { unfold skill_uses, skill_field.
    rewrite dict_get_set_ne by discriminate. now rewrite Hitems. }
  exists (Py.dict_set skills name (PDict (Py.dict_set skill "pinned" (PBool pinned)))).
  unfold pinned_stats, skills_of, total_uses.
  rewrite !(dict_get_set_ne _ "lastUpdated") by discriminate.
  rewrite (dict_get_set_ne _ "skills" "totalUses") by discriminate.
  rewrite !dict_get_set_eq. split; [reflexivity|].
  split; [now apply dict_set_NoDup|]. split.
  - apply dict_set_Forall; [auto|exact Hwf|]. simpl. rewrite Hu. eauto.
  - apply total_uses_inv in Htotal. rewrite Htotal. f_equal.
    rewrite sum_uses_set, Hu. simpl. lia.
Qed.

(** C2: every document that reaches the disk, starting from the document
    of an absent stats file and going through any sequence of recorded uses
    (hook or terminal client) and pin toggles, has a [totalUses] equal to
    the sum of [skills[k]["uses"]] over its skills, each skill occurring
    once and having an integer [uses]. *)
Theorem total_uses_is_sum_of_uses (doc : pyval) :
  reachable doc -> consistent doc.
Proof.
  induction 1 as
    [ | today
      | name today doc doc' old_level new_level _ IH Hstep
      | name today doc doc1 doc' old_level new_level _ IH Hstep Hsave
      | name today doc doc1 doc' pinned _ IH Hstep Hsave ].
  - exists []. repeat split; constructor.
  - exists []. repeat split; constructor.
  - destruct IH as (skills & Hs & Hnd & Hwf & Ht).
    destruct (skills_of_inv _ _ Hs) as (stats & -> & Hskills).
    destruct (skill_or_fresh skills name Hwf) as (skill & uses & Hskill & Hitems & Hu).
    rewrite (updated_stats_eq _ _ _ _ _ _ _ Hskills Hskill Hitems
               (total_uses_inv _ _ Ht)) in Hstep.
    destruct (Hook.calculate_level uses); [|discriminate].
    destruct (Hook.calculate_level (uses + 1)); [|discriminate].
    injection Hstep as <- _ _. now apply used_stats_consistent.
  - destruct IH as (skills & Hs & Hnd & Hwf & Ht).
    destruct (skills_of_inv _ _ Hs) as (stats & -> & Hskills).
    destruct (skill_or_fresh skills name Hwf) as (skill & uses & Hskill & Hitems & Hu).
    pose proof (increment_usage_eq name today _ _ _ _ _ Hskills Hskill Hitems
                  (total_uses_inv _ _ Ht)) as Heq.
    rewrite Hstep in Heq. cbn [mbind result_bind] in Heq.
    rewrite Hsave in Heq. cbn [mbind result_bind] in Heq.
    destruct (Cli.calc_level uses); [|discriminate].
    destruct (Cli.calc_level (uses + 1)); [|discriminate].
    injection Heq as -> _ _. now apply used_stats_consistent.
  - destruct IH as (skills & Hs & Hnd & Hwf & Ht).
    destruct (skills_of_inv _ _ Hs) as (stats & -> & Hskills).
    destruct (skill_or_fresh skills name Hwf) as (skill & uses & Hskill & Hitems & Hu).
    pose proof (pin_skill_eq name today _ _ _ Hskills Hskill) as Heq.
    rewrite Hstep in Heq. cbn [mbind result_bind] in Heq.
    rewrite Hsave in Heq. cbn [mbind result_bind] in Heq.
    injection Heq as -> _. now apply (pinned_stats_consistent _ _ _ _ _ uses).
Qed.

Lemma total_uses_is_sum_of_uses_witness :
  consistent
    (pinned_stats "foo" "2026-01-02"
       [("version", PInt 1); ("totalUses", PInt 1);
        ("skills", PDict [("foo", PDict [("uses", PInt 1);
                                         ("lastUsed", PStr "2026-01-01");
                                         ("pinned", PBool false)])]);
        ("lastUpdated", PStr "2026-01-01")]
       [("foo", PDict [("uses", PInt 1); ("lastUsed", PStr "2026-01-01");
                       ("pinned", PBool false)])]
       [("uses", PInt 1); ("lastUsed", PStr "2026-01-01"); ("pinned", PBool false)]
       true).
Proof.
  apply total_uses_is_sum_of_uses.
  eapply (reach_pin_skill "foo" "2026-01-02").
  - eapply (reach_update_stats "foo" "2026-01-01").
    + apply reach_fresh.
    + vm_compute. reflexivity.
  - vm_compute. reflexivity.
  - vm_compute. reflexivity.
Defined.

(** C7: recording a use of a skill absent from a document that has a
    [skills] dict and an integer [totalUses] returns the level pair
    [(0, level(1))] and yields a document in which the skill has
    [uses == 1] and [lastUsed] equal to the current date, and in which
    [totalUses] is one greater than before; the hook ([update_stats]) and
    the terminal client ([increment_usage], then [save_stats]) build the
    same document. *)
Theorem record_use_of_absent_skill
    (name today : string) (stats skills : list (string * pyval)) (total : Z) :
  Py.dict_get stats "skills" = Some (PDict skills) ->
  Py.dict_get skills name = None ->
  Py.dict_get stats "totalUses" = Some (PInt total) ->
  exists doc' new_level skill,
    Hook.calculate_level 1 = Ok new_level /\
    Hook.updated_stats name today (PDict stats) = Ok (doc', 0, new_level) /\
    (exists doc1,
       Cli.increment_usage_doc name today (PDict stats) = Ok (doc1, 0, new_level) /\
       Cli.stamped today doc1 = Ok doc') /\
    skill_of doc' name = Some skill /\
    skill_uses skill = Some 1 /\
    skill_field skill "lastUsed" = Some (PStr today) /\
    total_uses doc' = Some (total + 1).
Proof.
  intros Hskills Habsent Htotal.
  set (fresh := [("uses", PInt 0); ("lastUsed", PNone); ("pinned", PBool false)]).
  assert (Hfresh : default fresh_skill (Py.dict_get skills name) = PDict fresh)
    by now rewrite Habsent.
  assert (Huses : Py.dict_get fresh "uses" = Some (PInt 0)) by reflexivity.
  assert (H0 : Hook.calculate_level 0 = Ok 0) by reflexivity.
  assert (H1 : Hook.calculate_level 1 = Ok 3) by (vm_compute; reflexivity).
  exists (used_stats name today stats skills fresh 0 total), 3,
         (used_skill today fresh 0).
  split; [exact H1|]. split; [|split; [|split; [|split; [|split]]]].
  - rewrite (updated_stats_eq _ _ _ _ _ _ _ Hskills Hfresh Huses Htotal).
    change (0 + 1) with 1. now rewrite H0, H1.
  - pose proof (increment_usage_eq name today _ _ _ _ _ Hskills Hfresh Huses Htotal)
      as Heq.
    change (0 + 1) with 1 in Heq. rewrite !calc_level_hook, H0, H1 in Heq.
    cbn [mbind result_bind] in Heq.
    destruct (Cli.increment_usage_doc name today (PDict stats))
      as [[[doc1 o] n]|e]; [|discriminate].
    cbn [mbind result_bind] in Heq.
    destruct (Cli.stamped today doc1) as [doc'|e] eqn:Hsave; [|discriminate].
    injection Heq as -> -> ->. exists doc1. split; [reflexivity|exact Hsave].
  - unfold skill_of, used_stats, skills_of. cbn [mbind option_bind].
    rewrite !(dict_get_set_ne _ "lastUpdated") by discriminate.
    rewrite (dict_get_set_ne _ "totalUses" "skills") by discriminate.
    rewrite dict_get_set_eq. cbn [mbind option_bind].
    apply dict_get_set_eq.
  - reflexivity.
  - reflexivity.
  - unfold used_stats, total_uses.
    rewrite !(dict_get_set_ne _ "lastUpdated") by discriminate.
    now rewrite dict_get_set_eq.
Qed.

Lemma record_use_of_absent_skill_witness :
  exists doc' new_level skill,
    Hook.calculate_level 1 = Ok new_level /\
    Hook.updated_stats "foo" "2026-01-01" Hook.fresh_stats = Ok (doc', 0, new_level) /\
    (exists doc1,
       Cli.increment_usage_doc "foo" "2026-01-01" Hook.fresh_stats
         = Ok (doc1, 0, new_level) /\
       Cli.stamped "2026-01-01" doc1 = Ok doc') /\
    skill_of doc' "foo" = Some skill /\
    skill_uses skill = Some 1 /\
    skill_field skill "lastUsed" = Some (PStr "2026-01-01") /\
    total_uses doc' = Some (0 + 1).
Proof.
  apply (record_use_of_absent_skill "foo" "2026-01-01"
           [("version", PInt 1); ("totalUses", PInt 0); ("skills", PDict [])]
           [] 0); reflexivity.
Defined.

(** ** Computations that leave the world alone *)

Lemma readonly_ret {A} (a : A) : readonly (mret a).
Proof. intros w. reflexivity. Qed.

Lemma readonly_raise {A} e : readonly (@raise A e).
Proof. intros w. reflexivity. Qed.

Lemma readonly_lift {A} (r : result A) : readonly (lift r).
Proof. intros w. reflexivity. Qed.

Lemma readonly_bind {A B} (c : M A) (k : A -> M B) :
  readonly c -> (forall a, readonly (k a)) -> readonly (c ≫= k).
Proof.
  intros Hc Hk w. unfold mbind, M_bind. specialize (Hc w).
  destruct (c w) as [[a|e] w']; simpl in *; subst; [apply Hk|reflexivity].
Qed.

Lemma readonly_fmap {A B} (f : A -> B) (c : M A) :
  readonly c -> readonly (f <$> c).
Proof.
  intros Hc w. unfold fmap, M_fmap. specialize (Hc w).
  destruct (c w) as [[a|e] w']; simpl in *; subst; reflexivity.
Qed.

Lemma readonly_try {A} (c : M A) classes (h : exn -> M A) :
  readonly c -> (forall e, readonly (h e)) -> readonly (try_except c classes h).
Proof.
  intros Hc Hh w. unfold try_except. specialize (Hc w).
  destruct (c w) as [[a|e] w']; simpl in *; subst; [reflexivity|].
  destruct (catches classes e); [apply Hh|reflexivity].
Qed.

Lemma readonly_is_file p : readonly (Sys.is_file p).
Proof.
  intros w. unfold Sys.is_file. now destruct (files w !! p) as [[]|].
Qed.

Lemma readonly_read_json p : readonly (Sys.read_json p).
Proof.
  intros w. unfold Sys.read_json. now destruct (files w !! p) as [[]|].
Qed.

Lemma readonly_if {A} (b : bool) (c1 c2 : M A) :
  readonly c1 -> readonly c2 -> readonly (if b then c1 else c2).
Proof. now destruct b. Qed.

Ltac readonly :=
  repeat first
    [ apply readonly_ret | apply readonly_raise | apply readonly_lift
    | apply readonly_is_file | apply readonly_read_json
    | apply readonly_fmap | apply readonly_if
    | apply readonly_bind; [|intros ?] | apply readonly_try; [|intros ?]
    | match goal with |- readonly (match ?x with _ => _ end) => destruct x end ].

Lemma readonly_get_stats_path E : readonly (Hook.get_stats_path E).
Proof. unfold Hook.get_stats_path. readonly. Qed.

Lemma readonly_load_stats sp : readonly (Hook.load_stats sp).
Proof. unfold Hook.load_stats. readonly. Qed.

Lemma readonly_plugin_has_skill E plugin_name skill_name entry :
  readonly (Hook.plugin_has_skill E plugin_name skill_name entry).
Proof. unfold Hook.plugin_has_skill. readonly. Qed.

Lemma readonly_scan_entries E plugin_name skill_name entries :
  readonly (Hook.scan_entries E plugin_name skill_name entries).
Proof.
  induction entries as [|entry rest IH]; simpl.
  - readonly.
  - apply readonly_bind; [apply readonly_plugin_has_skill|].
    intros []; [readonly|exact IH].
Qed.

Lemma readonly_scan_plugins E plugin_name skill_name plugins :
  readonly (Hook.scan_plugins E plugin_name skill_name plugins).
Proof.
  induction plugins as [|[key entries] rest IH]; simpl.
  - readonly.
  - destruct (negb _); [exact IH|].
    destruct entries; try exact IH.
    apply readonly_bind; [apply readonly_scan_entries|].
    intros []; [readonly|exact IH].
Qed.

Lemma readonly_check_skill_exists E name :
  readonly (Hook.check_skill_exists E name).
Proof.
  unfold Hook.check_skill_exists.
  apply readonly_bind; [readonly|]. intros []; [readonly|].
  apply readonly_bind; [readonly|]. intros []; [readonly|].
  apply readonly_bind; [readonly|]. intros []; [|readonly].
  apply readonly_bind; [readonly|]. intros [plugins_data|]; [|readonly].
  apply readonly_bind; [readonly|]. intros plugins.
  destruct plugins; try (readonly; fail).
  destruct (Hook.split_colon name) as [a [b|]]; apply readonly_scan_plugins.
Qed.

(** ** The atomic write of the hook *)

(** [write_stats_atomic] returns: the document is complete in a temporary
    file next to the target, which one [os.replace] then moves onto the
    target; no other file changes. *)
Lemma write_stats_atomic_returns E stats_path stats w w' :
  Hook.write_stats_atomic E stats_path stats w = (Ok tt, w') ->
  let tmp := tmp_path_of E stats_path in
  files w !! tmp = None /\
  files w' = <[stats_path := Complete stats true]> (delete tmp (files w)) /\
  calls w' = SysReplace tmp stats_path :: SysWrite tmp :: SysMkstemp tmp
               :: SysMkdir (parent stats_path) :: calls w /\
  stdout w' = stdout w.
Proof.
  unfold Hook.write_stats_atomic, tmp_path_of, Sys.mkdir, Sys.mkstemp,
    Sys.write_json, Sys.replace, Sys.unlink, Sys.record, try_except, raise,
    mbind, M_bind, mret, M_ret.
  set (tmp := parent stats_path ++ _).
  destruct (failing E) as [f1 f2 f3 f4 f5 f6]. simpl.
  destruct f1; [discriminate|]. simpl.
  destruct f2; [discriminate|]. simpl.
  destruct (files w !! tmp) eqn:Htmp; [discriminate|]. simpl.
  destruct f4 as [e4|]; simpl.
  { destruct e4; simpl; try discriminate.
    destruct f6; simpl; [discriminate|].
    rewrite lookup_insert_eq. simpl. discriminate. }
  destruct f5; simpl.
  { destruct f6; simpl; [discriminate|].
    rewrite lookup_insert_eq. simpl. discriminate. }
  rewrite lookup_insert_eq. simpl.
  destruct (_ !! stats_path) as [[]|]; simpl;
    try (destruct f6; simpl; [discriminate|];
         rewrite lookup_insert_eq; simpl; discriminate);
    intros [= <-]; simpl; repeat split; f_equal;
    rewrite insert_insert_eq, delete_insert_eq; reflexivity.
Qed.

(** [write_stats_atomic] raises: no file but the temporary one can
    differ.  An [OSError] went through the handler, and with [os.unlink]
    working no file at all differs: the temporary file is gone and the
    target is as it was.  Any other exception is the one the write raised,
    and the temporary file is left with what was written of the text. *)
Lemma write_stats_atomic_raises E stats_path stats w w' e :
  Hook.write_stats_atomic E stats_path stats w = (Raise e, w') ->
  let tmp := tmp_path_of E stats_path in
  (forall p, p <> tmp -> files w' !! p = files w !! p) /\
  stdout w' = stdout w /\
  (e = OSError /\ (unlink_fails (failing E) = false -> files w' = files w) \/
   e <> OSError /\ write_raises (failing E) = Some e /\
   files w !! tmp = None /\ files w' = <[tmp := Partial stats]> (files w)).
Proof.
  unfold Hook.write_stats_atomic, tmp_path_of, Sys.mkdir, Sys.mkstemp,
    Sys.write_json, Sys.replace, Sys.unlink, Sys.record, try_except, raise,
    mbind, M_bind, mret, M_ret.
  set (tmp := parent stats_path ++ _).
  destruct (failing E) as [f1 f2 f3 f4 f5 f6]. simpl.
  destruct f1; simpl; [intros [= <- <-]; auto|].
  destruct f2; simpl; [intros [= <- <-]; auto|].
  destruct (files w !! tmp) eqn:Htmp; simpl; [intros [= <- <-]; auto|].
  assert (Hback : forall c c',
    delete tmp (<[tmp := c]> (<[tmp := c']> (files w))) = files w).
  { intros c c'. rewrite insert_insert_eq, delete_insert_eq.
    now apply delete_id. }
  assert (Hne : forall c c' p, p <> tmp ->
    <[tmp := c]> (<[tmp := c']> (files w)) !! p = files w !! p).
  { intros c c' p Hp. now rewrite !lookup_insert_ne. }
  destruct f4 as [e4|]; simpl.
  { destruct e4; simpl;
      try (intros [= <- <-]; simpl; split; [apply Hne|];
           split; [reflexivity|]; right; repeat split;
           [discriminate|now rewrite insert_insert_eq]).
    destruct f6; simpl.
    - intros [= <- <-]. simpl. repeat split; [apply Hne|].
      left. split; [reflexivity|discriminate].
    - rewrite lookup_insert_eq. simpl. intros [= <- <-]. simpl.
      rewrite Hback. auto. }
  destruct f5; simpl.
  { destruct f6; simpl.
    - intros [= <- <-]. simpl. repeat split; [apply (Hne (Complete stats true))|].
      left. split; [reflexivity|discriminate].
    - rewrite lookup_insert_eq. simpl. intros [= <- <-]. simpl.
      rewrite Hback. auto. }
  rewrite lookup_insert_eq. simpl.
  destruct (_ !! stats_path) as [[]|]; simpl; try discriminate.
  destruct f6; simpl.
  - intros [= <- <-]. simpl. repeat split; [apply (Hne (Complete stats true))|].
    left. split; [reflexivity|discriminate].
  - rewrite lookup_insert_eq. simpl. intros [= <- <-]. simpl.
    rewrite Hback. auto.
Qed.

(** ** What a recorded use changes *)

Lemma used_stats_counted name today stats skills skill uses total :
  used_stats name today stats skills skill uses total =
  counted_stats name today stats skills skill (PInt (uses + 1)) (PInt (total + 1)).
Proof. reflexivity. Qed.

(** [v + 1] is one more for an integer, and the rounded sum for a float. *)
Lemma add_one_inv v v' :
  Py.add_one v = Ok v' ->
  (exists n, Py.as_int v = Ok n /\ v' = PInt (n + 1)) \/
  (exists f, v = PFloat f /\ v' = PFloat (PyFloat.add_one f)).
Proof.
  destruct v; simpl; intros [= <-]; eauto.
Qed.

Lemma updated_stats_inv name today doc doc' old_level new_level :
  Hook.updated_stats name today doc = Ok (doc', old_level, new_level) ->
  exists stats skills skill v v' total',
    doc = PDict stats /\
    default (PDict []) (Py.dict_get stats "skills") = PDict skills /\
    default fresh_skill (Py.dict_get skills name) = PDict skill /\
    Py.dict_get skill "uses" = Some v /\ Py.add_one v = Ok v' /\
    Py.add_one (default (PInt 0) (Py.dict_get stats "totalUses")) = Ok total' /\
    Hook.calculate_level_of v = Ok old_level /\
    Hook.calculate_level_of v' = Ok new_level /\
    doc' = counted_stats name today stats skills skill v' total'.
Proof.
  unfold Hook.updated_stats. intros H.
  destruct doc as [| | | | |stats|]; try discriminate.
  cbn [Py.get mbind result_bind] in H.
  destruct (default (PDict []) (Py.dict_get stats "skills"))
    as [| | |s|l|skills|] eqn:Hskills; try discriminate.
  { (* a string: membership is defined, subscription is not *)
    cbn [Py.contains mbind result_bind] in H.
    destruct (Py.is_substring name s); discriminate. }
  { cbn [Py.contains mbind result_bind] in H.
    destruct (existsb _ l); discriminate. }
  cbn [Py.contains mbind result_bind] in H.
  assert (Hrest : forall skills0 skill0,
    (forall x, Py.dict_set skills0 name x = Py.dict_set skills name x) ->
    default fresh_skill (Py.dict_get skills name) = skill0 ->
    (uses ← Py.getitem skill0 "uses";
     old_level ← Hook.calculate_level_of uses;
     skill_items ← Py.as_dict skill0;
     uses' ← Py.add_one uses;
     let updated_skill :=
       Py.dict_set (Py.dict_set skill_items "uses" uses')
                   "lastUsed" (PStr today) in
     skills_items ← Py.as_dict (PDict skills0);
     let updated_skills := Py.dict_set skills_items name (PDict updated_skill) in
     stats_items ← Py.as_dict (PDict stats);
     total ← Py.get (PDict stats) "totalUses" (PInt 0);
     total' ← Py.add_one total;
     let updated :=
       Py.dict_set (Py.dict_set (Py.dict_set stats_items
         "skills" (PDict updated_skills))
         "totalUses" total')
         "lastUpdated" (PStr today) in
     new_level ← Hook.calculate_level_of uses';
     Ok (PDict updated, old_level, new_level)) = Ok (doc', old_level, new_level) ->
    exists skill v v' total',
      skill0 = PDict skill /\
      Py.dict_get skill "uses" = Some v /\ Py.add_one v = Ok v' /\
      Py.add_one (default (PInt 0) (Py.dict_get stats "totalUses")) = Ok total' /\
      Hook.calculate_level_of v = Ok old_level /\
      Hook.calculate_level_of v' = Ok new_level /\
      doc' = counted_stats name today stats skills skill v' total').
  { intros skills0 skill0 Hset _ H'.
    destruct skill0 as [| | | | |skill|]; try discriminate.
    cbn [Py.getitem mbind result_bind] in H'.
    destruct (Py.dict_get skill "uses") as [v|] eqn:Hv; [|discriminate].
    cbn [mbind result_bind] in H'.
    destruct (Hook.calculate_level_of v) as [o|] eqn:Ho; [|discriminate].
    cbn [mbind result_bind Py.as_dict Py.get] in H'.
    destruct (Py.add_one v) as [v'|] eqn:Hu; [|discriminate].
    cbn [mbind result_bind] in H'.
    destruct (Py.add_one (default (PInt 0) (Py.dict_get stats "totalUses")))
      as [total'|] eqn:Ht; [|discriminate].
    cbn [mbind result_bind] in H'.
    destruct (Hook.calculate_level_of v') as [n|] eqn:Hn; [|discriminate].
    cbn [mbind result_bind] in H'. injection H' as <- <- <-.
    exists skill, v, v', total'. unfold counted_stats, counted_skill.
    rewrite Hset. repeat split; first [assumption|reflexivity]. }
  destruct (Py.dict_get skills name) as [x|] eqn:Hx.
  - rewrite bool_decide_true in H by eauto.
    cbn [Py.getitem mbind result_bind] in H. rewrite Hx in H.
    cbn [mbind result_bind] in H.
    destruct (Hrest skills x (fun _ => eq_refl) eq_refl H)
      as (skill & v & v' & total' & -> & ? & ? & ? & ? & ? & ->).
    exists stats, skills, skill, v, v', total'. rewrite Hx.
    repeat split; first [assumption|reflexivity].
  - rewrite bool_decide_false in H by (intros [? [=]]).
    cbn [Py.setitem Py.getitem mbind result_bind] in H.
    rewrite dict_get_set_eq in H. cbn [mbind result_bind] in H.
    destruct (Hrest (Py.dict_set skills name fresh_skill) fresh_skill
                (fun x => dict_set_set _ _ _ _) eq_refl H)
      as (skill & v & v' & total' & Hf & ? & ? & ? & ? & ? & ->).
    exists stats, skills, skill, v, v', total'. rewrite Hx.
    repeat split; first [assumption|reflexivity].
Qed.

Lemma skill_of_dict stats skills name :
  Py.dict_get stats "skills" = Some (PDict skills) ->
  skill_of (PDict stats) name = Py.dict_get skills name.
Proof. intros H. unfold skill_of, skills_of. now rewrite H. Qed.

Lemma skill_of_counted_stats name today stats skills skill uses' total' other :
  skill_of (counted_stats name today stats skills skill uses' total') other =
  Py.dict_get (Py.dict_set skills name (counted_skill today skill uses')) other.
Proof.
  unfold counted_stats. apply skill_of_dict.
  rewrite !(dict_get_set_ne _ "lastUpdated") by discriminate.
  rewrite (dict_get_set_ne _ "totalUses" "skills") by discriminate.
  apply dict_get_set_eq.
Qed.

Lemma skill_of_used_stats name today stats skills skill uses total other :
  skill_of (used_stats name today stats skills skill uses total) other =
  Py.dict_get (Py.dict_set skills name (used_skill today skill uses)) other.
Proof. apply skill_of_counted_stats. Qed.

(** The skills of a document whose ["skills"], if any, is a dict. *)
Lemma skill_of_default stats skills k :
  default (PDict []) (Py.dict_get stats "skills") = PDict skills ->
  skill_of (PDict stats) k = Py.dict_get skills k.
Proof.
  intros Hs. unfold skill_of, skills_of.
  destruct (Py.dict_get stats "skills") as [sv|]; simpl in Hs.
  - now subst sv.
  - injection Hs as <-. reflexivity.
Qed.

(** The value [update_stats] counts up is the counter of the document, or
    the [0] of a fresh record. *)
Lemma counted_value_no_float name stats skills skill v :
  default (PDict []) (Py.dict_get stats "skills") = PDict skills ->
  default fresh_skill (Py.dict_get skills name) = PDict skill ->
  Py.dict_get skill "uses" = Some v ->
  integer_counter (PDict stats) name ->
  forall f, v <> PFloat f.
Proof.
  intros Hs Hk Hv Hint f ->. apply (Hint f). unfold counter.
  rewrite (skill_of_default _ _ name Hs).
  destruct (Py.dict_get skills name) as [x|]; simpl in Hk.
  - subst x. exact Hv.
  - unfold fresh_skill in Hk. injection Hk as <-. discriminate.
Qed.


(** ** The hook, end to end *)

(** [load_stats] of the hook reads the world and returns what the stats
    path holds. *)
Lemma M_bind_unfold {A B} (c : M A) (k : A -> M B) w :
  (c ≫= k) w =
  match c w with
  | (Ok a, w') => k a w'
  | (Raise e, w') => (Raise e, w')
  end.
Proof. reflexivity. Qed.

Lemma load_stats_held stats_path w :
  Hook.load_stats stats_path w = (stats_held (files w !! stats_path), w).
Proof.
  unfold Hook.load_stats, try_except. rewrite M_bind_unfold.
  unfold Sys.is_file, Sys.read_json, stats_held.
  destruct (files w !! stats_path) as [[doc nl|doc| |e|]|] eqn:Hf;
    rewrite ?Hf; try reflexivity.
  destruct (catches _ e); reflexivity.
Qed.


Lemma update_stats_raises E name stats_path w e w' :
  Hook.update_stats E name stats_path w = (Raise e, w') ->
  w' = w \/
  exists doc', Hook.write_stats_atomic E stats_path doc' w = (Raise e, w').
Proof.
  unfold Hook.update_stats. rewrite M_bind_unfold, load_stats_held.
  destruct (stats_held _) as [doc|e0]; [|intros [= <- <-]; auto].
  rewrite M_bind_unfold. unfold lift at 1.
  destruct (Hook.updated_stats name (today E) doc) as [[[doc' o] n]|e0];
    [|intros [= <- <-]; auto].
  rewrite M_bind_unfold.
  destruct (Hook.write_stats_atomic E stats_path doc' w) as [[[]|e0] w2] eqn:Hwr;
    [discriminate|].
  intros [= <- <-]. right. eauto.
Qed.

Lemma hook_idle_refl E w : hook_idle E w w.
Proof. repeat split; auto. Qed.

(** A run of [update_stats] that raises leaves the stats file and the
    standard output as they were. *)
Lemma update_stats_raises_idle E name stats_path w e w' :
  Hook.get_stats_path E w = (Ok stats_path, w) ->
  tmp_path_of E stats_path <> stats_path ->
  Hook.update_stats E name stats_path w = (Raise e, w') ->
  hook_idle E w w'.
Proof.
  intros Hpath Htmp Hup.
  apply update_stats_raises in Hup as [->|[doc' Hwr]]; [apply hook_idle_refl|].
  apply write_stats_atomic_raises in Hwr as (Hfiles & Hout & _).
  split; [exact Hout|]. rewrite Hpath. simpl. split.
  - intros sp [= <-]. apply Hfiles. congruence.
  - intros p Hp. apply Hfiles, Hp. reflexivity.
Qed.




(** ** The hook and the resolved command *)




(** ** Loading *)

(** The hook's [load_stats] fails open: at a path that can be examined,
    an absent file, a file that cannot be opened and a file that is no
    JSON all give the fresh document. *)
Theorem hook_load_stats_fails_open stats_path w :
  files w !! stats_path <> Some Inaccessible ->
  files w !! stats_path = None \/
  (exists e, Sys.read_json stats_path w = (Raise e, w) /\
             (e = OSError \/ e = JSONDecodeError)) ->
  Hook.load_stats stats_path w = (Ok Hook.fresh_stats, w).
Proof.
  intros Hacc H. rewrite load_stats_held. f_equal.
  destruct H as [->|(e & Hread & He)]; [reflexivity|].
  unfold Sys.read_json in Hread.
  destruct (files w !! stats_path) as [[doc nl|doc| |e'|]|];
    try reflexivity; try discriminate.
  - injection Hread as <-. now destruct He as [-> | ->].
  - now contradiction Hacc.
Qed.

Lemma hook_load_stats_fails_open_witness :
  Hook.load_stats demo_stats_path garbled_world = (Ok Hook.fresh_stats, garbled_world).
Proof.
  apply (hook_load_stats_fails_open demo_stats_path garbled_world).
  - vm_compute. discriminate.
  - right. exists JSONDecodeError. split; [reflexivity|]. right. reflexivity.
Defined.

(** C4 fails in the terminal client: its [load_stats] has no handler, and
    a stats file that is no JSON makes it raise [JSONDecodeError], where
    the hook's [load_stats] returns the fresh document.  The hook's
    handler names [OSError] and [JSONDecodeError] only: a stats file that
    cannot be decoded as text makes both raise. *)
Theorem cli_load_stats_raises :
  let E := demo_env StdinBlank no_faults in
  files garbled_world !! demo_stats_path = Some (Unreadable JSONDecodeError) /\
  (Cli.load_stats E demo_stats_path garbled_world).1 = Raise JSONDecodeError /\
  (Hook.load_stats demo_stats_path garbled_world).1 = Ok Hook.fresh_stats /\
  (Cli.load_stats E demo_stats_path undecodable_world).1 = Raise UnicodeError /\
  (Hook.load_stats demo_stats_path undecodable_world).1 = Raise UnicodeError.
Proof. vm_compute. repeat split. Qed.

(** ** Exceptions that leave the hook *)

(** C6 fails: [main] catches [OSError] around [update_stats] and nothing
    else.  A stats file holding [[]] raises [AttributeError] at
    [stats.get], a counter beyond the doubles raises [OverflowError] in
    [calculate_level], and a hook input that is a JSON list raises
    [AttributeError] at [input_data.get]; all three leave [main]. *)
Theorem hook_propagates_exceptions :
  (Hook.main (demo_env (prompt_input "/wrap") no_faults) list_world).1
    = Raise AttributeError /\
  (Hook.main (demo_env (prompt_input "/wrap") no_faults) huge_world).1
    = Raise OverflowError /\
  (Hook.main (demo_env (StdinReads (Ok (PList [PInt 1]))) no_faults) wrap_world).1
    = Raise AttributeError.
Proof. vm_compute. repeat split. Qed.

Lemma extract_command_truthy prompt token :
  Hook.extract_command prompt = Ok (Some token) -> Py.truthy prompt = true.
Proof.
  unfold Hook.extract_command. now destruct (Py.truthy prompt).
Qed.

(** What [main] makes of [update_stats], once it gets there. *)
Lemma main_after_update (E : env) (w : world) (name : string) (stats_path : path) :
  recorded_name E = Some name ->
  Hook.check_skill_exists E name w = (Ok true, w) ->
  Hook.get_stats_path E w = (Ok stats_path, w) ->
  Hook.main E w =
    match Hook.update_stats E name stats_path w with
    | (Ok (old_level, new_level), w') =>
        if old_level <? new_level
        then print (LevelUp name old_level new_level) w'
        else (Ok tt, w')
    | (Raise e, w') => if catches [OSError] e then (Ok tt, w') else (Raise e, w')
    end.
Proof.
  unfold recorded_name, Hook.main. intros Hname Hknown Hpath.
  rewrite M_bind_unfold. unfold lift at 1.
  destruct (Hook.read_stdin_json E) as [input|]; [|discriminate].
  destruct (Py.get input "prompt" (PStr "")) as [prompt|] eqn:Hprompt;
    [|discriminate].
  destruct (Hook.extract_command prompt) as [[token|]|] eqn:Htoken;
    try discriminate.
  injection Hname as <-.
  pose proof (extract_command_truthy _ _ Htoken) as Htruthy.
  destruct input; try discriminate;
    rewrite M_bind_unfold; unfold lift at 1; rewrite Htruthy;
    cbn [negb]; rewrite M_bind_unfold; unfold lift at 1; rewrite Htoken;
    cbv zeta; rewrite M_bind_unfold, Hknown; cbn [negb];
    rewrite M_bind_unfold, Hpath, M_bind_unfold;
    unfold try_except, fmap, M_fmap;
    destruct (Hook.update_stats E _ stats_path w) as [[[o n]|e] w'];
    [ destruct (o <? n); reflexivity
    | destruct (catches [OSError] e); reflexivity ].
Qed.

(** An [OSError] raised while the stats are updated, by contrast, is
    swallowed, whatever the input and the home directory: [main] returns
    normally, prints nothing, and leaves the stats file as it was.  Any
    other exception of [update_stats] leaves [main]. *)
Theorem hook_swallows_write_failure (E : env) (w w' : world) (name : string)
    (stats_path : path) (e : exn) :
  recorded_name E = Some name ->
  Hook.check_skill_exists E name w = (Ok true, w) ->
  Hook.get_stats_path E w = (Ok stats_path, w) ->
  Hook.update_stats E name stats_path w = (Raise e, w') ->
  Hook.main E w = (if bool_decide (e = OSError) then Ok tt else Raise e, w') /\
  stdout w' = stdout w /\
  (tmp_path_of E stats_path <> stats_path ->
   files w' !! stats_path = files w !! stats_path).
Proof.
  intros Hname Hknown Hpath Hup.
  rewrite (main_after_update E w name stats_path Hname Hknown Hpath), Hup.
  split; [now destruct e|].
  split.
  - apply update_stats_raises in Hup as [->|[doc' Hwr]]; [reflexivity|].
    now apply write_stats_atomic_raises in Hwr as (_ & Hout & _).
  - intros Htmp.
    destruct (update_stats_raises_idle E name stats_path w e w' Hpath Htmp Hup)
      as (_ & Hsame & _).
    apply Hsame. now rewrite Hpath.
Qed.

Lemma hook_swallows_write_failure_witness :
  let E := demo_env (prompt_input "/wrap") write_fault in
  let w' := (Hook.update_stats E "session-wrap:wrap" demo_stats_path wrap_world).2 in
  Hook.main E wrap_world = (Ok tt, w') /\
  stdout w' = stdout wrap_world /\
  (tmp_path_of E demo_stats_path <> demo_stats_path ->
   files w' !! demo_stats_path = files wrap_world !! demo_stats_path).
Proof.
  apply (hook_swallows_write_failure
           (demo_env (prompt_input "/wrap") write_fault) wrap_world _
           "session-wrap:wrap" demo_stats_path OSError).
  - reflexivity.
  - rewrite (surjective_pairing (Hook.check_skill_exists _ _ _)).
    rewrite readonly_check_skill_exists. f_equal.
  - rewrite (surjective_pairing (Hook.get_stats_path _ _)).
    rewrite readonly_get_stats_path. f_equal.
  - rewrite (surjective_pairing (Hook.update_stats _ _ _ _)) at 1.
    f_equal.
Defined.

(** ** Where the stats go *)

(** The installer's validation: an accepted path lies under the home
    directory. *)
Lemma validate_stats_path_under_home E path_str p :
  Installer._validate_stats_path E path_str = Ok p -> is_under (home E) p = true.
Proof.
  unfold Installer._validate_stats_path, expanduser_resolve.
  destruct path_str; try discriminate.
  destruct (expands E s); [|discriminate]. cbn [mbind result_bind].
  destruct (is_under (home E) (resolve E s)) eqn:Hu; [|discriminate].
  now intros [= <-].
Qed.

Lemma validate_stats_path_under_home_witness :
  is_under (home (demo_env StdinBlank no_faults))
           (demo_home ++ [".claude"; "stats.json"]) = true.
Proof.
  apply (validate_stats_path_under_home (demo_env StdinBlank no_faults)
           (PStr "stats.json")).
  reflexivity.
Defined.

(** C8 fails in the hook: [get_stats_path] resolves the configured
    [statsFile] and returns it unchecked, so that with
    [statsFile = "/tmp/evil.json"] the hook writes the stats outside the
    home directory; the installer's [_validate_stats_path] rejects the
    same value with [ValueError]. *)
Theorem hook_writes_outside_home :
  let E := demo_env (prompt_input "/wrap") no_faults in
  let run := Hook.main E evil_world in
  (Hook.get_stats_path E evil_world).1 = Ok ["tmp"; "evil.json"] /\
  is_under (home E) ["tmp"; "evil.json"] = false /\
  run.1 = Ok tt /\
  files run.2 !! ["tmp"; "evil.json"] = Some (Complete wrap_doc true) /\
  Installer._validate_stats_path E (PStr "/tmp/evil.json") = Raise ValueError.
Proof. vm_compute. repeat split. Qed.

(** ** Saving *)

(** C1 fails in the terminal client: [save_stats], as [pin_skill] and
    [increment_usage] call it, opens the stats file itself for writing.
    There is no temporary file and no rename among its system calls, and a
    write that fails leaves the stats file torn, where the hook's
    [write_stats_atomic] leaves it as it was. *)
Theorem cli_save_stats_in_place :
  let ok := Cli.pin_skill (demo_env StdinBlank no_faults) demo_stats_path
              "commit" five_uses five_world in
  let ko := Cli.pin_skill (demo_env StdinBlank write_fault) demo_stats_path
              "commit" five_uses five_world in
  let hook := Hook.update_stats (demo_env StdinBlank write_fault) "commit"
                demo_stats_path five_world in
  (ok.1 = Ok (Pinned "commit" true) /\
   calls ok.2 = [SysWrite demo_stats_path; SysOpenTrunc demo_stats_path;
                 SysMkdir (parent demo_stats_path)] /\
   files ok.2 !! demo_stats_path = Some (Complete five_pinned false)) /\
  (ko.1 = Raise OSError /\
   files five_world !! demo_stats_path = Some (Complete five_uses true) /\
   files ko.2 !! demo_stats_path = Some (Partial five_pinned)) /\
  (hook.1 = Raise OSError /\
   files hook.2 !! demo_stats_path = Some (Complete five_uses true) /\
   files hook.2 !! tmp_path_of (demo_env StdinBlank write_fault) demo_stats_path
     = None).
Proof. vm_compute. repeat split. Qed.

(** The hook's side of C1: every write of [write_stats_atomic] goes
    through a temporary file in the directory of the target and one
    [os.replace].  A failure is raised to the caller with the target as it
    was.  An [OSError] went through the handler, which removes the
    temporary file, [os.unlink] working; any other exception is one that
    the write of the text raised, which the handler does not name, and
    the temporary file stays behind with the text as far as written. *)
Theorem write_stats_atomic_contract E stats_path stats w :
  let tmp := tmp_path_of E stats_path in
  let run := Hook.write_stats_atomic E stats_path stats w in
  parent tmp = parent stats_path /\
  match run.1 with
  | Ok _ =>
      files run.2 !! stats_path = Some (Complete stats true) /\
      calls run.2 = SysReplace tmp stats_path :: SysWrite tmp :: SysMkstemp tmp
                      :: SysMkdir (parent stats_path) :: calls w
  | Raise e =>
      (tmp <> stats_path -> files run.2 !! stats_path = files w !! stats_path) /\
      (e = OSError /\
       (unlink_fails (failing E) = false -> files run.2 = files w) \/
       e <> OSError /\ write_raises (failing E) = Some e /\
       files w !! tmp = None /\ files run.2 !! tmp = Some (Partial stats))
  end.
Proof.
  cbv zeta. split.
  - unfold tmp_path_of, parent. now rewrite removelast_last.
  - destruct (Hook.write_stats_atomic E stats_path stats w) as [[[]|e] w'] eqn:Hrun.
    + apply write_stats_atomic_returns in Hrun as (_ & Hfiles & Hcalls & _).
      simpl. rewrite Hfiles. split; [apply lookup_insert_eq|exact Hcalls].
    + apply write_stats_atomic_raises in Hrun as (Hfiles & _ & Hcases).
      simpl. split; [intros Hne; apply Hfiles; congruence|].
      destruct Hcases as [[-> Hback]|(Hne & Hwr & Hnone & ->)]; [now left|].
      right. repeat split; try assumption. apply lookup_insert_eq.
Qed.

(** * Further properties *)

(** ** Floats that are no numbers *)

Lemma shr_1_nonneg mrs : 0 <= shr_m mrs -> 0 <= shr_m (shr_1 mrs).
Proof. destruct mrs as [[|[p|p|]|p] r s]; simpl; lia. Qed.

Lemma shr_nonneg mrs e n : 0 <= shr_m mrs -> 0 <= shr_m (shr mrs e n).1.
Proof.
  intros H. destruct n as [|p|p]; simpl; try exact H.
  rewrite iter_pos_nat. induction (Pos.to_nat p) as [|k IH]; simpl; [exact H|].
  now apply shr_1_nonneg.
Qed.

Lemma shr_fexp_nonneg m e l : 0 <= m -> 0 <= shr_m (shr_fexp 53 1024 m e l).1.
Proof.
  intros H. unfold shr_fexp. apply shr_nonneg. now rewrite shr_m_of_loc.
Qed.

(** Rounding never makes a NaN. *)
Lemma binary_round_aux_not_nan sx m e l :
  0 <= m -> binary_round_aux 53 1024 sx m e l <> S754_nan.
Proof.
  intros Hm. unfold binary_round_aux.
  pose proof (shr_fexp_nonneg m e l Hm) as H1.
  destruct (shr_fexp 53 1024 m e l) as [mrs' e']. simpl in H1.
  pose proof (round_nearest_even_bounds (shr_m mrs') (loc_of_shr_record mrs')) as Hr.
  pose proof (shr_fexp_nonneg
                (round_nearest_even (shr_m mrs') (loc_of_shr_record mrs')) e' loc_Exact
                ltac:(lia)) as H2.
  destruct (shr_fexp 53 1024 _ e' loc_Exact) as [mrs'' e'']. simpl in H2.
  destruct (shr_m mrs'') as [|p|p]; try lia; try discriminate.
  destruct (e'' <=? 1024 - 53); discriminate.
Qed.

Lemma binary_normalize_not_nan m e szero :
  binary_normalize 53 1024 m e szero <> S754_nan.
Proof.
  unfold binary_normalize, binary_round.
  destruct m as [|p|p]; [discriminate| |];
    destruct (shl_align _ _ _) as [mz ez]; now apply binary_round_aux_not_nan.
Qed.

(** [x + 1] is NaN for no other [x] than NaN. *)
Lemma add_one_not_nan f : f <> S754_nan -> PyFloat.add_one f <> S754_nan.
Proof.
  intros Hf. unfold PyFloat.add_one, PyFloat.one, SFadd.
  destruct f as [s|s| |s m e]; try discriminate; [now contradiction Hf|].
  apply binary_normalize_not_nan.
Qed.

(** The two guards, [uses <= 0] of the hook and [uses > 0] of the
    terminal client, part on NaN only. *)
Lemma gt_zero_le_zero f :
  f <> S754_nan -> PyFloat.gt_zero f = negb (PyFloat.le_zero f).
Proof.
  intros Hf. destruct f as [s|[]| |[] m e]; try reflexivity. now contradiction Hf.
Qed.

Lemma calc_level_float_hook f :
  f <> S754_nan -> Cli.calc_level_float f = Hook.calculate_level_float f.
Proof.
  intros Hf. unfold Cli.calc_level_float, Hook.calculate_level_float.
  rewrite gt_zero_le_zero by exact Hf. now destruct (PyFloat.le_zero f).
Qed.

Lemma calc_level_of_hook v :
  v <> PFloat S754_nan -> Cli.calc_level_of v = Hook.calculate_level_of v.
Proof.
  intros Hv. destruct v; try reflexivity; simpl;
    try apply calc_level_hook.
  apply calc_level_float_hook. congruence.
Qed.

Lemma add_one_value_not_nan v v' :
  v <> PFloat S754_nan -> Py.add_one v = Ok v' -> v' <> PFloat S754_nan.
Proof.
  destruct v; simpl; intros Hv [= <-]; try discriminate.
  intros [= H]. revert H. apply add_one_not_nan. congruence.
Qed.

(** On NaN the two part: the hook raises, the terminal client returns
    level [0]. *)
Lemma level_of_nan :
  Hook.calculate_level_of (PFloat S754_nan) = Raise ValueError /\
  Cli.calc_level_of (PFloat S754_nan) = Ok 0.
Proof. split; reflexivity. Qed.

(** ** Where the level function is defined *)

Lemma dbl_of_int_threshold : dbl_of_int (2 ^ 1024 - 2 ^ 970) = (2 ^ 52, 972).
Proof. vm_compute. reflexivity. Qed.

Lemma float_of_int_overflow x :
  2 ^ 1024 - 2 ^ 970 <= x -> PyFloat.float_of_int x = Raise OverflowError.
Proof.
  intros Hx.
  assert (H0 : 0 < 2 ^ 1024 - 2 ^ 970) by (vm_compute; reflexivity).
  rewrite float_of_int_dbl by lia.
  pose proof (dbl_of_int_mono (2 ^ 1024 - 2 ^ 970) x ltac:(lia)) as Hle.
  rewrite dbl_of_int_threshold in Hle.
  pose proof (dbl_of_int_facts x ltac:(lia)) as (Nx & _).
  unfold fle, normal in *. simpl in Hle.
  unfold finish. destruct (Z.leb_spec (dbl_of_int x).2 971) as [He|He]; [|reflexivity].
  exfalso. destruct Hle as [Hlt|[Heq Hm]]; lia.
Qed.

Lemma calculate_level_overflow u :
  2 ^ 1024 - 2 ^ 970 <= u * 10 -> Hook.calculate_level u = Raise OverflowError.
Proof.
  intros Hu. unfold Hook.calculate_level.
  assert (H0 : 0 < 2 ^ 1024 - 2 ^ 970) by (vm_compute; reflexivity).
  destruct (Z.leb_spec u 0); [lia|].
  unfold PyFloat.math_sqrt. rewrite float_of_int_overflow by lia. reflexivity.
Qed.

Lemma calculate_level_cases (u : Z) :
  (u <= 0 /\ Hook.calculate_level u = Ok 0) \/
  (0 < u /\ u * 10 < 2 ^ 1024 - 2 ^ 970 /\
   exists l, Hook.calculate_level u = Ok l /\ 1 <= l) \/
  (2 ^ 1024 - 2 ^ 970 <= u * 10 /\ Hook.calculate_level u = Raise OverflowError).
Proof.
  destruct (Z.le_gt_cases u 0) as [H0|H0].
  - left. split; [exact H0|]. unfold Hook.calculate_level.
    destruct (Z.leb_spec u 0); [reflexivity|lia].
  - right. destruct (Z.lt_ge_cases (u * 10) (2 ^ 1024 - 2 ^ 970)) as [Hb|Hb].
    + left. split; [lia|]. split; [exact Hb|].
      exists (Z.max 1 (level_int (u * 10))). split; [now apply calculate_level_int|lia].
    + right. split; [exact Hb|]. now apply calculate_level_overflow.
Qed.

(** [calculate_level] has three cases and no other: [0] for a count that
    is not positive, a level of at least [1] for a positive count [u] with
    [u * 10] below [2 ^ 1024 - 2 ^ 970], and [OverflowError] from there
    on. *)
Theorem calculate_level_domain (u : Z) :
  (u <= 0 /\ Hook.calculate_level u = Ok 0) \/
  (0 < u /\ u * 10 < 2 ^ 1024 - 2 ^ 970 /\
   exists l, Hook.calculate_level u = Ok l /\ 1 <= l) \/
  (2 ^ 1024 - 2 ^ 970 <= u * 10 /\ Hook.calculate_level u = Raise OverflowError).
Proof. exact (calculate_level_cases u). Qed.

Lemma calculate_level_mono_ok u a b :
  Hook.calculate_level u = Ok a -> Hook.calculate_level (u + 1) = Ok b -> a <= b.
Proof.
  intros Ha Hb.
  destruct (calculate_level_cases u) as [[H0 E]|[(H0 & Hr & _)|[Hr E]]];
    rewrite ?E in Ha; try discriminate.
  - injection Ha as <-.
    destruct (calculate_level_cases (u + 1)) as [[H1 E1]|[(H1 & _ & l & E1 & Hl)|[_ E1]]];
      rewrite E1 in Hb; try discriminate; injection Hb as <-; lia.
  - destruct (calculate_level_cases (u + 1)) as [[H1 E1]|[(H1 & Hr1 & _)|[_ E1]]];
      rewrite ?E1 in Hb; try discriminate; [lia|].
    rewrite calculate_level_int in Ha, Hb by lia.
    injection Ha as <-. injection Hb as <-.
    apply Z.max_le_compat_l, level_int_mono. lia.
Qed.

(** ** The hook and the terminal client record a use alike *)

Lemma cli_recorded_as_hook (name today : string) (stats : list (string * pyval)) :
  is_Some (Py.dict_get stats "skills") ->
  counter (PDict stats) name <> Some (PFloat S754_nan) ->
  cli_recorded name today (PDict stats) = Hook.updated_stats name today (PDict stats).
Proof.
  intros [skills Hskills] Hnan.
  unfold cli_recorded, Cli.increment_usage_doc, Hook.updated_stats.
  py_step. rewrite Hskills. py_step.
  destruct (Py.contains skills name) as [present|e] eqn:Hpresent; py_step; [|reflexivity].
  destruct (if present then Ok skills else Py.setitem skills name fresh_skill)
    as [skills1|e] eqn:Hs1; py_step; [|reflexivity].
  destruct (Py.getitem skills1 name) as [skill|e] eqn:Hskill; py_step; [|reflexivity].
  assert (exists items, skills1 = PDict items) as [items ->].
  { destruct skills1; try discriminate. eauto. }
  destruct skill as [| | | | |fields|]; py_step; try reflexivity.
  destruct (Py.dict_get fields "uses") as [uses|] eqn:Huses; py_step; [|reflexivity].
  assert (Huses_nan : uses <> PFloat S754_nan).
  { intros ->. apply Hnan. unfold counter, skill_of, skills_of.
    rewrite Hskills. cbn [Py.getitem] in Hskill.
    destruct (Py.dict_get items name) as [x|] eqn:Hx; [|discriminate].
    injection Hskill as ->.
    destruct present.
    - injection Hs1 as ->. cbn [mbind option_bind]. rewrite Hx.
      cbn [mbind option_bind skill_field]. exact Huses.
    - exfalso. destruct skills; try discriminate.
      cbn [Py.setitem] in Hs1. injection Hs1 as <-.
      rewrite dict_get_set_eq in Hx. unfold fresh_skill in Hx.
      injection Hx as <-. discriminate. }
  rewrite (calc_level_of_hook uses Huses_nan).
  destruct (Hook.calculate_level_of uses) as [o|e]; py_step; [|reflexivity].
  destruct (Py.add_one uses) as [uses'|e] eqn:Huses'; py_step; [|reflexivity].
  rewrite (dict_get_set_ne _ "skills" "totalUses") by discriminate.
  destruct (Py.add_one (default (PInt 0) (Py.dict_get stats "totalUses")))
    as [total'|e]; py_step; [|reflexivity].
  rewrite (calc_level_of_hook uses' (add_one_value_not_nan _ _ Huses_nan Huses')).
  destruct (Hook.calculate_level_of uses'); reflexivity.
Qed.

(** ** Levels never fall *)

Lemma calculate_level_of_int v n :
  Py.as_int v = Ok n -> Hook.calculate_level_of v = Hook.calculate_level n.
Proof. destruct v; simpl; try discriminate; now intros [= <-]. Qed.

Lemma updated_stats_levels name today doc doc' old_level new_level :
  Hook.updated_stats name today doc = Ok (doc', old_level, new_level) ->
  integer_counter doc name ->
  old_level <= new_level.
Proof.
  intros H Hint. apply updated_stats_inv in H
    as (stats & skills & skill & v & v' & total' & -> & Hs & Hk & Hv & Hu & _
        & Ho & Hn & _).
  apply add_one_inv in Hu as [(n & Hvn & ->)|(f & -> & _)].
  - rewrite (calculate_level_of_int v n Hvn) in Ho. simpl in Hn.
    eapply calculate_level_mono_ok; eassumption.
  - now destruct (counted_value_no_float _ _ _ _ _ Hs Hk Hv Hint f).
Qed.

(** The document [increment_usage] hands to [save_stats] is a dict, as is
    the one it was given, which has a ["skills"] key. *)
Lemma increment_usage_doc_dict name today doc doc' old_level new_level :
  Cli.increment_usage_doc name today doc = Ok (doc', old_level, new_level) ->
  exists stats items,
    doc = PDict stats /\ is_Some (Py.dict_get stats "skills") /\ doc' = PDict items.
Proof.
  unfold Cli.increment_usage_doc, Cli.ensure_skill. intros H.
  destruct doc as [| | | | |stats|]; try discriminate.
  cbn [Py.getitem mbind result_bind] in H.
  destruct (Py.dict_get stats "skills") as [skills|] eqn:Hskills; [|discriminate].
  cbn [mbind result_bind] in H.
  destruct (Py.contains skills name) as [present|]; [|discriminate].
  cbn [mbind result_bind] in H.
  destruct (if present then Ok skills else Py.setitem skills name fresh_skill)
    as [skills1|]; [|discriminate].
  cbn [mbind result_bind] in H.
  destruct (Py.getitem skills1 name) as [skill|]; [|discriminate].
  cbn [mbind result_bind] in H.
  destruct (Py.getitem skill "uses") as [uses|]; [|discriminate].
  cbn [mbind result_bind] in H.
  destruct (Cli.calc_level_of uses) as [o|]; [|discriminate].
  cbn [mbind result_bind] in H.
  destruct (Py.add_one uses) as [uses'|]; [|discriminate].
  cbn [mbind result_bind] in H.
  destruct (Py.setitem skill "uses" uses') as [s1|]; [|discriminate].
  cbn [mbind result_bind] in H.
  destruct (Py.setitem s1 "lastUsed" (PStr today)) as [s2|]; [|discriminate].
  cbn [mbind result_bind] in H.
  destruct (Py.setitem skills1 name s2) as [s3|]; [|discriminate].
  cbn [mbind result_bind Py.setitem Py.get default from_option id] in H.
  destruct (Py.add_one _) as [total'|]; [|discriminate].
  cbn [mbind result_bind] in H.
  destruct (Cli.calc_level_of uses'); [|discriminate].
  cbn [mbind result_bind] in H. injection H as <- _ _.
  eauto 6.
Qed.

Lemma increment_usage_levels name today doc doc' old_level new_level :
  Cli.increment_usage_doc name today doc = Ok (doc', old_level, new_level) ->
  integer_counter doc name ->
  old_level <= new_level.
Proof.
  intros H Hint.
  destruct (increment_usage_doc_dict _ _ _ _ _ _ H) as (stats & items & -> & Hs & ->).
  assert (Hnan : counter (PDict stats) name <> Some (PFloat S754_nan)) by apply Hint.
  pose proof (cli_recorded_as_hook name today stats Hs Hnan) as Heq.
  unfold cli_recorded in Heq. rewrite H in Heq.
  cbn [mbind result_bind Cli.stamped Py.setitem] in Heq.
  symmetry in Heq. now apply updated_stats_levels in Heq.
Qed.

(** A recorded use of a skill whose counter is an integer never lowers
    the level: whenever [update_stats] of the hook or [increment_usage] of
    the terminal client returns its two levels, the old one is at most the
    new one. *)
Theorem recorded_use_never_lowers_level
    (name today : string) (doc doc' : pyval) (old_level new_level : Z) :
  integer_counter doc name ->
  Hook.updated_stats name today doc = Ok (doc', old_level, new_level) \/
  Cli.increment_usage_doc name today doc = Ok (doc', old_level, new_level) ->
  old_level <= new_level.
Proof.
  intros Hint [H|H];
    [now apply updated_stats_levels in H|now apply increment_usage_levels in H].
Qed.

Lemma recorded_use_never_lowers_level_witness :
  exists doc',
    Hook.updated_stats "foo" "2026-01-01" Hook.fresh_stats = Ok (doc', 0, 3) /\ 0 <= 3.
Proof.
  eexists. split; [vm_compute; reflexivity|].
  eapply (recorded_use_never_lowers_level "foo" "2026-01-01" Hook.fresh_stats _ 0 3).
  - intros f. vm_compute. discriminate.
  - left. vm_compute. reflexivity.
Defined.

(** ** The command token *)

Lemma take_while_app f t rest :
  string_forall f t = true -> starts_with_char f rest = false ->
  Hook.take_while f (t +:+ rest) = t.
Proof.
  intros Ht Hr. induction t as [|c t IH]; simpl in *.
  - destruct rest as [|c r]; simpl in *; [reflexivity|now rewrite Hr].
  - apply andb_prop in Ht as [Hc Ht]. rewrite Hc. f_equal. now apply IH.
Qed.

Lemma take_while_split f s :
  exists rest, s = Hook.take_while f s +:+ rest /\
    string_forall f (Hook.take_while f s) = true /\
    starts_with_char f rest = false.
Proof.
  induction s as [|c s (rest & Hs & Ha & Hr)]; simpl.
  - exists "". auto.
  - destruct (f c) eqn:Hc.
    + exists rest.
      split; [change (String c s = String c (Hook.take_while f s +:+ rest)); now f_equal|].
      simpl. rewrite Hc, Ha. auto.
    + exists (String c s). simpl. auto.
Qed.

(** [extract_command] returns a token exactly for the prompts that are a
    slash, then the token, then the rest: the token is not empty, all its
    characters are of the class [[a-zA-Z0-9_:-]], and the rest does not go
    on with such a character. *)
Theorem extract_command_token (prompt : pyval) (token : string) :
  Hook.extract_command prompt = Ok (Some token) <->
  exists rest, prompt = PStr ("/" +:+ (token +:+ rest)) /\ command_token token rest.
Proof.
  unfold Hook.extract_command, command_token. split.
  - destruct prompt as [|b|n|s|l|d|f]; simpl.
    1: discriminate.
    1: destruct b; discriminate.
    1: destruct (n =? 0); discriminate.
    2: destruct l; discriminate.
    2: destruct d; discriminate.
    2: destruct f; discriminate.
    destruct s as [|c s]; [discriminate|]. cbn [negb String.eqb].
    destruct c as [[] [] [] [] [] [] [] []]; try discriminate.
    cbn [negb].
    destruct (take_while_split Hook.is_command_char s) as (rest & Hs & Ha & Hr).
    destruct (String.eqb_spec (Hook.take_while Hook.is_command_char s) "") as [He|He];
      [discriminate|].
    intros [= <-]. exists rest. split; [|auto].
    f_equal. change ("/" +:+ ?x) with (String "/" x). f_equal. exact Hs.
  - intros (rest & -> & Hne & Ha & Hr). simpl.
    change ("" +:+ (token +:+ rest)) with (token +:+ rest).
    rewrite (take_while_app Hook.is_command_char token rest Ha Hr).
    destruct (String.eqb_spec token ""); [contradiction|reflexivity].
Qed.

(** Aliases do not chain: a resolved name resolves to itself and is never
    a key of [ALIASES], and a name that is no key is left as it is. *)
Theorem resolve_alias_canonical (command : string) :
  Hook.resolve_alias (Hook.resolve_alias command) = Hook.resolve_alias command /\
  Forall (fun kv => Hook.resolve_alias command <> kv.1) Hook.ALIASES /\
  (Forall (fun kv => command <> kv.1) Hook.ALIASES -> Hook.resolve_alias command = command).
Proof.
  unfold Hook.resolve_alias, Hook.ALIASES. cbn [List.find fst snd].
  destruct (String.eqb_spec "wrap" command) as [<-|Hne];
    cbn [fmap option_fmap option_map default from_option id snd].
  - split; [reflexivity|]. split.
    + constructor; [discriminate|constructor].
    + intros H. apply Forall_cons in H as [H _]. now contradiction H.
  - destruct (String.eqb_spec "wrap" command) as [|_]; [contradiction|].
    split; [reflexivity|]. split; [|reflexivity].
    constructor; [|constructor]. simpl. congruence.
Qed.

(** ** Runs of the hook that change nothing *)

(** Hook input without a command is ignored: when the input is [null], or
    an object whose prompt [extract_command] finds no command in, [main]
    returns and the world is as it was: no file touched, no system call,
    no output. *)
Theorem hook_ignores_input_without_command (E : env) (w : world) (input : pyval) :
  Hook.read_stdin_json E = Ok input ->
  input = PNone \/
  (exists prompt, Py.get input "prompt" (PStr "") = Ok prompt /\
                  Hook.extract_command prompt = Ok None) ->
  Hook.main E w = (Ok tt, w).
Proof.
  intros Hin Hcase. unfold Hook.main. rewrite M_bind_unfold. unfold lift at 1.
  rewrite Hin. destruct Hcase as [->|(prompt & Hp & Hc)]; [reflexivity|].
  destruct input as [| | | | |d|]; try discriminate.
  rewrite M_bind_unfold. unfold lift at 1. rewrite Hp.
  destruct (negb (Py.truthy prompt)); [reflexivity|].
  rewrite M_bind_unfold. unfold lift at 1. rewrite Hc. reflexivity.
Qed.

Lemma hook_ignores_input_without_command_witness :
  Hook.main (demo_env (prompt_input "hello /wrap") no_faults) wrap_world
  = (Ok tt, wrap_world).
Proof.
  apply (hook_ignores_input_without_command
           (demo_env (prompt_input "hello /wrap") no_faults) wrap_world
           (PDict [("prompt", PStr "hello /wrap")])).
  - reflexivity.
  - right. exists (PStr "hello /wrap"). split; reflexivity.
Defined.

(** A command that [check_skill_exists] does not confirm is ignored: the
    world is as it was. *)
Theorem hook_ignores_unknown_skill (E : env) (w : world) (input prompt : pyval)
    (token : string) :
  Hook.read_stdin_json E = Ok input ->
  Py.get input "prompt" (PStr "") = Ok prompt ->
  Hook.extract_command prompt = Ok (Some token) ->
  (Hook.check_skill_exists E (Hook.resolve_alias token) w).1 = Ok false ->
  Hook.main E w = (Ok tt, w).
Proof.
  intros Hin Hp Hc Hk. unfold Hook.main. rewrite M_bind_unfold. unfold lift at 1.
  rewrite Hin. destruct input as [| | | | |d|]; try discriminate.
  rewrite M_bind_unfold. unfold lift at 1. rewrite Hp.
  rewrite (extract_command_truthy _ _ Hc). cbn [negb].
  rewrite M_bind_unfold. unfold lift at 1. rewrite Hc. cbv zeta.
  rewrite M_bind_unfold.
  pose proof (readonly_check_skill_exists E (Hook.resolve_alias token) w) as Hro.
  destruct (Hook.check_skill_exists E (Hook.resolve_alias token) w) as [r w1].
  simpl in Hro, Hk. subst. reflexivity.
Qed.

Lemma hook_ignores_unknown_skill_witness :
  Hook.main (demo_env (prompt_input "/nonexistent-skill do something") no_faults)
            wrap_world
  = (Ok tt, wrap_world).
Proof.
  apply (hook_ignores_unknown_skill
           (demo_env (prompt_input "/nonexistent-skill do something") no_faults)
           wrap_world
           (PDict [("prompt", PStr "/nonexistent-skill do something")])
           (PStr "/nonexistent-skill do something") "nonexistent-skill").
  - reflexivity.
  - reflexivity.
  - reflexivity.
  - vm_compute. reflexivity.
Defined.

(** ** Which names the hook takes for skills *)

Lemma is_file_present p w : present w p -> Sys.is_file p w = (Ok true, w).
Proof.
  intros (c & Hc & Hacc). unfold Sys.is_file. rewrite Hc.
  destruct c; try reflexivity. now contradiction Hacc.
Qed.

Lemma is_file_false p w :
  files w !! p = None -> Sys.is_file p w = (Ok false, w).
Proof. intros H. unfold Sys.is_file. now rewrite H. Qed.

Lemma is_file_raises p w :
  files w !! p = Some Inaccessible -> Sys.is_file p w = (Raise OSError, w).
Proof. intros H. unfold Sys.is_file. now rewrite H. Qed.

Lemma accessible_present p w :
  accessible w -> is_Some (files w !! p) -> present w p.
Proof. intros Hacc [c Hc]. exists c. split; [exact Hc|]. intros ->. now apply (Hacc p). Qed.

Lemma is_file_true p w :
  accessible w -> is_Some (files w !! p) -> Sys.is_file p w = (Ok true, w).
Proof. intros Hacc H. now apply is_file_present, accessible_present. Qed.

Lemma is_file_spec p w :
  accessible w ->
  Sys.is_file p w = (Ok (bool_decide (is_Some (files w !! p))), w).
Proof.
  intros Hacc. destruct (files w !! p) as [c|] eqn:Hc.
  - rewrite bool_decide_true by eauto. apply is_file_true; [exact Hacc|].
    rewrite Hc. eauto.
  - rewrite bool_decide_false by (intros [? [=]]). now apply is_file_false.
Qed.

Lemma check_skill_exists_local_file (E : env) (name : string) (w : world) :
  let command := (Hook.claude_dir E ++ ["commands"]) ++ [name +:+ ".md"] in
  let skill := (Hook.claude_dir E ++ ["skills"]) ++ [name; "SKILL.md"] in
  present w command \/ (files w !! command = None /\ present w skill) ->
  Hook.check_skill_exists E name w = (Ok true, w).
Proof.
  intros command skill H. unfold Hook.check_skill_exists. cbv zeta.
  rewrite M_bind_unfold. fold command.
  destruct H as [H|[Hc H]].
  - rewrite is_file_present by exact H. reflexivity.
  - rewrite is_file_false by exact Hc.
    rewrite M_bind_unfold. fold skill. rewrite is_file_present by exact H.
    reflexivity.
Qed.

(** A command file or a skill file of the user decides: with
    [commands/<name>.md] in place, or without it and with
    [skills/<name>/SKILL.md] in place, [check_skill_exists] returns [True]
    whatever the plugin registry holds, and changes nothing. *)
Theorem check_skill_exists_local (E : env) (name : string) (w : world) :
  let command := (Hook.claude_dir E ++ ["commands"]) ++ [name +:+ ".md"] in
  let skill := (Hook.claude_dir E ++ ["skills"]) ++ [name; "SKILL.md"] in
  present w command \/ (files w !! command = None /\ present w skill) ->
  Hook.check_skill_exists E name w = (Ok true, w).
Proof. apply check_skill_exists_local_file. Qed.

Lemma check_skill_exists_local_witness :
  Hook.check_skill_exists (demo_env StdinBlank no_faults) "session-wrap:wrap" wrap_world
  = (Ok true, wrap_world).
Proof.
  apply (check_skill_exists_local (demo_env StdinBlank no_faults)
           "session-wrap:wrap" wrap_world).
  right. split; [vm_compute; reflexivity|].
  exists markdown. split; [vm_compute; reflexivity|discriminate].
Defined.

(** A name whose command file cannot be examined, one too long for a file
    name say, makes [check_skill_exists] raise [OSError], and [main] with
    it: the lookup is outside every handler. *)
Theorem hook_lookup_failure_leaves_main (E : env) (w : world) (name : string) :
  recorded_name E = Some name ->
  files w !! ((Hook.claude_dir E ++ ["commands"]) ++ [name +:+ ".md"])
    = Some Inaccessible ->
  Hook.check_skill_exists E name w = (Raise OSError, w) /\
  Hook.main E w = (Raise OSError, w).
Proof.
  intros Hname Hfile.
  assert (Hcheck : Hook.check_skill_exists E name w = (Raise OSError, w)).
  { unfold Hook.check_skill_exists. cbv zeta.
    rewrite M_bind_unfold, is_file_raises by exact Hfile. reflexivity. }
  split; [exact Hcheck|].
  unfold recorded_name in Hname. unfold Hook.main.
  rewrite M_bind_unfold. unfold lift at 1.
  destruct (Hook.read_stdin_json E) as [input|]; [|discriminate].
  destruct (Py.get input "prompt" (PStr "")) as [prompt|] eqn:Hprompt;
    [|discriminate].
  destruct (Hook.extract_command prompt) as [[token|]|] eqn:Htoken;
    try discriminate.
  injection Hname as <-.
  pose proof (extract_command_truthy _ _ Htoken) as Htruthy.
  destruct input; try discriminate;
    rewrite M_bind_unfold; unfold lift at 1; rewrite Htruthy;
    cbn [negb]; rewrite M_bind_unfold; unfold lift at 1; rewrite Htoken;
    cbv zeta; rewrite M_bind_unfold, Hcheck; reflexivity.
Qed.

Lemma hook_lookup_failure_leaves_main_witness :
  let E := demo_env (prompt_input ("/" +:+ long_token +:+ " now")) no_faults in
  Hook.check_skill_exists E long_token long_name_world
    = (Raise OSError, long_name_world) /\
  Hook.main E long_name_world = (Raise OSError, long_name_world).
Proof.
  apply (hook_lookup_failure_leaves_main
           (demo_env (prompt_input ("/" +:+ long_token +:+ " now")) no_faults)
           long_name_world long_token).
  - vm_compute. reflexivity.
  - vm_compute. reflexivity.
Defined.

Lemma check_skill_exists_without_registry (E : env) (name : string) (w : world) :
  let registry := (Hook.claude_dir E ++ ["plugins"]) ++ ["installed_plugins.json"] in
  files w !! ((Hook.claude_dir E ++ ["commands"]) ++ [name +:+ ".md"]) = None ->
  files w !! ((Hook.claude_dir E ++ ["skills"]) ++ [name; "SKILL.md"]) = None ->
  accessible w ->
  files w !! registry = None \/
  Sys.read_json registry w = (Raise OSError, w) \/
  Sys.read_json registry w = (Raise JSONDecodeError, w) ->
  Hook.check_skill_exists E name w = (Ok false, w).
Proof.
  intros registry Hc Hs Hacc Hr. unfold Hook.check_skill_exists. cbv zeta.
  rewrite M_bind_unfold, is_file_false by exact Hc.
  rewrite M_bind_unfold, is_file_false by exact Hs.
  rewrite M_bind_unfold. fold registry.
  destruct (files w !! registry) as [c|] eqn:Hreg.
  - rewrite is_file_true by (rewrite ?Hreg; eauto).
    rewrite M_bind_unfold. unfold try_except, fmap, M_fmap.
    destruct Hr as [[=]|[-> | ->]]; reflexivity.
  - rewrite is_file_false by exact Hreg. reflexivity.
Qed.

Lemma plugin_has_skill_spec E w pn sn entry :
  accessible w ->
  plain_entry entry ->
  exists b, Hook.plugin_has_skill E pn sn entry w = (Ok b, w) /\
            (b = true <-> entry_confirms E w pn sn entry).
Proof.
  intros Hacc (d & -> & Hpath). unfold Hook.plugin_has_skill, entry_confirms.
  rewrite M_bind_unfold. unfold lift at 1. cbn [Py.get].
  destruct (Py.dict_get d "installPath") as [v|] eqn:Hv; cbn [default from_option id].
  2:{ exists false. split; [reflexivity|]. split; [discriminate|].
      intros (d' & s & [= <-] & Hs & _). congruence. }
  destruct Hpath as [Hf|[s ->]].
  { rewrite Hf. exists false. split; [reflexivity|]. split; [discriminate|].
    intros (d' & s & [= <-] & Hs & Hne & _). rewrite Hv in Hs. injection Hs as ->.
    simpl in Hf. destruct (String.eqb_spec s ""); [contradiction|discriminate]. }
  cbn [Py.truthy]. destruct (String.eqb_spec s "") as [->|Hne]; cbn [negb].
  { exists false. split; [reflexivity|]. split; [discriminate|].
    intros (d' & s & [= <-] & Hs & Hne & _). rewrite Hv in Hs. now injection Hs as <-. }
  rewrite M_bind_unfold, is_file_spec by exact Hacc.
  destruct (decide (is_Some (files w !! (locate E s ++ ["SKILL.md"])))) as [H1|H1].
  { rewrite bool_decide_true by exact H1. exists true. split; [reflexivity|].
    split; [|reflexivity]. intros _. exists d, s. tauto. }
  rewrite bool_decide_false by exact H1. rewrite M_bind_unfold.
  assert (Hnamed :
    (if (sn =? "")%string then mret false
     else Sys.is_file (locate E s ++ ["skills"; sn; "SKILL.md"])) w =
    (Ok (bool_decide (sn <> "" /\
           is_Some (files w !! (locate E s ++ ["skills"; sn; "SKILL.md"])))), w)).
  { destruct (String.eqb_spec sn "") as [->|Hsn].
    - rewrite bool_decide_false by (intros [? _]; congruence). reflexivity.
    - rewrite is_file_spec by exact Hacc.
      f_equal. f_equal. apply bool_decide_ext. tauto. }
  rewrite Hnamed. clear Hnamed.
  destruct (decide (sn <> "" /\
      is_Some (files w !! (locate E s ++ ["skills"; sn; "SKILL.md"])))) as [H2|H2].
  { rewrite bool_decide_true by exact H2. exists true. split; [reflexivity|].
    split; [|reflexivity]. intros _. exists d, s. tauto. }
  rewrite bool_decide_false by exact H2. rewrite is_file_spec by exact Hacc.
  eexists. split; [reflexivity|]. rewrite bool_decide_eq_true. split.
  - intros H3. exists d, s. tauto.
  - intros (d' & s' & [= <-] & Hs & _ & [H|[H|H]]); rewrite Hv in Hs;
      injection Hs as <-; tauto.
Qed.

Lemma scan_entries_spec E w pn sn l :
  accessible w ->
  (forall entry, entry ∈ l -> plain_entry entry) ->
  exists b, Hook.scan_entries E pn sn l w = (Ok b, w) /\
            (b = true <-> exists entry, entry ∈ l /\ entry_confirms E w pn sn entry).
Proof.
  intros Hacc. induction l as [|entry l IH]; intros Hpl.
  - exists false. split; [reflexivity|]. split; [discriminate|].
    intros (e & He & _). now apply elem_of_nil in He.
  - cbn [Hook.scan_entries]. rewrite M_bind_unfold.
    destruct (plugin_has_skill_spec E w pn sn entry Hacc) as (b & -> & Hb).
    { apply Hpl. left. }
    destruct b.
    + exists true. split; [reflexivity|]. split; [|reflexivity].
      intros _. exists entry. split; [left|now apply Hb].
    + destruct IH as (b & -> & Hb').
      { intros e He. apply Hpl. now right. }
      exists b. split; [reflexivity|]. rewrite Hb'. split.
      * intros (e & He & Hc). exists e. split; [now right|exact Hc].
      * intros (e & He & Hc). apply elem_of_cons in He as [->|He].
        -- apply Hb in Hc. discriminate.
        -- eauto.
Qed.

Lemma scan_plugins_finds_registered (E : env) (w : world)
    (plugin_name skill_name : string) (plugins : list (string * pyval)) :
  accessible w ->
  (forall key l entry,
     (key, PList l) ∈ plugins -> String.prefix (plugin_name +:+ "@") key = true ->
     entry ∈ l -> plain_entry entry) ->
  exists b,
    Hook.scan_plugins E plugin_name skill_name plugins w = (Ok b, w) /\
    (b = true <-> registered E w plugin_name skill_name plugins).
Proof.
  unfold registered. intros Hacc.
  induction plugins as [|[key entries] plugins IH]; intros Hpl.
  - exists false. split; [reflexivity|]. split; [discriminate|].
    intros (k & l & e & Hk & _). now apply elem_of_nil in Hk.
  - cbn [Hook.scan_plugins].
    destruct IH as (b & Hscan & Hb).
    { intros k l e Hk. apply Hpl. now right. }
    destruct (String.prefix (plugin_name +:+ "@") key) eqn:Hpre; cbn [negb].
    2:{ exists b. split; [exact Hscan|]. rewrite Hb. split.
        - intros (k & l & e & Hk & H). exists k, l, e. split; [now right|exact H].
        - intros (k & l & e & Hk & Hp & H). apply elem_of_cons in Hk as [[= -> _]|Hk].
          + congruence.
          + eauto 10. }
    destruct entries as [| | | |l| |].
    5:{ rewrite M_bind_unfold.
        destruct (scan_entries_spec E w plugin_name skill_name l Hacc) as (b1 & -> & Hb1).
        { intros e He. apply (Hpl key l e); [left|exact Hpre|exact He]. }
        destruct b1.
        - exists true. split; [reflexivity|]. split; [|reflexivity]. intros _.
          destruct Hb1 as [(e & He & Hc) _]; [reflexivity|].
          exists key, l, e. split; [left|auto].
        - exists b. split; [exact Hscan|]. rewrite Hb. split.
          + intros (k & l' & e & Hk & H). exists k, l', e. split; [now right|exact H].
          + intros (k & l' & e & Hk & Hp & He & Hc).
            apply elem_of_cons in Hk as [[= -> ->]|Hk]; [|eauto 10].
            assert (false = true) by (apply Hb1; eauto). discriminate. }
    all: exists b; (split; [exact Hscan|]); rewrite Hb; split;
      [ intros (k & l' & e & Hk & H); exists k, l', e; split; [now right|exact H]
      | intros (k & l' & e & Hk & H);
        apply elem_of_cons in Hk as [[=]|Hk]; eauto 10 ].
Qed.

Lemma check_skill_exists_in_registry (E : env) (name : string) (w : world)
    (data plugins : list (string * pyval)) (newline : bool) :
  accessible w ->
  files w !! ((Hook.claude_dir E ++ ["commands"]) ++ [name +:+ ".md"]) = None ->
  files w !! ((Hook.claude_dir E ++ ["skills"]) ++ [name; "SKILL.md"]) = None ->
  files w !! ((Hook.claude_dir E ++ ["plugins"]) ++ ["installed_plugins.json"])
    = Some (Complete (PDict data) newline) ->
  Py.dict_get data "plugins" = Some (PDict plugins) ->
  (forall key l entry,
     (key, PList l) ∈ plugins ->
     String.prefix (plugin_part name +:+ "@") key = true ->
     entry ∈ l -> plain_entry entry) ->
  exists b,
    Hook.check_skill_exists E name w = (Ok b, w) /\
    (b = true <-> registered E w (plugin_part name) (skill_part name) plugins).
Proof.
  intros Hacc Hc Hs Hr Hp Hpl. unfold Hook.check_skill_exists. cbv zeta.
  rewrite M_bind_unfold, is_file_false by exact Hc.
  rewrite M_bind_unfold, is_file_false by exact Hs.
  rewrite M_bind_unfold, is_file_true by (rewrite ?Hr; eauto).
  rewrite M_bind_unfold. unfold try_except, fmap, M_fmap, Sys.read_json.
  rewrite Hr. rewrite M_bind_unfold. unfold lift at 1. cbn [Py.get].
  rewrite Hp. cbn [default from_option id].
  unfold plugin_part, skill_part in *.
  destruct (Hook.split_colon name) as [a [b|]];
    now apply scan_plugins_finds_registered.
Qed.

(** With paths that can all be examined and a registry whose entries have
    the usual shape, [check_skill_exists] returns, changes nothing, and
    says [True] exactly
    when the name is a command file, a skill file, or a skill that an
    installed entry of a plugin [<plugin>@...] confirms: by a [SKILL.md] at
    the root of the install path, under [skills/<skill>] or under
    [skills/<plugin>]. *)
Theorem check_skill_exists_decides (E : env) (name : string) (w : world)
    (plugins : list (string * pyval)) :
  accessible w ->
  registry_holds E w plugins ->
  (forall key l entry,
     (key, PList l) ∈ plugins ->
     String.prefix (plugin_part name +:+ "@") key = true ->
     entry ∈ l -> plain_entry entry) ->
  exists b,
    Hook.check_skill_exists E name w = (Ok b, w) /\
    (b = true <->
     is_Some (files w !! ((Hook.claude_dir E ++ ["commands"]) ++ [name +:+ ".md"])) \/
     is_Some (files w !! ((Hook.claude_dir E ++ ["skills"]) ++ [name; "SKILL.md"])) \/
     registered E w (plugin_part name) (skill_part name) plugins).
Proof.
  intros Hacc Hreg Hpl.
  destruct (decide (is_Some
    (files w !! ((Hook.claude_dir E ++ ["commands"]) ++ [name +:+ ".md"])))) as [Hc|Hc].
  { exists true. split; [|tauto]. apply check_skill_exists_local_file.
    left. now apply accessible_present. }
  assert (Hc' : files w !! ((Hook.claude_dir E ++ ["commands"]) ++ [name +:+ ".md"])
                = None).
  { now apply eq_None_not_Some. }
  destruct (decide (is_Some
    (files w !! ((Hook.claude_dir E ++ ["skills"]) ++ [name; "SKILL.md"])))) as [Hs|Hs].
  { exists true. split; [|tauto]. apply check_skill_exists_local_file.
    right. split; [exact Hc'|]. now apply accessible_present. }
  assert (Hs' : files w !! ((Hook.claude_dir E ++ ["skills"]) ++ [name; "SKILL.md"])
                = None).
  { now apply eq_None_not_Some. }
  assert (Hnone : ~ registered E w (plugin_part name) (skill_part name) []).
  { intros (k & l & e & Hk & _). now apply elem_of_nil in Hk. }
  assert (Hfalse : Hook.check_skill_exists E name w = (Ok false, w) ->
    exists b, Hook.check_skill_exists E name w = (Ok b, w) /\
      (b = true <->
       is_Some (files w !! ((Hook.claude_dir E ++ ["commands"]) ++ [name +:+ ".md"])) \/
       is_Some (files w !! ((Hook.claude_dir E ++ ["skills"]) ++ [name; "SKILL.md"])) \/
       registered E w (plugin_part name) (skill_part name) [])).
  { intros ->. exists false. split; [reflexivity|]. split; [discriminate|tauto]. }
  destruct Hreg as [[-> Hreg]|(data & nl & Hfile & ->)].
  { apply Hfalse. now apply check_skill_exists_without_registry. }
  assert (Hfound : Sys.is_file
            ((Hook.claude_dir E ++ ["plugins"]) ++ ["installed_plugins.json"]) w
          = (Ok true, w)).
  { apply is_file_true; [exact Hacc|]. rewrite Hfile. eauto. }
  destruct (Py.dict_get data "plugins") as [v|] eqn:Hv.
  2:{ apply Hfalse. unfold Hook.check_skill_exists. cbv zeta.
      rewrite M_bind_unfold, is_file_false by exact Hc'.
      rewrite M_bind_unfold, is_file_false by exact Hs'.
      rewrite M_bind_unfold, Hfound.
      rewrite M_bind_unfold. unfold try_except, fmap, M_fmap, Sys.read_json.
      rewrite Hfile. rewrite M_bind_unfold. unfold lift at 1. cbn [Py.get].
      rewrite Hv. cbn [default from_option id].
      now destruct (Hook.split_colon name) as [a [b|]]. }
  destruct v as [| | | | |d|].
  6:{ destruct (check_skill_exists_in_registry E name w data d nl Hacc Hc' Hs' Hfile Hv Hpl)
        as (b & Hb & Hiff).
      exists b. split; [exact Hb|]. rewrite Hiff. tauto. }
  all: apply Hfalse; unfold Hook.check_skill_exists; cbv zeta;
    rewrite M_bind_unfold, is_file_false by exact Hc';
    rewrite M_bind_unfold, is_file_false by exact Hs';
    rewrite M_bind_unfold, Hfound;
    rewrite M_bind_unfold; unfold try_except, fmap, M_fmap, Sys.read_json;
    rewrite Hfile; rewrite M_bind_unfold; unfold lift at 1; cbn [Py.get];
    rewrite Hv; reflexivity.
Qed.

Lemma check_skill_exists_decides_witness :
  exists b,
    Hook.check_skill_exists (demo_env StdinBlank no_faults) "session-wrap:anything"
      plugin_world = (Ok b, plugin_world) /\
    (b = true <->
     is_Some (files plugin_world !!
                ((Hook.claude_dir (demo_env StdinBlank no_faults) ++ ["commands"])
                 ++ ["session-wrap:anything" +:+ ".md"])) \/
     is_Some (files plugin_world !!
                ((Hook.claude_dir (demo_env StdinBlank no_faults) ++ ["skills"])
                 ++ ["session-wrap:anything"; "SKILL.md"])) \/
     registered (demo_env StdinBlank no_faults) plugin_world
       (plugin_part "session-wrap:anything") (skill_part "session-wrap:anything")
       demo_registry).
Proof.
  apply (check_skill_exists_decides (demo_env StdinBlank no_faults)
           "session-wrap:anything" plugin_world demo_registry).
  - intros p Hp. unfold plugin_world in Hp. cbn [files] in Hp.
    apply lookup_insert_Some in Hp as [[_ [=]]|[_ Hp]].
    apply lookup_singleton_Some in Hp as [_ [=]].
  - right. exists [("version", PInt 1); ("plugins", PDict demo_registry)], true.
    split; [vm_compute; reflexivity|reflexivity].
  - intros key l entry Hkey _ Hentry.
    apply list_elem_of_singleton in Hkey. injection Hkey as _ ->.
    apply list_elem_of_singleton in Hentry. subst entry.
    eexists. split; [reflexivity|]. simpl. right. eauto.
Defined.

(** ** Where the hook and the terminal client keep the stats *)






(** A configuration file that is JSON and no object stops both: the
    hook's [get_stats_path] and the terminal client's [_load_config] raise
    [AttributeError], which none of their handlers catches. *)
Theorem config_that_is_no_object (E : env) (w : world) (doc : pyval) (newline : bool) :
  files w !! config_path E = Some (Complete doc newline) ->
  (forall items, doc <> PDict items) ->
  Hook.get_stats_path E w = (Raise AttributeError, w) /\
  Cli._load_config E w = (Raise AttributeError, w) /\
  Cli.STATS_FILE E w = (Raise AttributeError, w).
Proof.
  intros Hcfg Hno.
  unfold Hook.get_stats_path, Cli.STATS_FILE, Cli._load_config,
    Cli.CONFIG_FILE, Cli.CLAUDE_DIR. cbv zeta.
  change (home E ++ [".claude"]) with (Hook.claude_dir E). fold (config_path E).
  assert (Hfound : Sys.is_file (config_path E) w = (Ok true, w)).
  { apply is_file_present. eexists. split; [exact Hcfg|discriminate]. }
  rewrite !M_bind_unfold, !Hfound.
  unfold try_except. rewrite !M_bind_unfold. unfold Sys.read_json. rewrite Hcfg.
  destruct doc as [| | | | |items|]; try (repeat split; reflexivity).
  now contradiction (Hno items).
Qed.

Lemma config_that_is_no_object_witness :
  let E := demo_env StdinBlank no_faults in
  Hook.get_stats_path E list_config_world = (Raise AttributeError, list_config_world) /\
  Cli._load_config E list_config_world = (Raise AttributeError, list_config_world) /\
  Cli.STATS_FILE E list_config_world = (Raise AttributeError, list_config_world).
Proof.
  apply (config_that_is_no_object (demo_env StdinBlank no_faults) list_config_world
           (PList []) true).
  - vm_compute. reflexivity.
  - discriminate.
Defined.

(** The installer reads the stats from under the home directory only:
    whatever [_find_stats_path] returns lies under the home directory, and
    finding it changes nothing. *)
Theorem find_stats_path_under_home (E : env) (w w' : world) (p : path) :
  Installer._find_stats_path E w = (Ok p, w') ->
  is_under (home E) p = true /\ w' = w.
Proof.
  unfold Installer._find_stats_path. cbv zeta. rewrite M_bind_unfold.
  assert (Hdefault : is_under (home E) (Installer.CLAUDE_DIR E ++ ["skillbook-stats.json"])
                     = true).
  { unfold is_under, Installer.CLAUDE_DIR. apply bool_decide_eq_true.
    rewrite <- app_assoc. now apply prefix_app_r. }
  pose proof (readonly_is_file (Installer.CONFIG_FILE E) w) as Hro0.
  destruct (Sys.is_file (Installer.CONFIG_FILE E) w) as [[[]|e] w0];
    simpl in Hro0; subst w0; [| |discriminate].
  2:{ simpl. intros [= <- <-]. split; [exact Hdefault|reflexivity]. }
  unfold try_except. rewrite M_bind_unfold.
  pose proof (readonly_read_json (Installer.CONFIG_FILE E) w) as Hro.
  destruct (Sys.read_json (Installer.CONFIG_FILE E) w) as [[cfg|e] w1];
    simpl in Hro; subst w1.
  2:{ destruct (catches _ e); simpl; [|discriminate].
      intros [= <- <-]. split; [exact Hdefault|reflexivity]. }
  rewrite M_bind_unfold. unfold lift at 1.
  destruct (Py.contains cfg "statsFile") as [present|e].
  2:{ destruct (catches _ e); simpl; [|discriminate].
      intros [= <- <-]. split; [exact Hdefault|reflexivity]. }
  destruct present.
  2:{ simpl. intros [= <- <-]. split; [exact Hdefault|reflexivity]. }
  rewrite M_bind_unfold. unfold lift at 1.
  destruct (Py.getitem cfg "statsFile") as [raw|e].
  2:{ destruct (catches _ e); simpl; [|discriminate].
      intros [= <- <-]. split; [exact Hdefault|reflexivity]. }
  unfold lift.
  destruct (Installer._validate_stats_path E raw) as [q|e] eqn:Hv.
  - intros [= <- <-]. split; [|reflexivity].
    unfold Installer._validate_stats_path, expanduser_resolve in Hv.
    destruct raw; try discriminate.
    destruct (expands E s); [|discriminate]. cbn [mbind result_bind] in Hv.
    destruct (is_under (home E) (resolve E s)) eqn:Hu; [|discriminate].
    now injection Hv as <-.
  - destruct (catches _ e); simpl; [|discriminate].
    intros [= <- <-]. split; [exact Hdefault|reflexivity].
Qed.

Lemma find_stats_path_under_home_witness :
  is_under (home (demo_env StdinBlank no_faults))
           (demo_home ++ [".claude"; "skillbook-stats.json"]) = true /\
  evil_world = evil_world.
Proof.
  apply (find_stats_path_under_home (demo_env StdinBlank no_faults) evil_world).
  vm_compute. reflexivity.
Defined.

(** ** What recording a use keeps *)

(** A recorded use leaves the rest of the document alone: every key of
    the document other than ["skills"], ["totalUses"] and ["lastUpdated"]
    and every field of the skill other than ["uses"] and ["lastUsed"] (so
    ["pinned"]) is as before; [totalUses] is what [+ 1] makes of it, or of
    [0] if it was missing: one more for an integer, the rounded sum for a
    float; [lastUpdated] and [lastUsed] are the current date. *)
Theorem update_stats_keeps_the_rest
    (name today : string) (doc doc' : pyval) (old_level new_level : Z) :
  Hook.updated_stats name today doc = Ok (doc', old_level, new_level) ->
  exists stats stats' skill skill' total',
    doc = PDict stats /\ doc' = PDict stats' /\
    default fresh_skill (skill_of doc name) = PDict skill /\
    skill_of doc' name = Some (PDict skill') /\
    Py.add_one (default (PInt 0) (Py.dict_get stats "totalUses")) = Ok total' /\
    Py.dict_get stats' "totalUses" = Some total' /\
    (forall total,
       Py.as_int (default (PInt 0) (Py.dict_get stats "totalUses")) = Ok total ->
       total' = PInt (total + 1)) /\
    Py.dict_get stats' "lastUpdated" = Some (PStr today) /\
    Py.dict_get skill' "lastUsed" = Some (PStr today) /\
    (forall key, key <> "skills" -> key <> "totalUses" -> key <> "lastUpdated" ->
                 Py.dict_get stats' key = Py.dict_get stats key) /\
    (forall field, field <> "uses" -> field <> "lastUsed" ->
                   Py.dict_get skill' field = Py.dict_get skill field).
Proof.
  intros H. apply updated_stats_inv in H
    as (stats & skills & skill & v & v' & total' & -> & Hs & Hk & Hv & Hu & Ht & _ & _ & ->).
  pose proof (skill_of_default _ _ name Hs) as Hof.
  eexists stats, _, skill, _, total'.
  split; [reflexivity|]. split; [reflexivity|].
  split; [now rewrite Hof|].
  split; [rewrite skill_of_counted_stats; apply dict_get_set_eq|].
  split; [exact Ht|].
  split; [rewrite (dict_get_set_ne _ "lastUpdated") by discriminate;
          apply dict_get_set_eq|].
  split.
  { intros total Htotal. apply add_one_inv in Ht as [(n & Hn & ->)|(f & Hf & _)].
    - congruence.
    - rewrite Hf in Htotal. discriminate. }
  split; [apply dict_get_set_eq|].
  split; [apply dict_get_set_eq|].
  split.
  - intros key H1 H2 H3. now rewrite !dict_get_set_ne by congruence.
  - intros field H1 H2. now rewrite !dict_get_set_ne by congruence.
Qed.

Lemma update_stats_keeps_the_rest_witness :
  exists stats stats' skill skill' total',
    PDict five_items = PDict stats /\ counted_stats "commit" "2026-01-01" five_items
      [("commit", PDict [("uses", PInt 5); ("lastUsed", PStr "2025-12-31");
                         ("pinned", PBool false)])]
      [("uses", PInt 5); ("lastUsed", PStr "2025-12-31"); ("pinned", PBool false)]
      (PInt 6) (PInt 6) = PDict stats' /\
    default fresh_skill (skill_of (PDict five_items) "commit") = PDict skill /\
    skill_of (counted_stats "commit" "2026-01-01" five_items
      [("commit", PDict [("uses", PInt 5); ("lastUsed", PStr "2025-12-31");
                         ("pinned", PBool false)])]
      [("uses", PInt 5); ("lastUsed", PStr "2025-12-31"); ("pinned", PBool false)]
      (PInt 6) (PInt 6)) "commit" = Some (PDict skill') /\
    Py.add_one (default (PInt 0) (Py.dict_get stats "totalUses")) = Ok total' /\
    Py.dict_get stats' "totalUses" = Some total' /\
    (forall total,
       Py.as_int (default (PInt 0) (Py.dict_get stats "totalUses")) = Ok total ->
       total' = PInt (total + 1)) /\
    Py.dict_get stats' "lastUpdated" = Some (PStr "2026-01-01") /\
    Py.dict_get skill' "lastUsed" = Some (PStr "2026-01-01") /\
    (forall key, key <> "skills" -> key <> "totalUses" -> key <> "lastUpdated" ->
                 Py.dict_get stats' key = Py.dict_get stats key) /\
    (forall field, field <> "uses" -> field <> "lastUsed" ->
                   Py.dict_get skill' field = Py.dict_get skill field).
Proof.
  apply (update_stats_keeps_the_rest "commit" "2026-01-01" (PDict five_items) _ 7 7).
  vm_compute. reflexivity.
Defined.

(** The hook and the terminal client record a use alike: on every document
    that has a ["skills"] key and no NaN as the counter of the skill,
    [increment_usage] followed by the stamp of [save_stats] and
    [update_stats] give the same result, the same document and levels or
    the same exception.  On a counter that is NaN the two guards part:
    [uses <= 0] is false and the hook goes on to raise [ValueError] at
    [int], [uses > 0] is false and the terminal client returns level
    [0]. *)
Theorem hook_and_cli_record_alike (name today : string) (stats : list (string * pyval)) :
  is_Some (Py.dict_get stats "skills") ->
  counter (PDict stats) name <> Some (PFloat S754_nan) ->
  cli_recorded name today (PDict stats) = Hook.updated_stats name today (PDict stats) /\
  Hook.calculate_level_of (PFloat S754_nan) = Raise ValueError /\
  Cli.calc_level_of (PFloat S754_nan) = Ok 0.
Proof.
  intros Hs Hnan. split; [now apply cli_recorded_as_hook|]. split; reflexivity.
Qed.

Lemma hook_and_cli_record_alike_witness :
  cli_recorded "commit" "2026-01-01" (PDict five_items)
  = Hook.updated_stats "commit" "2026-01-01" (PDict five_items) /\
  Hook.calculate_level_of (PFloat S754_nan) = Raise ValueError /\
  Cli.calc_level_of (PFloat S754_nan) = Ok 0.
Proof.
  apply (hook_and_cli_record_alike "commit" "2026-01-01" five_items).
  - eexists. vm_compute. reflexivity.
  - vm_compute. discriminate.
Defined.

Lemma dict_get_snoc d k v k' :
  Py.dict_get (d ++ [(k, v)]) k' =
  match Py.dict_get d k' with
  | Some x => Some x
  | None => if String.eqb k k' then Some v else None
  end.
Proof.
  induction d as [|[k0 v0] d IH]; simpl; [reflexivity|].
  destruct (String.eqb k0 k'); [reflexivity|exact IH].
Qed.

Lemma dict_set_absent d k v : Py.dict_get d k = None -> Py.dict_set d k v = d ++ [(k, v)].
Proof.
  induction d as [|[k0 v0] d IH]; simpl; [reflexivity|].
  destruct (String.eqb k0 k); [discriminate|]. intros H. now rewrite IH.
Qed.

Lemma dict_set_snoc d k v v' :
  Py.dict_get d k = None -> Py.dict_set (d ++ [(k, v)]) k v' = d ++ [(k, v')].
Proof.
  induction d as [|[k0 v0] d IH]; simpl.
  - now rewrite String.eqb_refl.
  - destruct (String.eqb k0 k); [discriminate|]. intros H. now rewrite IH.
Qed.

(** A document without a ["skills"] key parts the two: the terminal
    client's [increment_usage] and [pin_skill] raise [KeyError], while the
    hook's [update_stats] goes on as if the document ended with an empty
    ["skills"]. *)
Theorem missing_skills_key (name today : string) (stats : list (string * pyval)) :
  Py.dict_get stats "skills" = None ->
  Cli.increment_usage_doc name today (PDict stats) = Raise KeyError /\
  Cli.pin_skill_doc name (PDict stats) = Raise KeyError /\
  Hook.updated_stats name today (PDict stats) =
    Hook.updated_stats name today (PDict (stats ++ [("skills", PDict [])])).
Proof.
  intros Hnone. split; [|split].
  - unfold Cli.increment_usage_doc. py_step. now rewrite Hnone.
  - unfold Cli.pin_skill_doc. py_step. now rewrite Hnone.
  - unfold Hook.updated_stats, fresh_skill. py_step.
    rewrite !dict_get_snoc, Hnone. cbn [String.eqb Ascii.eqb Bool.eqb].
    cbn [default from_option id]. py_step.
    rewrite bool_decide_false by (intros [? [=]]). py_step.
    cbn [Py.dict_set Py.dict_get]. rewrite String.eqb_refl. py_step.
    simpl (Py.dict_get [_; _; _] "uses"). py_step.
    change (Hook.calculate_level 0) with (@Ok Z 0). py_step.
    assert (H1 : Hook.calculate_level (0 + 1) = Ok 3) by (vm_compute; reflexivity).
    destruct (Py.dict_get stats "totalUses") as [t|]; cbn [default from_option id].
    1: destruct t; py_step; try reflexivity.
    all: rewrite H1; py_step; rewrite dict_set_snoc by exact Hnone;
      rewrite (dict_set_absent stats "skills") by exact Hnone; reflexivity.
Qed.

Lemma missing_skills_key_witness :
  Cli.increment_usage_doc "foo" "2026-01-01" (PDict [("version", PInt 1)])
    = Raise KeyError /\
  Cli.pin_skill_doc "foo" (PDict [("version", PInt 1)]) = Raise KeyError /\
  Hook.updated_stats "foo" "2026-01-01" (PDict [("version", PInt 1)]) =
    Hook.updated_stats "foo" "2026-01-01"
      (PDict ([("version", PInt 1)] ++ [("skills", PDict [])])).
Proof.
  apply (missing_skills_key "foo" "2026-01-01" [("version", PInt 1)]). reflexivity.
Defined.

(** ** Pinning *)

Lemma dict_set_same d k v : Py.dict_get d k = Some v -> Py.dict_set d k v = d.
Proof.
  induction d as [|[k0 v0] d IH]; simpl; [discriminate|].
  destruct (String.eqb_spec k0 k) as [->|Hne].
  - now intros [= ->].
  - intros H. now rewrite IH.
Qed.

Lemma dict_set_again d k k' v v' x :
  k <> k' ->
  Py.dict_set (Py.dict_set (Py.dict_set d k v) k' x) k v' =
  Py.dict_set (Py.dict_set d k v') k' x.
Proof.
  intros Hne. induction d as [|[k0 v0] d IH]; simpl.
  - destruct (String.eqb_spec k k'); [contradiction|]. simpl.
    now rewrite String.eqb_refl.
  - destruct (String.eqb_spec k0 k) as [->|Hk]; simpl.
    + destruct (String.eqb_spec k k'); [contradiction|]. simpl.
      now rewrite String.eqb_refl.
    + destruct (String.eqb_spec k0 k') as [->|Hk']; simpl.
      * destruct (String.eqb_spec k' k); [congruence|]. now rewrite dict_set_set.
      * destruct (String.eqb_spec k0 k); [contradiction|]. now rewrite IH.
Qed.

Lemma cli_pinned_eq name today stats skills skill :
  Py.dict_get stats "skills" = Some (PDict skills) ->
  default fresh_skill (Py.dict_get skills name) = PDict skill ->
  cli_pinned name today (PDict stats) =
    (let pinned := negb (Py.truthy (default (PBool false) (Py.dict_get skill "pinned"))) in
     Ok (pinned_stats name today stats skills skill pinned, pinned)).
Proof. apply pin_skill_eq. Qed.

(** Two toggles undo each other.  On a skill whose record has a boolean
    [pinned], they return the opposite flag and then the flag itself, and
    the document is as it was but for [lastUpdated]; on a skill never seen
    they return [True] and [False] and leave the fresh record behind:
    [uses] [0], [pinned] [False]. *)
Theorem pin_twice (name day1 day2 : string) (stats skills : list (string * pyval)) :
  Py.dict_get stats "skills" = Some (PDict skills) ->
  (forall skill b,
     Py.dict_get skills name = Some (PDict skill) ->
     Py.dict_get skill "pinned" = Some (PBool b) ->
     cli_pinned_twice name day1 day2 (PDict stats) =
       Ok (PDict (Py.dict_set stats "lastUpdated" (PStr day2)), negb b, b)) /\
  (Py.dict_get skills name = None ->
   cli_pinned_twice name day1 day2 (PDict stats) =
     Ok (PDict (Py.dict_set
                  (Py.dict_set stats "skills" (PDict (skills ++ [(name, fresh_skill)])))
                  "lastUpdated" (PStr day2)), true, false)).
Proof.
  intros Hskills.
  assert (Hgen : forall skill b,
    default fresh_skill (Py.dict_get skills name) = PDict skill ->
    Py.dict_get skill "pinned" = Some (PBool b) ->
    cli_pinned_twice name day1 day2 (PDict stats) =
      Ok (PDict (Py.dict_set (Py.dict_set stats "skills"
                   (PDict (Py.dict_set skills name (PDict skill))))
                   "lastUpdated" (PStr day2)), negb b, b)).
  { intros skill b Hskill Hpinned. unfold cli_pinned_twice.
    rewrite (cli_pinned_eq _ _ _ _ _ Hskills Hskill). cbv zeta.
    rewrite Hpinned. cbn [default from_option id Py.truthy mbind result_bind].
    unfold pinned_stats.
    erewrite cli_pinned_eq.
    2:{ rewrite (dict_get_set_ne _ "lastUpdated" "skills") by discriminate.
        apply dict_get_set_eq. }
    2:{ rewrite dict_get_set_eq. reflexivity. }
    cbv zeta. rewrite dict_get_set_eq.
    cbn [default from_option id Py.truthy mbind result_bind].
    rewrite negb_involutive. unfold pinned_stats.
    rewrite !dict_set_set.
    rewrite (dict_set_same skill "pinned" (PBool b)) by exact Hpinned.
    rewrite (dict_set_again stats "skills" "lastUpdated") by discriminate.
    now rewrite dict_set_set. }
  split.
  - intros skill b Hskill Hpinned.
    rewrite (Hgen skill b) by (rewrite ?Hskill; auto).
    rewrite (dict_set_same skills name) by exact Hskill.
    rewrite (dict_set_same stats "skills") by exact Hskills. reflexivity.
  - intros Habsent.
    rewrite (Hgen [("uses", PInt 0); ("lastUsed", PNone); ("pinned", PBool false)] false)
      by (rewrite ?Habsent; reflexivity).
    rewrite (dict_set_absent skills name) by exact Habsent. reflexivity.
Qed.

Lemma pin_twice_witness :
  cli_pinned_twice "commit" "2026-01-01" "2026-01-02" (PDict five_items)
  = Ok (PDict (Py.dict_set five_items "lastUpdated" (PStr "2026-01-02")), true, false).
Proof.
  apply (proj1 (pin_twice "commit" "2026-01-01" "2026-01-02" five_items
                  [("commit", PDict [("uses", PInt 5); ("lastUsed", PStr "2025-12-31");
                                     ("pinned", PBool false)])]
                  eq_refl)
           [("uses", PInt 5); ("lastUsed", PStr "2025-12-31"); ("pinned", PBool false)]
           false); reflexivity.
Defined.

(** A toggle changes the flag and nothing else: the other fields of the
    skill (so [uses]), the other skills and the other keys of the document
    but [lastUpdated] are as before. *)
Theorem pin_skill_changes_the_flag_only
    (name today : string) (stats skills skill : list (string * pyval)) :
  Py.dict_get stats "skills" = Some (PDict skills) ->
  default fresh_skill (Py.dict_get skills name) = PDict skill ->
  exists stats' pinned,
    cli_pinned name today (PDict stats) = Ok (PDict stats', pinned) /\
    pinned = negb (Py.truthy (default (PBool false) (Py.dict_get skill "pinned"))) /\
    skill_of (PDict stats') name
      = Some (PDict (Py.dict_set skill "pinned" (PBool pinned))) /\
    (forall other, other <> name ->
                   skill_of (PDict stats') other = skill_of (PDict stats) other) /\
    (forall key, key <> "skills" -> key <> "lastUpdated" ->
                 Py.dict_get stats' key = Py.dict_get stats key) /\
    Py.dict_get stats' "lastUpdated" = Some (PStr today) /\
    uses_in (PDict stats') name = uses_in (PDict stats) name.
Proof.
  intros Hskills Hskill.
  rewrite (cli_pinned_eq _ _ _ _ _ Hskills Hskill). cbv zeta.
  set (pinned := negb _). unfold pinned_stats. eexists _, pinned.
  split; [reflexivity|]. split; [reflexivity|].
  assert (Hof : forall k,
    skill_of (PDict (Py.dict_set (Py.dict_set stats "skills"
      (PDict (Py.dict_set skills name
                (PDict (Py.dict_set skill "pinned" (PBool pinned))))))
      "lastUpdated" (PStr today))) k =
    Py.dict_get (Py.dict_set skills name
                   (PDict (Py.dict_set skill "pinned" (PBool pinned)))) k).
  { intros k. apply skill_of_dict.
    rewrite (dict_get_set_ne _ "lastUpdated") by discriminate. apply dict_get_set_eq. }
  split; [rewrite Hof; apply dict_get_set_eq|].
  split.
  { intros other Hne. rewrite Hof, (skill_of_dict _ _ _ Hskills).
    now apply dict_get_set_ne. }
  split.
  { intros key H1 H2. now rewrite !dict_get_set_ne by congruence. }
  split; [apply dict_get_set_eq|].
  unfold uses_in. rewrite Hof, dict_get_set_eq, (skill_of_dict _ _ _ Hskills).
  cbn [skill_field]. rewrite dict_get_set_ne by discriminate.
  destruct (Py.dict_get skills name) as [x|]; simpl in Hskill.
  - subst x. reflexivity.
  - unfold fresh_skill in Hskill. injection Hskill as <-. reflexivity.
Qed.

Lemma pin_skill_changes_the_flag_only_witness :
  exists stats' pinned,
    cli_pinned "commit" "2026-01-01" (PDict five_items) = Ok (PDict stats', pinned) /\
    pinned = negb (Py.truthy (default (PBool false)
               (Py.dict_get [("uses", PInt 5); ("lastUsed", PStr "2025-12-31");
                             ("pinned", PBool false)] "pinned"))) /\
    skill_of (PDict stats') "commit"
      = Some (PDict (Py.dict_set [("uses", PInt 5); ("lastUsed", PStr "2025-12-31");
                                  ("pinned", PBool false)] "pinned" (PBool pinned))) /\
    (forall other, other <> "commit" ->
                   skill_of (PDict stats') other = skill_of (PDict five_items) other) /\
    (forall key, key <> "skills" -> key <> "lastUpdated" ->
                 Py.dict_get stats' key = Py.dict_get five_items key) /\
    Py.dict_get stats' "lastUpdated" = Some (PStr "2026-01-01") /\
    uses_in (PDict stats') "commit" = uses_in (PDict five_items) "commit".
Proof.
  apply (pin_skill_changes_the_flag_only "commit" "2026-01-01" five_items
           [("commit", PDict [("uses", PInt 5); ("lastUsed", PStr "2025-12-31");
                              ("pinned", PBool false)])]);
    reflexivity.
Defined.

(** ** Rarity *)

(** The rarity has six tiers, [0] to [5] stars, and grows with the count;
    a count of [1] or more has at least one star; and the text of the
    terminal client is as many stars as the dashboard counts, or a question
    mark for a count below [1]. *)
Theorem rarity_tiers (u v : Z) :
  0 <= Dashboard.get_rarity_stars u <= 5 /\
  (u <= v -> Dashboard.get_rarity_stars u <= Dashboard.get_rarity_stars v) /\
  (1 <= u <-> 1 <= Dashboard.get_rarity_stars u) /\
  Cli.get_rarity u =
    (if 1 <=? u then stars (Z.to_nat (Dashboard.get_rarity_stars u)) else "❓").
Proof.
  unfold Dashboard.get_rarity_stars, Cli.get_rarity.
  repeat match goal with
         | |- context [?a <=? ?b] => destruct (Z.leb_spec a b)
         end; try lia; repeat split; try lia; try reflexivity;
    intros; try lia.
Qed.

(** ** Merging the sources of skills *)

Lemma update_get acc found k :
  NoDup found.*1 ->
  Py.dict_get (Py.update acc found) k =
  match Py.dict_get found k with
  | Some v => Some v
  | None => Py.dict_get acc k
  end.
Proof.
  unfold Py.update. revert acc.
  induction found as [|[k0 v0] found IH]; intros acc Hnd; [reflexivity|].
  csimpl in Hnd. apply NoDup_cons in Hnd as [Hk0 Hnd]. cbn [fold_left Py.dict_get].
  rewrite IH by exact Hnd. cbn [fst snd].
  destruct (String.eqb_spec k0 k) as [->|Hne].
  - destruct (Py.dict_get found k) as [v|] eqn:Hget.
    + exfalso. apply Hk0. clear -Hget.
      induction found as [|[k1 v1] found IH]; [discriminate|]. simpl in Hget. csimpl.
      destruct (String.eqb_spec k1 k) as [->|]; [left|right; auto].
    + apply dict_get_set_eq.
  - destruct (Py.dict_get found k); [reflexivity|]. now apply dict_get_set_ne.
Qed.

Lemma add_missing_get acc found k :
  Py.dict_get (Cli.add_missing acc found) k =
  match Py.dict_get acc k with
  | Some v => Some v
  | None => Py.dict_get found k
  end.
Proof.
  unfold Cli.add_missing. revert acc.
  induction found as [|[k0 v0] found IH]; intros acc.
  - simpl. now destruct (Py.dict_get acc k).
  - cbn [fold_left Py.dict_get fst snd]. rewrite IH.
    destruct (decide (is_Some (Py.dict_get acc k0))) as [Hin|Hout].
    + rewrite bool_decide_true by exact Hin.
      destruct (Py.dict_get acc k) as [v|] eqn:Hk; [reflexivity|].
      destruct (String.eqb_spec k0 k) as [->|]; [|reflexivity].
      rewrite Hk in Hin. now destruct Hin.
    + rewrite bool_decide_false by exact Hout.
      destruct (String.eqb_spec k0 k) as [->|Hne].
      * rewrite dict_get_set_eq.
        destruct (Py.dict_get acc k) as [v|] eqn:Hk; [|reflexivity].
        exfalso. apply Hout. eauto.
      * now rewrite dict_get_set_ne.
Qed.

Lemma update_NoDup acc found : NoDup acc.*1 -> NoDup (Py.update acc found).*1.
Proof.
  unfold Py.update. revert acc.
  induction found as [|[k0 v0] found IH]; intros acc Hnd; [exact Hnd|].
  cbn [fold_left]. apply IH. now apply dict_set_NoDup.
Qed.

Lemma add_missing_NoDup acc found :
  NoDup acc.*1 -> NoDup (Cli.add_missing acc found).*1.
Proof.
  unfold Cli.add_missing. revert acc.
  induction found as [|[k0 v0] found IH]; intros acc Hnd; [exact Hnd|].
  cbn [fold_left]. apply IH. destruct (bool_decide _); [exact Hnd|].
  now apply dict_set_NoDup.
Qed.

(** The first source wins: in what [scan_all_skills] returns a name has
    the entry of the first of local skills, commands, plugin skills and
    project skills that knows it, and every name occurs once. *)
Theorem scan_all_skills_precedence
    (local commands plugins project : list (string * pyval)) (name : string) :
  NoDup local.*1 ->
  NoDup (Cli.scan_all_skills local commands plugins project).*1 /\
  Py.dict_get (Cli.scan_all_skills local commands plugins project) name =
    match Py.dict_get local name with
    | Some info => Some info
    | None =>
        match Py.dict_get commands name with
        | Some info => Some info
        | None =>
            match Py.dict_get plugins name with
            | Some info => Some info
            | None => Py.dict_get project name
            end
        end
    end.
Proof.
  intros Hnd. unfold Cli.scan_all_skills. split.
  - repeat apply add_missing_NoDup. apply update_NoDup. constructor.
  - rewrite !add_missing_get, update_get by exact Hnd. simpl.
    destruct (Py.dict_get local name), (Py.dict_get commands name),
      (Py.dict_get plugins name); reflexivity.
Qed.

Lemma scan_all_skills_precedence_witness :
  NoDup (Cli.scan_all_skills
           [("commit", PStr "local")]
           [("commit", PStr "command"); ("deploy", PStr "command")] [] []).*1 /\
  Py.dict_get (Cli.scan_all_skills
                 [("commit", PStr "local")]
                 [("commit", PStr "command"); ("deploy", PStr "command")] [] [])
              "commit" =
    match Py.dict_get [("commit", PStr "local")] "commit" with
    | Some info => Some info
    | None =>
        match Py.dict_get [("commit", PStr "command"); ("deploy", PStr "command")]
                          "commit" with
        | Some info => Some info
        | None =>
            match Py.dict_get [] "commit" with
            | Some info => Some info
            | None => Py.dict_get [] "commit"
            end
        end
    end.
Proof.
  apply (scan_all_skills_precedence
           [("commit", PStr "local")]
           [("commit", PStr "command"); ("deploy", PStr "command")] [] [] "commit").
  apply NoDup_singleton.
Defined.

(** ** The hook entry in settings.json *)

Lemma matches_from_hits i entries ms :
  Installer.matches_from i entries = Ok ms <->
  exists hits, Forall2 (fun entry hit => entry_hit entry = Ok hit) entries hits /\
               ms = collect i hits.
Proof.
  revert i ms. induction entries as [|entry entries IH]; intros i ms.
  - simpl. split.
    + intros [= <-]. exists []. split; [constructor|reflexivity].
    + intros (hits & Hf & ->). inversion Hf. reflexivity.
  - cbn [Installer.matches_from]. split.
    + intros H.
      assert (exists hit, entry_hit entry = Ok hit /\
                (matches ← Installer.matches_from (S i) entries;
                 Ok match hit with Some cmd => (i, cmd) :: matches | None => matches end)
                = Ok ms) as (hit & Hhit & H').
      { unfold entry_hit.
        destruct (Py.get entry "hooks" (PList [])) as [hooks|]; [|discriminate].
        cbn [mbind result_bind] in *.
        destruct (Py.iter hooks) as [hs|]; [|discriminate].
        cbn [mbind result_bind] in *.
        destruct (Installer.first_match hs) as [hit|]; [|discriminate].
        cbn [mbind result_bind] in *. eauto. }
      destruct (Installer.matches_from (S i) entries) as [ms'|] eqn:Hms; [|discriminate].
      cbn [mbind result_bind] in H'. injection H' as <-.
      apply IH in Hms as (hits & Hf & ->).
      exists (hit :: hits). split; [now constructor|]. now destruct hit.
    + intros (hits & Hf & ->). inversion Hf as [|? hit ? hits' Hhit Hf']; subst.
      unfold entry_hit in Hhit.
      destruct (Py.get entry "hooks" (PList [])) as [hooks|]; [|discriminate].
      cbn [mbind result_bind] in *.
      destruct (Py.iter hooks) as [hs|]; [|discriminate].
      cbn [mbind result_bind] in *. rewrite Hhit. cbn [mbind result_bind].
      assert (Hms : Installer.matches_from (S i) entries = Ok (collect (S i) hits')).
      { apply IH. eauto. }
      rewrite Hms. cbn [mbind result_bind]. now destruct hit.
Qed.

Lemma collect_bounds i hits :
  Forall (fun ic => (i <= ic.1 < i + length hits)%nat) (collect i hits).
Proof.
  revert i. induction hits as [|[cmd|] hits IH]; intros i; simpl.
  - constructor.
  - constructor; [simpl; lia|].
    eapply Forall_impl; [apply IH|]. simpl. intros; lia.
  - eapply Forall_impl; [apply IH|]. simpl. intros; lia.
Qed.

Lemma collect_increasing i hits :
  StronglySorted (fun a b => (a.1 < b.1)%nat) (collect i hits).
Proof.
  revert i. induction hits as [|[cmd|] hits IH]; intros i; simpl.
  - constructor.
  - constructor; [apply IH|].
    eapply Forall_impl; [apply collect_bounds|]. simpl. intros; lia.
  - apply IH.
Qed.

Lemma collect_lookup i hits j cmd :
  (j, cmd) ∈ collect i hits <-> (i <= j)%nat /\ hits !! (j - i)%nat = Some (Some cmd).
Proof.
  revert i. induction hits as [|hit hits IH]; intros i.
  - simpl. split; [intros H; now apply elem_of_nil in H|intros [_ [=]]].
  - assert (Hrest : (j, cmd) ∈ collect (S i) hits <->
                    (i < j)%nat /\ (hit :: hits) !! (j - i)%nat = Some (Some cmd)).
    { rewrite IH. split; intros [Hij Hl]; (split; [lia|]).
      - replace (j - i)%nat with (S (j - S i)) by lia. exact Hl.
      - replace (j - i)%nat with (S (j - S i)) in Hl by lia. exact Hl. }
    destruct hit as [c|]; simpl collect.
    + rewrite elem_of_cons, Hrest. split.
      * intros [[= -> ->]|[Hij Hl]]; [|split; [lia|exact Hl]].
        split; [lia|]. now rewrite Nat.sub_diag.
      * intros [Hij Hl]. destruct (decide (j = i)) as [->|Hne].
        -- left. rewrite Nat.sub_diag in Hl. now injection Hl as ->.
        -- right. split; [lia|exact Hl].
    + rewrite Hrest. split; intros [Hij Hl]; (split; [|exact Hl]); try lia.
      destruct (decide (j = i)) as [->|Hne]; [|lia].
      rewrite Nat.sub_diag in Hl. discriminate.
Qed.

Lemma find_hook_indices_entries settings :
  Installer._find_hook_indices settings =
  (entries ← user_prompt_entries settings; Installer.matches_from 0 entries).
Proof.
  unfold Installer._find_hook_indices, user_prompt_entries.
  destruct (Py.get settings "hooks" (PDict [])) as [hs|]; [|reflexivity].
  cbn [mbind result_bind].
  destruct (Py.get hs "UserPromptSubmit" (PList [])) as [u|]; [|reflexivity].
  cbn [mbind result_bind]. now destruct (Py.iter u).
Qed.

Lemma first_match_pattern hooks cmd :
  Installer.first_match hooks = Ok (Some cmd) ->
  Installer.any_pattern_in Installer.HOOK_DETECT_PATTERNS cmd = Ok true.
Proof.
  induction hooks as [|hook hooks IH]; [discriminate|].
  cbn [Installer.first_match].
  destruct (Py.get hook "command" (PStr "")) as [c|]; [|discriminate].
  cbn [mbind result_bind].
  destruct (Installer.any_pattern_in Installer.HOOK_DETECT_PATTERNS c)
    as [[]|] eqn:Hc; cbn [mbind result_bind]; [|exact IH|discriminate].
  now intros [= <-].
Qed.

Lemma entry_hit_pattern entry cmd :
  entry_hit entry = Ok (Some cmd) ->
  Installer.any_pattern_in Installer.HOOK_DETECT_PATTERNS cmd = Ok true.
Proof.
  unfold entry_hit.
  destruct (Py.get entry "hooks" (PList [])) as [hooks|]; [|discriminate].
  cbn [mbind result_bind].
  destruct (Py.iter hooks) as [hs|]; [|discriminate].
  cbn [mbind result_bind]. apply first_match_pattern.
Qed.

Lemma Forall2_hits_lookup entries hits i :
  Forall2 (fun entry hit => entry_hit entry = Ok hit) entries hits ->
  forall hit, hits !! i = Some hit <->
              exists entry, entries !! i = Some entry /\ entry_hit entry = Ok hit.
Proof.
  intros Hf hit. split.
  - intros Hh. destruct (Forall2_lookup_r _ _ _ _ _ Hf Hh) as (e & He & Hhit). eauto.
  - intros (e & He & Hhit).
    destruct (Forall2_lookup_l _ _ _ _ _ Hf He) as (h & Hh & Hhit').
    rewrite Hhit in Hhit'. now injection Hhit' as <-.
Qed.

(** What [_find_hook_indices] returns: the indices go up, an index is
    listed with a command exactly when the entry at that index holds a
    skillbook hook and the command is that of its first one, and a pattern
    occurs in every command listed. *)
Theorem find_hook_indices_sound (settings : pyval) (found : list (nat * pyval)) :
  Installer._find_hook_indices settings = Ok found ->
  exists entries,
    user_prompt_entries settings = Ok entries /\
    StronglySorted (fun a b => (a.1 < b.1)%nat) found /\
    (forall i cmd,
       (i, cmd) ∈ found <->
       exists entry, entries !! i = Some entry /\ entry_hit entry = Ok (Some cmd)) /\
    Forall (fun ic =>
              Installer.any_pattern_in Installer.HOOK_DETECT_PATTERNS ic.2 = Ok true)
           found.
Proof.
  rewrite find_hook_indices_entries.
  destruct (user_prompt_entries settings) as [entries|]; [|discriminate].
  cbn [mbind result_bind]. intros H.
  apply matches_from_hits in H as (hits & Hf & ->).
  exists entries. split; [reflexivity|]. split; [apply collect_increasing|].
  assert (Hin : forall i cmd,
    (i, cmd) ∈ collect 0 hits <->
    exists entry, entries !! i = Some entry /\ entry_hit entry = Ok (Some cmd)).
  { intros i cmd. rewrite collect_lookup, Nat.sub_0_r.
    rewrite (Forall2_hits_lookup _ _ i Hf). split; [tauto|]. split; [lia|tauto]. }
  split; [exact Hin|].
  apply Forall_forall. intros [i cmd] Hic. apply Hin in Hic as (entry & _ & Hhit).
  now apply entry_hit_pattern in Hhit.
Qed.

Lemma find_hook_indices_sound_witness :
  exists entries,
    user_prompt_entries old_settings = Ok entries /\
    StronglySorted (fun a b => (a.1 < b.1)%nat)
      [(1%nat, PStr "bash ~/.claude/hooks/command-usage-tracker.sh")] /\
    (forall i cmd,
       (i, cmd) ∈ [(1%nat, PStr "bash ~/.claude/hooks/command-usage-tracker.sh")] <->
       exists entry, entries !! i = Some entry /\ entry_hit entry = Ok (Some cmd)) /\
    Forall (fun ic =>
              Installer.any_pattern_in Installer.HOOK_DETECT_PATTERNS ic.2 = Ok true)
           [(1%nat, PStr "bash ~/.claude/hooks/command-usage-tracker.sh")].
Proof.
  apply (find_hook_indices_sound old_settings). vm_compute. reflexivity.
Defined.

Lemma collect_app i hits hits' :
  collect i (hits ++ hits') = collect i hits ++ collect (i + length hits) hits'.
Proof.
  revert i. induction hits as [|[c|] hits IH]; intros i; simpl.
  - now rewrite Nat.add_0_r.
  - rewrite IH. now replace (S i + length hits)%nat with (i + S (length hits))%nat by lia.
  - rewrite IH. now replace (S i + length hits)%nat with (i + S (length hits))%nat by lia.
Qed.

Lemma collect_nil i hits :
  collect i hits = [] <-> Forall (fun hit => hit = None) hits.
Proof.
  revert i. induction hits as [|[c|] hits IH]; intros i; simpl.
  - split; [constructor|reflexivity].
  - split; [discriminate|]. intros H. inversion H. discriminate.
  - rewrite IH. split; [now constructor|]. intros H. now inversion H.
Qed.

Lemma imap_replaced new i entries hits :
  length entries = length hits ->
  imap (fun j entry =>
          if bool_decide ((i + j)%nat ∈ (collect i hits).*1) then new else entry)
       entries
  = replaced new entries hits.
Proof.
  revert i hits. induction entries as [|entry entries IH]; intros i [|hit hits] Hlen;
    try discriminate; [reflexivity|].
  injection Hlen as Hlen. rewrite imap_cons. rewrite Nat.add_0_r.
  assert (Htail : imap
      ((fun j entry0 =>
          if bool_decide ((i + j)%nat ∈ (collect i (hit :: hits)).*1)
          then new else entry0) ∘ S) entries = replaced new entries hits).
  { rewrite <- (IH (S i) hits Hlen). apply imap_ext. intros j e _.
    assert (Hiff : (i + S j)%nat ∈ (collect i (hit :: hits)).*1 <->
                   (S i + j)%nat ∈ (collect (S i) hits).*1).
    { replace (i + S j)%nat with (S i + j)%nat by lia.
      destruct hit as [c|]; simpl; [|reflexivity].
      rewrite elem_of_cons. split; [|auto]. intros [Heq|H]; [lia|exact H]. }
    cbn [compose]. now rewrite (bool_decide_ext _ _ Hiff). }
  rewrite Htail. destruct hit as [c|]; simpl.
  - rewrite bool_decide_true by left. reflexivity.
  - rewrite bool_decide_false; [reflexivity|].
    intros Hin. apply list_elem_of_fmap in Hin as ([j c] & Heq & Hin).
    pose proof (collect_bounds (S i) hits) as Hb.
    rewrite Forall_forall in Hb. apply Hb in Hin. simpl in Heq, Hin. lia.
Qed.

Lemma hook_command_pattern source :
  Installer.any_pattern_in Installer.HOOK_DETECT_PATTERNS
    (PStr (Installer.hook_command source)) = Ok true.
Proof. destruct source; vm_compute; reflexivity. Qed.

Lemma entry_hit_new hc :
  Installer.any_pattern_in Installer.HOOK_DETECT_PATTERNS (PStr hc) = Ok true ->
  entry_hit (Installer.new_hook_entry hc) = Ok (Some (PStr hc)).
Proof.
  intros H. unfold entry_hit, Installer.new_hook_entry.
  cbn [Py.get Py.dict_get String.eqb Ascii.eqb Bool.eqb default from_option id
       mbind result_bind Py.iter Installer.first_match].
  simpl (Py.dict_get _ "command"). cbn [default from_option id mbind result_bind].
  rewrite H. reflexivity.
Qed.

Lemma replaced_hits hc entries hits :
  entry_hit (Installer.new_hook_entry hc) = Ok (Some (PStr hc)) ->
  Forall2 (fun entry hit => entry_hit entry = Ok hit) entries hits ->
  Forall2 (fun entry hit => entry_hit entry = Ok hit)
    (replaced (Installer.new_hook_entry hc) entries hits) (relabelled hc hits).
Proof.
  intros Hnew Hf. induction Hf as [|entry hit entries hits Hhit Hf IH]; simpl.
  - constructor.
  - destruct hit as [c|]; constructor; assumption.
Qed.

Lemma existsb_relabelled hc i hits :
  collect i hits <> [] ->
  existsb (fun ic => Installer.is_command hc ic.2) (collect i (relabelled hc hits)) = true.
Proof.
  revert i. induction hits as [|[c|] hits IH]; intros i; simpl.
  - congruence.
  - intros _. now rewrite String.eqb_refl.
  - apply IH.
Qed.

Lemma user_prompt_entries_set items hitems entries :
  user_prompt_entries
    (PDict (Py.dict_set items "hooks"
       (PDict (Py.dict_set hitems "UserPromptSubmit" (PList entries))))) = Ok entries.
Proof.
  unfold user_prompt_entries. cbn [Py.get]. rewrite dict_get_set_eq.
  cbn [default from_option id mbind result_bind Py.get]. rewrite dict_get_set_eq.
  reflexivity.
Qed.

Lemma merged_settings_inv hc settings settings' :
  Installer.merged_settings hc settings = Ok (Some settings') ->
  exists items hitems entries hits,
    settings = PDict items /\
    default (PDict []) (Py.dict_get items "hooks") = PDict hitems /\
    user_prompt_entries settings = Ok entries /\
    Forall2 (fun entry hit => entry_hit entry = Ok hit) entries hits /\
    existsb (fun ic => Installer.is_command hc ic.2) (collect 0 hits) = false /\
    settings' = PDict (Py.dict_set items "hooks"
                  (PDict (Py.dict_set hitems "UserPromptSubmit"
                            (PList (merged_entries hc entries hits))))).
Proof.
  unfold Installer.merged_settings. rewrite find_hook_indices_entries.
  unfold user_prompt_entries.
  destruct settings as [| | | | |items|]; try discriminate.
  cbn [Py.get mbind result_bind].
  destruct (default (PDict []) (Py.dict_get items "hooks")) as [| | | | |hitems|] eqn:Hh;
    try discriminate.
  cbn [Py.get mbind result_bind].
  destruct (Py.iter (default (PList []) (Py.dict_get hitems "UserPromptSubmit")))
    as [entries|] eqn:Hiter; [|discriminate].
  cbn [mbind result_bind].
  destruct (Installer.matches_from 0 entries) as [ms|] eqn:Hms; [|discriminate].
  cbn [mbind result_bind].
  apply matches_from_hits in Hms as (hits & Hf & ->).
  destruct (existsb _ (collect 0 hits)) eqn:Hex; [discriminate|].
  cbn [Py.as_dict mbind result_bind]. intros [= <-].
  exists items, hitems, entries, hits. repeat split; try assumption.
  do 6 f_equal. unfold merged_entries.
  destruct (collect 0 hits) as [|m ms] eqn:Hc; [reflexivity|].
  rewrite <- Hc. rewrite <- (imap_replaced _ 0) by (eapply Forall2_length; eassumption).
  reflexivity.
Qed.

Lemma merged_entries_hits hc entries hits :
  entry_hit (Installer.new_hook_entry hc) = Ok (Some (PStr hc)) ->
  Forall2 (fun entry hit => entry_hit entry = Ok hit) entries hits ->
  exists hits',
    Forall2 (fun entry hit => entry_hit entry = Ok hit)
      (merged_entries hc entries hits) hits' /\
    existsb (fun ic => Installer.is_command hc ic.2) (collect 0 hits') = true.
Proof.
  intros Hnew Hf. unfold merged_entries.
  destruct (collect 0 hits) as [|m ms] eqn:Hc.
  - exists (hits ++ [Some (PStr hc)]). split.
    + apply Forall2_app; [exact Hf|]. repeat constructor. exact Hnew.
    + rewrite collect_app, Hc. simpl. now rewrite String.eqb_refl.
  - exists (relabelled hc hits). split; [now apply replaced_hits|].
    apply existsb_relabelled. congruence.
Qed.

(** Registering is idempotent: in the settings that [merge_settings_json]
    writes the hook is registered with the command of this installation,
    so that a second run finds it and writes nothing. *)
Theorem merge_settings_registers_once
    (source : Installer.hook_source) (settings settings' : pyval) :
  Installer.merged_settings (Installer.hook_command source) settings
    = Ok (Some settings') ->
  Installer.merged_settings (Installer.hook_command source) settings' = Ok None.
Proof.
  intros H. set (hc := Installer.hook_command source) in *.
  apply merged_settings_inv in H
    as (items & hitems & entries & hits & -> & Hh & He & Hf & Hex & ->).
  pose proof (entry_hit_new hc (hook_command_pattern source)) as Hnew.
  destruct (merged_entries_hits hc entries hits Hnew Hf) as (hits' & Hf' & Hex').
  unfold Installer.merged_settings. rewrite find_hook_indices_entries.
  rewrite user_prompt_entries_set. cbn [mbind result_bind].
  assert (Hms : Installer.matches_from 0 (merged_entries hc entries hits)
                = Ok (collect 0 hits')).
  { apply matches_from_hits. eauto. }
  rewrite Hms. cbn [mbind result_bind]. now rewrite Hex'.
Qed.

Lemma merge_settings_registers_once_witness :
  Installer.merged_settings (Installer.hook_command Installer.PyHook)
    (PDict [("theme", PStr "dark");
            ("hooks", PDict [("UserPromptSubmit",
               PList [command_entry "echo hi";
                      Installer.new_hook_entry Installer.HOOK_COMMAND])])])
  = Ok None.
Proof.
  apply (merge_settings_registers_once Installer.PyHook old_settings).
  vm_compute. reflexivity.
Defined.

Lemma replaced_lookup new entries hits i :
  length entries = length hits ->
  replaced new entries hits !! i =
  match hits !! i with
  | Some (Some _) => Some new
  | Some None => entries !! i
  | None => None
  end.
Proof.
  revert hits i. induction entries as [|entry entries IH]; intros [|hit hits] i Hlen;
    try discriminate; [reflexivity|].
  injection Hlen as Hlen. destruct i as [|i].
  - now destruct hit.
  - destruct hit; simpl; now apply IH.
Qed.

(** Registering leaves the rest of the settings alone: the keys other than
    ["hooks"], the keys of the hooks section other than
    ["UserPromptSubmit"], and every entry that holds no skillbook hook, at
    its index; an entry of the result is an entry of before or the new
    one. *)
Theorem merge_settings_keeps_the_rest (hc : string) (settings settings' : pyval) :
  Installer.merged_settings hc settings = Ok (Some settings') ->
  exists items items' hooks hooks' entries entries',
    settings = PDict items /\ settings' = PDict items' /\
    default (PDict []) (Py.dict_get items "hooks") = PDict hooks /\
    Py.dict_get items' "hooks" = Some (PDict hooks') /\
    user_prompt_entries settings = Ok entries /\
    Py.dict_get hooks' "UserPromptSubmit" = Some (PList entries') /\
    (forall key, key <> "hooks" -> Py.dict_get items' key = Py.dict_get items key) /\
    (forall key, key <> "UserPromptSubmit" ->
                 Py.dict_get hooks' key = Py.dict_get hooks key) /\
    (forall i entry,
       entries !! i = Some entry -> entry_hit entry = Ok None ->
       entries' !! i = Some entry) /\
    (forall i entry',
       entries' !! i = Some entry' ->
       entries !! i = Some entry' \/ entry' = Installer.new_hook_entry hc).
Proof.
  intros H. apply merged_settings_inv in H
    as (items & hitems & entries & hits & -> & Hh & He & Hf & Hex & ->).
  eexists items, _, hitems, _, entries, _. split; [reflexivity|]. split; [reflexivity|].
  split; [exact Hh|]. split; [apply dict_get_set_eq|]. split; [exact He|].
  split; [apply dict_get_set_eq|].
  split; [intros key Hk; now apply dict_get_set_ne|].
  split; [intros key Hk; now apply dict_get_set_ne|].
  pose proof (Forall2_length _ _ _ Hf) as Hlen.
  unfold merged_entries. destruct (collect 0 hits) as [|m ms] eqn:Hc.
  - split.
    + intros i entry Hi _. now apply lookup_app_l_Some.
    + intros i entry' Hi. apply lookup_app_Some in Hi as [Hi|[_ Hi]]; [now left|].
      right. apply list_lookup_singleton_Some in Hi as [_ <-]. reflexivity.
  - split.
    + intros i entry Hi Hhit. rewrite replaced_lookup by exact Hlen.
      destruct (Forall2_lookup_l _ _ _ _ _ Hf Hi) as (hit & -> & Hhit').
      rewrite Hhit in Hhit'. injection Hhit' as <-. exact Hi.
    + intros i entry' Hi. rewrite replaced_lookup in Hi by exact Hlen.
      destruct (hits !! i) as [[c|]|]; [|now left|discriminate].
      right. now injection Hi as <-.
Qed.

Lemma merge_settings_keeps_the_rest_witness :
  exists items items' hooks hooks' entries entries',
    old_settings = PDict items /\
    PDict [("theme", PStr "dark");
           ("hooks", PDict [("UserPromptSubmit",
              PList [command_entry "echo hi";
                     Installer.new_hook_entry Installer.HOOK_COMMAND])])]
      = PDict items' /\
    default (PDict []) (Py.dict_get items "hooks") = PDict hooks /\
    Py.dict_get items' "hooks" = Some (PDict hooks') /\
    user_prompt_entries old_settings = Ok entries /\
    Py.dict_get hooks' "UserPromptSubmit" = Some (PList entries') /\
    (forall key, key <> "hooks" -> Py.dict_get items' key = Py.dict_get items key) /\
    (forall key, key <> "UserPromptSubmit" ->
                 Py.dict_get hooks' key = Py.dict_get hooks key) /\
    (forall i entry,
       entries !! i = Some entry -> entry_hit entry = Ok None ->
       entries' !! i = Some entry) /\
    (forall i entry',
       entries' !! i = Some entry' ->
       entries !! i = Some entry' \/
       entry' = Installer.new_hook_entry Installer.HOOK_COMMAND).
Proof.
  apply (merge_settings_keeps_the_rest Installer.HOOK_COMMAND old_settings).
  vm_compute. reflexivity.
Defined.

Lemma insert_desc_last x l :
  Forall (fun y => (x.1 < y.1)%nat) l -> Installer.insert_desc x l = l ++ [x].
Proof.
  induction 1 as [|y l Hy _ IH]; simpl; [reflexivity|].
  destruct (Nat.leb_spec y.1 x.1); [lia|]. now rewrite IH.
Qed.

Lemma sorted_desc_collect i hits :
  Installer.sorted_desc (collect i hits) = rev (collect i hits).
Proof.
  unfold Installer.sorted_desc.
  pose proof (collect_increasing i hits) as Hs.
  induction Hs as [|x l _ IH Hx]; simpl; [reflexivity|].
  rewrite IH. apply insert_desc_last. apply Forall_rev. exact Hx.
Qed.

Lemma pops_keep prefix entries hits :
  length entries = length hits ->
  fold_left (fun l ic => delete ic.1 l) (rev (collect (length prefix) hits))
    (prefix ++ entries)
  = prefix ++ keep entries hits.
Proof.
  revert prefix hits. induction entries as [|entry entries IH];
    intros prefix [|hit hits] Hlen; try discriminate; [reflexivity|].
  injection Hlen as Hlen.
  pose proof (IH (prefix ++ [entry]) hits Hlen) as IH'.
  rewrite length_app, Nat.add_1_r, <- !app_assoc in IH'. simpl in IH'.
  destruct hit as [c|]; simpl.
  - rewrite fold_left_app, IH'. simpl.
    rewrite delete_middle. reflexivity.
  - exact IH'.
Qed.


Lemma dict_get_without_ne key d k :
  k <> key -> Py.dict_get (Installer.without key d) k = Py.dict_get d k.
Proof.
  intros Hk. unfold Installer.without. induction d as [|[k0 v] d IH]; [reflexivity|].
  rewrite filter_cons. destruct (decide ((k0, v).1 <> key)) as [Hne|He]; simpl in *.
  - destruct (String.eqb_spec k0 k); [reflexivity|exact IH].
  - apply dec_stable in He. subst k0.
    destruct (String.eqb_spec key k); [congruence|exact IH].
Qed.

Lemma without_absent key d : Py.dict_get d key = None -> Installer.without key d = d.
Proof.
  unfold Installer.without. induction d as [|[k v] d IH]; [reflexivity|].
  simpl. destruct (String.eqb_spec k key) as [->|Hne]; [discriminate|].
  intros H. rewrite filter_cons, decide_True by exact Hne. now rewrite IH.
Qed.

Lemma without_set_absent key d v :
  Py.dict_get d key = None -> Installer.without key (Py.dict_set d key v) = d.
Proof.
  unfold Installer.without. induction d as [|[k v0] d IH]; simpl.
  - intros _. rewrite filter_cons, decide_False by (simpl; auto). reflexivity.
  - destruct (String.eqb_spec k key) as [->|Hne]; [discriminate|].
    intros H. rewrite filter_cons, decide_True by exact Hne. now rewrite IH.
Qed.







Lemma unregistered_settings_eq items hitems entries hits :
  items <> [] ->
  default (PDict []) (Py.dict_get items "hooks") = PDict hitems ->
  user_prompt_entries (PDict items) = Ok entries ->
  Forall2 (fun entry hit => entry_hit entry = Ok hit) entries hits ->
  collect 0 hits <> [] ->
  Installer.unregistered_settings (PDict items) =
    Ok (Some (PDict (kept_settings items (kept_hooks hitems (keep entries hits))))).
Proof.
  intros Hne Hh He Hf Hc. unfold Installer.unregistered_settings.
  cbn [Py.truthy]. destruct items as [|it items]; [contradiction|]. cbn [negb].
  rewrite find_hook_indices_entries, He. cbn [mbind result_bind].
  assert (Hms : Installer.matches_from 0 entries = Ok (collect 0 hits))
    by (apply matches_from_hits; eauto).
  rewrite Hms. cbn [mbind result_bind].
  destruct (collect 0 hits) as [|m ms] eqn:Hcol; [contradiction|].
  cbn [Py.get]. rewrite Hh. cbn [mbind result_bind Py.get].
  unfold user_prompt_entries in He. cbn [Py.get] in He. rewrite Hh in He.
  cbn [mbind result_bind Py.get] in He. rewrite He.
  cbn [mbind result_bind Py.as_dict].
  rewrite <- Hcol, sorted_desc_collect.
  pose proof (pops_keep [] entries hits (Forall2_length _ _ _ Hf)) as Hpop.
  simpl in Hpop. rewrite Hpop. reflexivity.
Qed.

Lemma keep_all_none entries hits :
  Forall2 (fun entry hit => entry_hit entry = Ok hit) entries hits ->
  Forall (fun hit => hit = None) hits ->
  forall extra c, keep (entries ++ [extra]) (hits ++ [Some c]) = entries.
Proof.
  intros Hf. induction Hf as [|entry hit entries hits _ Hf IH]; intros Hn extra c.
  - reflexivity.
  - inversion Hn as [|? ? -> Hn']; subst. simpl. now rewrite IH.
Qed.

(** Installing and then uninstalling gives the settings back: on settings
    that hold no skillbook hook and no empty hook structure,
    [merge_settings_json] writes settings from which [uninstall] writes
    the settings of the start. *)
Theorem install_then_uninstall (source : Installer.hook_source) (settings : pyval) :
  tidy settings ->
  Installer._find_hook_indices settings = Ok [] ->
  exists installed,
    Installer.merged_settings (Installer.hook_command source) settings
      = Ok (Some installed) /\
    Installer.unregistered_settings installed = Ok (Some settings).
Proof.
  intros (items & -> & Htidy) Hfind. set (hc := Installer.hook_command source).
  pose proof Hfind as Hfind'. rewrite find_hook_indices_entries in Hfind'.
  destruct (user_prompt_entries (PDict items)) as [entries|] eqn:He; [|discriminate].
  cbn [mbind result_bind] in Hfind'.
  apply matches_from_hits in Hfind' as (hits & Hf & Hcol). symmetry in Hcol.
  pose proof (proj1 (collect_nil 0 hits) Hcol) as Hnone.
  (* the two sections *)
  assert (exists hitems,
    default (PDict []) (Py.dict_get items "hooks") = PDict hitems /\
    (hitems = [] -> Py.dict_get items "hooks" = None) /\
    (hitems <> [] -> Py.dict_get items "hooks" = Some (PDict hitems)) /\
    default (PList []) (Py.dict_get hitems "UserPromptSubmit") = PList entries /\
    (entries = [] -> Py.dict_get hitems "UserPromptSubmit" = None) /\
    (entries <> [] -> Py.dict_get hitems "UserPromptSubmit" = Some (PList entries)))
    as (hitems & Hh & Hh0 & Hh1 & Hu & Hu0 & Hu1).
  { unfold user_prompt_entries in He. cbn [Py.get mbind result_bind] in He.
    destruct (Py.dict_get items "hooks") as [hooks|].
    - destruct Htidy as (hitems & -> & Hne & Hups). exists hitems.
      cbn [default from_option id Py.get mbind result_bind] in He.
      split; [reflexivity|]. split; [contradiction|]. split; [reflexivity|].
      destruct (Py.dict_get hitems "UserPromptSubmit") as [ups|].
      + destruct Hups as (l & -> & Hl).
        cbn [default from_option id Py.iter] in He. injection He as <-.
        split; [reflexivity|]. split; [contradiction|reflexivity].
      + cbn [default from_option id Py.iter] in He. injection He as <-.
        split; [reflexivity|]. split; [reflexivity|]. intros H. now contradiction H.
    - exists []. cbn [default from_option id Py.get Py.dict_get mbind result_bind
                      Py.iter] in He.
      injection He as <-. repeat split; try reflexivity; intros H; now contradiction H. }
  set (new := Installer.new_hook_entry hc).
  set (installed := PDict (Py.dict_set items "hooks"
         (PDict (Py.dict_set hitems "UserPromptSubmit" (PList (entries ++ [new])))))).
  exists installed. split.
  - unfold Installer.merged_settings. rewrite Hfind. cbn [mbind result_bind existsb].
    cbn [Py.get]. rewrite Hh. cbn [mbind result_bind Py.get]. rewrite Hu.
    reflexivity.
  - pose proof (entry_hit_new hc (hook_command_pattern source)) as Hnew.
    unfold installed.
    rewrite (unregistered_settings_eq _ (Py.dict_set hitems "UserPromptSubmit"
               (PList (entries ++ [new]))) (entries ++ [new]) (hits ++ [Some (PStr hc)])).
    + rewrite (keep_all_none entries hits Hf Hnone). do 3 f_equal.
      assert (Hhooks : kept_hooks
                (Py.dict_set hitems "UserPromptSubmit" (PList (entries ++ [new])))
                entries = hitems).
      { unfold kept_hooks. destruct entries as [|e entries'] eqn:Hentries.
        - apply without_set_absent. now apply Hu0.
        - rewrite dict_set_set. apply dict_set_same. now apply Hu1. }
      rewrite Hhooks. unfold kept_settings.
      destruct hitems as [|h hitems'] eqn:Hhitems.
      * apply without_set_absent. now apply Hh0.
      * rewrite dict_set_set. apply dict_set_same. now apply Hh1.
    + destruct items; simpl; [discriminate|]. destruct p.
      destruct (String.eqb s "hooks"); discriminate.
    + now rewrite dict_get_set_eq.
    + apply user_prompt_entries_set.
    + apply Forall2_app; [exact Hf|]. repeat constructor. exact Hnew.
    + rewrite collect_app, Hcol. discriminate.
Qed.

Lemma install_then_uninstall_witness :
  exists installed,
    Installer.merged_settings (Installer.hook_command Installer.PyHook) plain_settings
      = Ok (Some installed) /\
    Installer.unregistered_settings installed = Ok (Some plain_settings).
Proof.
  apply (install_then_uninstall Installer.PyHook plain_settings).
  - eexists. split; [reflexivity|]. simpl. eexists. split; [reflexivity|].
    split; [discriminate|]. simpl. eexists. split; [reflexivity|discriminate].
  - vm_compute. reflexivity.
Defined.
